(** * Multi-Management Platform backend: authorization and generic resources

    A shallow embedding of [backend/main.py] (with the request models of
    [backend/schemas.py] and the store handle of [backend/database.py]).

    The request handlers are written in a state-and-exception monad over a
    [World] that holds the MongoDB collections, the id counter of the
    driver, the readings of the system clock and a trace of the store
    accesses.  Documents are ordered key/value lists, as BSON documents
    and Python dicts are.

    Outside the model: floating-point numbers in documents, the limits
    of the store on the size and the nesting of a document, the HTTP
    serialisation of handler results, the two helpers of [database.py]
    that [main.py] imports and never calls, and the cryptography of the
    password and token libraries, which enter through the [Libraries]
    class. *)

From Stdlib Require Import ZArith NArith List String Ascii Bool Lia.
From Stdlib Require Import Permutation Sorted.
Import ListNotations.
Open Scope string_scope.
Open Scope Z_scope.

#[local] Set Warnings "-register-all".

(* ================================================================== *)
(** * Python and BSON values *)
(* ================================================================== *)

(** [bson.ObjectId]: twelve bytes, kept as the number they spell. *)
Definition ObjectId := N.

(** [datetime.datetime] (naive, UTC): microseconds since 1970-01-01. *)
Definition datetime := Z.

Inductive Value : Type :=
| VNone
| VBool (b : bool)
| VInt (z : Z)
| VStr (s : string)
| VTime (t : datetime)
| VOid (o : ObjectId)
| VList (l : list Value)
| VDict (d : list (string * Value)).

(** A Python dict with string keys: insertion-ordered, one entry per key
    when built with [dict_set]. *)
Definition dict (V : Type) := list (string * V).
Definition Dict := dict Value.

Section DictOps.
Context {V : Type}.

(** [d.get(k)] *)
Fixpoint dict_get (k : string) (d : dict V) : option V :=
  match d with
  | [] => None
  | (k', v) :: rest => if String.eqb k k' then Some v else dict_get k rest
  end.

(** [d[k] = v]: an existing key keeps its place, a new one goes last. *)
Fixpoint dict_set (k : string) (v : V) (d : dict V) : dict V :=
  match d with
  | [] => [(k, v)]
  | (k', v') :: rest =>
      if String.eqb k k' then (k, v) :: rest
      else (k', v') :: dict_set k v rest
  end.

(** [d.update(other)] *)
Definition dict_update (d other : dict V) : dict V :=
  fold_left (fun acc kv => dict_set (fst kv) (snd kv) acc) other d.

(** [d.pop(k, None)], the popped value dropped *)
Fixpoint dict_pop (k : string) (d : dict V) : dict V :=
  match d with
  | [] => []
  | (k', v) :: rest =>
      if String.eqb k k' then rest else (k', v) :: dict_pop k rest
  end.
End DictOps.

(** Equality of BSON values, as the server compares them: embedded
    documents field by field and in order. *)
Fixpoint value_eqb (a b : Value) : bool :=
  match a, b with
  | VNone, VNone => true
  | VBool x, VBool y => Bool.eqb x y
  | VInt x, VInt y => Z.eqb x y
  | VStr x, VStr y => String.eqb x y
  | VTime x, VTime y => Z.eqb x y
  | VOid x, VOid y => N.eqb x y
  | VList xs, VList ys =>
      (fix go (xs ys : list Value) : bool :=
         match xs, ys with
         | [], [] => true
         | x :: xs', y :: ys' => value_eqb x y && go xs' ys'
         | _, _ => false
         end) xs ys
  | VDict xs, VDict ys =>
      (fix go (xs ys : list (string * Value)) : bool :=
         match xs, ys with
         | [], [] => true
         | (k, x) :: xs', (k', y) :: ys' =>
             String.eqb k k' && value_eqb x y && go xs' ys'
         | _, _ => false
         end) xs ys
  | _, _ => false
  end.

(** [x == "..."] for a value that may not be a string *)
Definition is_str (v : option Value) (s : string) : bool :=
  match v with
  | Some (VStr x) => String.eqb x s
  | _ => false
  end.

(* ================================================================== *)
(** * ObjectId: [str(oid)] and [ObjectId(s)] *)
(* ================================================================== *)

Definition hex_char (n : N) : ascii :=
  match n with
  | 0%N => "0" | 1%N => "1" | 2%N => "2" | 3%N => "3"
  | 4%N => "4" | 5%N => "5" | 6%N => "6" | 7%N => "7"
  | 8%N => "8" | 9%N => "9" | 10%N => "a" | 11%N => "b"
  | 12%N => "c" | 13%N => "d" | 14%N => "e" | _ => "f"
  end%char.

Definition hex_val (c : ascii) : option N :=
  let n := N_of_ascii c in
  if ((48 <=? n) && (n <=? 57))%N then Some (n - 48)%N
  else if ((97 <=? n) && (n <=? 102))%N then Some (n - 87)%N
  else if ((65 <=? n) && (n <=? 70))%N then Some (n - 55)%N
  else None.

(** The [w] low hexadecimal digits of [n], most significant first. *)
Fixpoint hex_digits (w : nat) (n : N) : string :=
  match w with
  | O => EmptyString
  | S w' => hex_digits w' (n / 16)%N ++ String (hex_char (n mod 16)%N) EmptyString
  end.

(** [str(oid)]: 24 lower-case hexadecimal digits. *)
Definition oid_str (o : ObjectId) : string := hex_digits 24 o.

(** [Py_ISSPACE]: space, tab, line feed, vertical tab, form feed,
    carriage return. *)
Definition is_space (c : ascii) : bool :=
  let n := N_of_ascii c in
  (n =? 32)%N || ((9 <=? n) && (n <=? 13))%N.

(** [bytes.fromhex(s)]: two hexadecimal digits per byte, in either case,
    white space skipped before each pair and at the end; [None] stands
    for its [ValueError]. *)
Fixpoint fromhex (s : string) : option (list N) :=
  match s with
  | EmptyString => Some []
  | String c rest =>
      if is_space c then fromhex rest
      else
        match hex_val c, rest with
        | Some hi, String c' rest' =>
            match hex_val c', fromhex rest' with
            | Some lo, Some bytes => Some ((hi * 16 + lo)%N :: bytes)
            | _, _ => None
            end
        | _, _ => None
        end
  end.

(** The number that bytes spell, most significant first. *)
Definition bytes_value (bytes : list N) : N :=
  fold_left (fun acc b => (acc * 256 + b)%N) bytes 0%N.

(** What [ObjectId(s)] makes of a string that it accepts: an id of
    twelve bytes, or, when the 24 characters held white space, an object
    of fewer bytes.  Such an object equals no id of twelve bytes, and so
    no stored [_id]. *)
Inductive ParsedId : Type :=
| FullId (o : ObjectId)
| ShortId (bytes : list N).

(** [ObjectId(s)] on a string: the length must be 24 and
    [bytes.fromhex] must accept it; [None] stands for
    [bson.errors.InvalidId]. *)
Definition ObjectId_parse (s : string) : option ParsedId :=
  if Nat.eqb (String.length s) 24 then
    match fromhex s with
    | Some bytes =>
        if Nat.eqb (List.length bytes) 12 then Some (FullId (bytes_value bytes))
        else Some (ShortId bytes)
    | None => None
    end
  else None.

(** The id that a string spells with 24 hexadecimal digits; [None] for
    every other string, be it refused by [ObjectId(s)] or read as fewer
    than twelve bytes. *)
Definition ObjectId_of_str (s : string) : option ObjectId :=
  match ObjectId_parse s with
  | Some (FullId o) => Some o
  | _ => None
  end.

(** Ids are twelve bytes. *)
Definition oid_limit : N := (16 ^ 24)%N.

(* ================================================================== *)
(** * Calendar fields of a datetime *)
(* ================================================================== *)

Definition us_per_day : Z := 86400 * 1000000.

(** Proleptic Gregorian date of a day number (days since 1970-01-01). *)
Definition civil_from_days (days : Z) : Z * Z * Z :=
  let z := days + 719468 in
  let era := z / 146097 in
  let doe := z - era * 146097 in
  let yoe := (doe - doe / 1460 + doe / 36524 - doe / 146096) / 365 in
  let y := yoe + era * 400 in
  let doy := doe - (365 * yoe + yoe / 4 - yoe / 100) in
  let mp := (5 * doy + 2) / 153 in
  let d := doy - (153 * mp + 2) / 5 + 1 in
  let m := if mp <? 10 then mp + 3 else mp - 9 in
  (if m <=? 2 then y + 1 else y, m, d).

Definition days_from_civil (y m d : Z) : Z :=
  let y' := if m <=? 2 then y - 1 else y in
  let era := y' / 400 in
  let yoe := y' - era * 400 in
  let doy := (153 * (if 2 <? m then m - 3 else m + 9) + 2) / 5 + d - 1 in
  let doe := yoe * 365 + yoe / 4 - yoe / 100 + doy in
  era * 146097 + doe - 719468.

(** [dt.year], [dt.month] *)
Definition dt_year (t : datetime) : Z := fst (fst (civil_from_days (t / us_per_day))).
Definition dt_month (t : datetime) : Z := snd (fst (civil_from_days (t / us_per_day))).

(** [datetime(y, m, d)]: midnight of that day *)
Definition datetime_ymd (y m d : Z) : datetime := days_from_civil y m d * us_per_day.

(** [timedelta(minutes=m)], in microseconds *)
Definition timedelta_minutes (m : Z) : Z := m * 60 * 1000000.

(* ================================================================== *)
(** * The document store (pymongo) *)
(* ================================================================== *)

(** A stored document: MongoDB gives every document an [_id]; the other
    fields are in [body]. *)
Record Document : Type := mkDocument {
  _id : ObjectId;
  body : Dict
}.

(** [doc.get(k)] on a document read from the store *)
Definition doc_get (k : string) (d : Document) : option Value :=
  if String.eqb k "_id" then Some (VOid (_id d)) else dict_get k (body d).

(** [doc[k] = v] for a key other than ["_id"] (the handlers assign only
    ["id"] and ["role"]) *)
Definition doc_set (k : string) (v : Value) (d : Document) : Document :=
  mkDocument (_id d) (dict_set k v (body d)).

(** [doc.pop(k, None)] for a key other than ["_id"] *)
Definition doc_pop (k : string) (d : Document) : Document :=
  mkDocument (_id d) (dict_pop k (body d)).

(** What a query says about one field.  The fragment of the query
    language covered: [$eq] (which a plain value abbreviates), [$ne],
    [$in], [$nin], [$exists], and [$gte] against a date. *)
Inductive Cond : Type :=
| CEq (v : Value)
| CNe (v : Value)
| CIn (vs : list Value)
| CNin (vs : list Value)
| CExists (b : bool)
| CGteTime (t : datetime).

(** A query document: field name to condition, all of which must hold.
    Keys are names of top-level fields, without a dot and without a
    leading dollar sign (which the server would read as a path and as an
    operator): the handlers write their keys as literals, and a filter
    sent by a caller has keys of type [FieldName]. *)
Definition Filter := dict Cond.

(** A key that names a top-level field. *)
Definition plain_key (k : string) : bool :=
  negb (String.prefix "$" k)
  && negb (existsb (fun c => Ascii.eqb c "." || Ascii.eqb c zero)
                   (list_ascii_of_string k)).

Record FieldName : Type := mkFieldName {
  field_name : string;
  field_name_plain : plain_key field_name = true
}.

(** The conditions a caller may send: each on a top-level field. *)
Definition FieldFilter := list (FieldName * Cond).

Definition filter_of (conds : FieldFilter) : Filter :=
  map (fun kc => (field_name (fst kc), snd kc)) conds.

(** [{field: v}]: the field equals [v], or is an array that holds [v];
    [null] also matches a missing field. *)
Definition eq_match (v : Value) (field : option Value) : bool :=
  match field with
  | None => value_eqb v VNone
  | Some x =>
      value_eqb x v
      || match x with
         | VList xs => existsb (fun e => value_eqb e v) xs
         | _ => false
         end
  end.

Definition gte_time (t : datetime) (x : Value) : bool :=
  match x with
  | VTime t' => t <=? t'
  | _ => false
  end.

Definition cond_holds (c : Cond) (field : option Value) : bool :=
  match c with
  | CEq v => eq_match v field
  | CNe v => negb (eq_match v field)
  | CIn vs => existsb (fun v => eq_match v field) vs
  | CNin vs => negb (existsb (fun v => eq_match v field) vs)
  | CExists b => Bool.eqb b (match field with Some _ => true | None => false end)
  | CGteTime t =>
      match field with
      | Some (VList xs) => existsb (gte_time t) xs
      | Some x => gte_time t x
      | None => false
      end
  end.

(** The document satisfies the query: each condition holds of the
    top-level field that its key names. *)
Definition doc_matches (q : Filter) (d : Document) : bool :=
  forallb (fun kc => cond_holds (snd kc) (doc_get (fst kc) d)) q.

(** A BSON date counts milliseconds: what is left of a [datetime] when
    it is stored. *)
Definition trunc_ms (t : datetime) : datetime := t / 1000 * 1000.

(** A value as it is read back once BSON has carried it. *)
Fixpoint bson_store (v : Value) : Value :=
  match v with
  | VTime t => VTime (trunc_ms t)
  | VList l => VList (map bson_store l)
  | VDict d => VDict (map (fun kv => (fst kv, bson_store (snd kv))) d)
  | _ => v
  end.

Definition store_dict (d : Dict) : Dict :=
  map (fun kv => (fst kv, bson_store (snd kv))) d.

(** Update documents: [{"$set": fields}] and
    [{"$addToSet": {field: {"$each": values}}}]. *)
Inductive Update : Type :=
| USet (fields : Dict)
| UAddToSet (field : string) (each : list Value).

Definition store_update (u : Update) : Update :=
  match u with
  | USet fields => USet (store_dict fields)
  | UAddToSet field each => UAddToSet field (map bson_store each)
  end.

(** [$addToSet] of one value: appended unless the array holds it. *)
Definition add_to_set (arr : list Value) (v : Value) : list Value :=
  if existsb (value_eqb v) arr then arr else arr ++ [v].

(** The update applied to one document; [None] is the server's write
    error for [$addToSet] on a field that is not an array. *)
Definition apply_update (u : Update) (d : Document) : option Document :=
  match u with
  | USet fields => Some (mkDocument (_id d) (dict_update (body d) fields))
  | UAddToSet field each =>
      match dict_get field (body d) with
      | None => Some (doc_set field (VList (fold_left add_to_set each [])) d)
      | Some (VList arr) => Some (doc_set field (VList (fold_left add_to_set each arr)) d)
      | Some _ => None
      end
  end.

(** The first document of the collection that matches. *)
Definition first_match (q : Filter) (docs : list Document) : option Document :=
  find (doc_matches q) docs.

(** The collection with its first matching document replaced, or
    dropped. *)
Fixpoint replace_first (q : Filter) (f : Document -> Document) (docs : list Document)
  : list Document :=
  match docs with
  | [] => []
  | d :: rest =>
      if doc_matches q d then f d :: rest else d :: replace_first q f rest
  end.

Fixpoint remove_first (q : Filter) (docs : list Document) : list Document :=
  match docs with
  | [] => []
  | d :: rest => if doc_matches q d then rest else d :: remove_first q rest
  end.

(* ================================================================== *)
(** * The world and the handler monad *)
(* ================================================================== *)

Inductive StoreOp : Type :=
| OpFind | OpFindOne | OpInsertOne | OpUpdateOne | OpDeleteOne
| OpAggregate | OpCountDocuments.

(** One access to a collection of the store. *)
Definition Event : Type := string * StoreOp.

Record World : Type := mkWorld {
  db : string -> list Document;   (* [db[name]], in natural order *)
  next_oid : ObjectId;            (* the next id the driver hands out *)
  clock : nat -> datetime;        (* successive readings of the clock *)
  ticks : nat;                    (* readings taken so far *)
  trace : list Event              (* store accesses, oldest first *)
}.

Inductive Exc : Type :=
| HTTPException (status_code : Z) (detail : string)
| InvalidId            (* bson.errors.InvalidId *)
| TypeError
| ValueError
| WriteError           (* pymongo.errors.WriteError *)
| OperationFailure     (* pymongo.errors.OperationFailure *)
| OverflowError        (* an integer that BSON cannot hold *)
| InvalidDocument.     (* bson.errors.InvalidDocument *)

Inductive Result (A : Type) : Type :=
| Ok (a : A)
| Raise (e : Exc).
Arguments Ok {A} a.
Arguments Raise {A} e.

Definition M (A : Type) : Type := World -> Result A * World.

Definition ret {A} (a : A) : M A := fun w => (Ok a, w).
Definition raise {A} (e : Exc) : M A := fun w => (Raise e, w).
Definition bind {A B} (m : M A) (k : A -> M B) : M B :=
  fun w =>
    match m w with
    | (Ok a, w') => k a w'
    | (Raise e, w') => (Raise e, w')
    end.

Notation "x <- m ;; k" := (bind m (fun x => k))
  (at level 61, m at next level, right associativity).
Notation "m ;;; k" := (bind m (fun _ => k))
  (at level 61, right associativity).

(** [datetime.utcnow()] *)
Definition utcnow : M datetime :=
  fun w => (Ok (clock w (ticks w)),
            mkWorld (db w) (next_oid w) (clock w) (S (ticks w)) (trace w)).

Definition log_access (name : string) (op : StoreOp) (w : World) : World :=
  mkWorld (db w) (next_oid w) (clock w) (ticks w) (trace w ++ [(name, op)]).

Definition set_collection (name : string) (docs : list Document) (w : World) : World :=
  mkWorld (fun n => if String.eqb n name then docs else db w n)
          (next_oid w) (clock w) (ticks w) (trace w).

(** [db[name].find_one(q)] *)
Definition find_one (name : string) (q : Filter) : M (option Document) :=
  fun w => (Ok (first_match q (db w name)), log_access name OpFindOne w).

(** BSON integers have eight bytes. *)
Definition int64_min : Z := - 2 ^ 63.
Definition int64_max : Z := 2 ^ 63 - 1.

(** A string without a NUL character. *)
Definition no_nul (s : string) : bool :=
  negb (existsb (Ascii.eqb zero) (list_ascii_of_string s)).

(** A key that BSON can write. *)
Definition key_ok (k : string) : bool := no_nul k.

(** What the driver raises when it cannot encode a value, met in the
    order of the fields: [OverflowError] for an integer beyond eight
    bytes, [InvalidDocument] for a key with a NUL character. *)
Fixpoint encode_error (v : Value) : option Exc :=
  match v with
  | VInt z =>
      if (int64_min <=? z) && (z <=? int64_max) then None else Some OverflowError
  | VList l =>
      (fix go (l : list Value) : option Exc :=
         match l with
         | [] => None
         | x :: rest =>
             match encode_error x with
             | Some e => Some e
             | None => go rest
             end
         end) l
  | VDict d =>
      (fix go (d : list (string * Value)) : option Exc :=
         match d with
         | [] => None
         | (k, x) :: rest =>
             if key_ok k then
               match encode_error x with
               | Some e => Some e
               | None => go rest
               end
             else Some InvalidDocument
         end) d
  | _ => None
  end.

Definition update_error (u : Update) : option Exc :=
  match u with
  | USet fields => encode_error (VDict fields)
  | UAddToSet field each =>
      if key_ok field then encode_error (VList each) else Some InvalidDocument
  end.

(** A document that brings no [_id] of its own, as every document that
    the handlers build. *)
Record NewDocument : Type := new_document {
  new_fields : Dict;
  new_fields_no_id : dict_get "_id" new_fields = None
}.

(** [db[name].insert_one(doc)], returning [inserted_id]: the driver
    gives the document a fresh id and encodes it; the collection grows
    at its end by the document as BSON holds it.  A document that cannot
    be encoded is not sent. *)
Definition insert_one (name : string) (doc : NewDocument) : M ObjectId :=
  fun w =>
    let oid := next_oid w in
    let w0 := mkWorld (db w) (N.succ oid) (clock w) (ticks w) (trace w) in
    match encode_error (VDict (new_fields doc)) with
    | Some e => (Raise e, w0)
    | None =>
        (Ok oid,
         log_access name OpInsertOne
           (set_collection name
              (db w name ++ [mkDocument oid (store_dict (new_fields doc))]) w0))
    end.

(** [db[name].update_one(q, u)], returning [matched_count]; an update
    that cannot be encoded is not sent. *)
Definition update_one (name : string) (q : Filter) (u : Update) : M Z :=
  fun w =>
    match update_error u with
    | Some e => (Raise e, w)
    | None =>
        let w1 := log_access name OpUpdateOne w in
        match first_match q (db w name) with
        | None => (Ok 0, w1)
        | Some d =>
            match apply_update (store_update u) d with
            | None => (Raise WriteError, w1)
            | Some d' =>
                (Ok 1, set_collection name (replace_first q (fun _ => d') (db w name)) w1)
            end
        end
    end.

(** [db[name].delete_one(q)], returning [deleted_count] *)
Definition delete_one (name : string) (q : Filter) : M Z :=
  fun w =>
    let w1 := log_access name OpDeleteOne w in
    match first_match q (db w name) with
    | None => (Ok 0, w1)
    | Some _ => (Ok 1, set_collection name (remove_first q (db w name)) w1)
    end.

(** [db[name].count_documents(q)] *)
Definition count_documents (name : string) (q : Filter) : M Z :=
  fun w => (Ok (Z.of_nat (List.length (filter (doc_matches q) (db w name)))),
            log_access name OpCountDocuments w).

(** A cursor: the query is sent when the cursor is consumed. *)
Record Cursor : Type := mkCursor {
  cur_collection : string;
  cur_filter : Filter;
  cur_sort : option (string * Z);
  cur_skip : Z;
  cur_limit : Z
}.

(** [db[name].find(q)] *)
Definition find_cursor (name : string) (q : Filter) : Cursor :=
  mkCursor name q None 0 0.

(** [cursor.sort(key, direction)] *)
Definition cursor_sort (key : string) (direction : Z) (c : Cursor) : Cursor :=
  mkCursor (cur_collection c) (cur_filter c) (Some (key, direction)) (cur_skip c) (cur_limit c).

(** [cursor.skip(n)]: the driver refuses a negative skip. *)
Definition cursor_skip (n : Z) (c : Cursor) : M Cursor :=
  if n <? 0 then raise ValueError
  else ret (mkCursor (cur_collection c) (cur_filter c) (cur_sort c) n (cur_limit c)).

(** [cursor.limit(n)] *)
Definition cursor_limit (n : Z) (c : Cursor) : Cursor :=
  mkCursor (cur_collection c) (cur_filter c) (cur_sort c) (cur_skip c) n.

(** Order of two sort keys: BSON orders by type first (null, numbers,
    strings, documents, arrays, ids, booleans, dates); documents and
    arrays are not ordered further here. *)
Definition bson_rank (v : Value) : Z :=
  match v with
  | VNone => 1 | VInt _ => 2 | VStr _ => 3 | VDict _ => 4 | VList _ => 5
  | VOid _ => 7 | VBool _ => 8 | VTime _ => 9
  end.

Definition value_compare (a b : Value) : comparison :=
  match a, b with
  | VInt x, VInt y => Z.compare x y
  | VTime x, VTime y => Z.compare x y
  | VStr x, VStr y => String.compare x y
  | VOid x, VOid y => N.compare x y
  | VBool x, VBool y => Bool.compare x y
  | _, _ => Z.compare (bson_rank a) (bson_rank b)
  end.

Definition or_none (v : option Value) : Value :=
  match v with
  | Some x => x
  | None => VNone
  end.

(** [a] may stand before [b] under the sort direction. *)
Definition in_order (direction : Z) (a b : Value) : bool :=
  match value_compare a b with
  | Eq => true
  | Lt => 0 <=? direction
  | Gt => direction <? 0
  end.

Section Sorting.
Context {A : Type} (key : A -> Value) (direction : Z).

Fixpoint insert_sorted (x : A) (l : list A) : list A :=
  match l with
  | [] => [x]
  | y :: rest =>
      if in_order direction (key y) (key x) then y :: insert_sorted x rest
      else x :: y :: rest
  end.

Definition sort_by (l : list A) : list A :=
  fold_left (fun acc x => insert_sorted x acc) l [].
End Sorting.

(** [list(cursor)]: filter, sort, skip, limit.  A limit of 0 is no
    limit; a negative limit counts as its absolute value. *)
Definition cursor_list (c : Cursor) : M (list Document) :=
  fun w =>
    let matched := filter (doc_matches (cur_filter c)) (db w (cur_collection c)) in
    let sorted :=
      match cur_sort c with
      | None => matched
      | Some (k, direction) => sort_by (fun d => or_none (doc_get k d)) direction matched
      end in
    let skipped := skipn (Z.to_nat (cur_skip c)) sorted in
    let limited :=
      if cur_limit c =? 0 then skipped
      else firstn (Z.to_nat (Z.abs (cur_limit c))) skipped in
    (Ok limited, log_access (cur_collection c) OpFind w).

(** The stages of the analytics pipeline. *)
Inductive Stage : Type :=
| StageMatch (q : Filter)
    (* {"$match": q} *)
| StageGroupCount (month_of by_field : string)
    (* {"$group": {"_id": {"month": {"$month": "$month_of"}, "type": "$by_field"},
                   "count": {"$sum": 1}}} *)
| StageSortAsc (path : list string).
    (* {"$sort": {"a.b": 1}} *)

(** A document as the row of a pipeline. *)
Definition row_of_doc (d : Document) : Dict := ("_id", VOid (_id d)) :: body d.

Definition row_matches (q : Filter) (row : Dict) : bool :=
  forallb (fun kc => cond_holds (snd kc) (dict_get (fst kc) row)) q.

(** [{"$month": "$field"}]: null for a missing or null date; [None] is
    the server's error on any other type. *)
Definition month_expr (field : option Value) : option Value :=
  match field with
  | None | Some VNone => Some VNone
  | Some (VTime t) => Some (VInt (dt_month t))
  | Some _ => None
  end.

Fixpoint count_into (key : Value) (groups : list (Value * Z)) : list (Value * Z) :=
  match groups with
  | [] => [(key, 1)]
  | (k, n) :: rest =>
      if value_eqb k key then (k, n + 1) :: rest else (k, n) :: count_into key rest
  end.

Fixpoint group_count (month_of by_field : string) (rows : list Dict)
    (groups : list (Value * Z)) : option (list (Value * Z)) :=
  match rows with
  | [] => Some groups
  | row :: rest =>
      match month_expr (dict_get month_of row) with
      | None => None
      | Some m =>
          let key :=
            VDict (("month", m) ::
                   match dict_get by_field row with
                   | Some v => [("type", v)]
                   | None => []
                   end) in
          group_count month_of by_field rest (count_into key groups)
      end
  end.

Fixpoint path_get (path : list string) (v : Value) : Value :=
  match path with
  | [] => v
  | k :: rest =>
      match v with
      | VDict d => match dict_get k d with
                   | Some x => path_get rest x
                   | None => VNone
                   end
      | _ => VNone
      end
  end.

Definition run_stage (st : Stage) (rows : list Dict) : option (list Dict) :=
  match st with
  | StageMatch q => Some (filter (row_matches q) rows)
  | StageGroupCount month_of by_field =>
      match group_count month_of by_field rows [] with
      | None => None
      | Some groups =>
          Some (map (fun g => [("_id", fst g); ("count", VInt (snd g))]) groups)
      end
  | StageSortAsc path => Some (sort_by (fun row => path_get path (VDict row)) 1 rows)
  end.

Fixpoint run_pipeline (pipeline : list Stage) (rows : list Dict) : option (list Dict) :=
  match pipeline with
  | [] => Some rows
  | st :: rest =>
      match run_stage st rows with
      | None => None
      | Some rows' => run_pipeline rest rows'
      end
  end.

(** [list(db[name].aggregate(pipeline))] *)
Definition aggregate (name : string) (pipeline : list Stage) : M (list Dict) :=
  fun w =>
    let w1 := log_access name OpAggregate w in
    match run_pipeline pipeline (map row_of_doc (db w name)) with
    | None => (Raise OperationFailure, w1)
    | Some rows => (Ok rows, w1)
    end.

(* ================================================================== *)
(** * Request models ([schemas.py]) *)
(* ================================================================== *)

Record UserCreate : Type := mkUserCreate {
  uc_email : string;
  uc_name : string;
  uc_password : string;
  uc_role : string;
  uc_systems : list string
}.

(** A field that is unset or null is [None]. *)
Record UserUpdate : Type := mkUserUpdate {
  uu_name : option string;
  uu_role : option string;
  uu_systems : option (list string)
}.

Record Token : Type := mkToken {
  access_token : string;
  token_type : string
}.

Record LoginRequest : Type := mkLoginRequest {
  lr_email : string;
  lr_password : string
}.

Record ActivityLog : Type := mkActivityLog {
  al_user_id : string;
  al_action : string;
  al_metadata : Dict;
  al_created_at : option datetime
}.

Record Resource : Type := mkResource {
  r_system : string;
  r_type : string;
  r_data : Dict;
  r_owner_id : option string;
  r_created_at : option datetime;
  r_updated_at : option datetime
}.

Record ResourceUpdate : Type := mkResourceUpdate {
  ru_data : Dict
}.

Record QueryParams : Type := mkQueryParams {
  qp_filter : FieldFilter;
  qp_limit : Z;
  qp_skip : Z;
  qp_sort : option (list string)
}.

Definition str_list (l : list string) : Value := VList (map VStr l).

Definition opt_time (t : option datetime) : Value :=
  match t with
  | Some x => VTime x
  | None => VNone
  end.

(** [payload.dict()] *)
Definition UserCreate_dict (p : UserCreate) : Dict :=
  [("email", VStr (uc_email p)); ("name", VStr (uc_name p));
   ("password", VStr (uc_password p)); ("role", VStr (uc_role p));
   ("systems", str_list (uc_systems p))].

Definition ActivityLog_dict (p : ActivityLog) : Dict :=
  [("user_id", VStr (al_user_id p)); ("action", VStr (al_action p));
   ("metadata", VDict (al_metadata p)); ("created_at", opt_time (al_created_at p))].

(** [{k: v for k, v in payload.dict(exclude_unset=True).items() if v is not None}] *)
Definition UserUpdate_updates (p : UserUpdate) : Dict :=
  (match uu_name p with Some n => [("name", VStr n)] | None => [] end
   ++ match uu_role p with Some r => [("role", VStr r)] | None => [] end
   ++ match uu_systems p with Some l => [("systems", str_list l)] | None => [] end)%list.

(* ================================================================== *)
(** * The password and token libraries *)
(* ================================================================== *)

(** [passlib]'s [CryptContext] and [jose.jwt], by their interfaces.
    [pwd_context_verify] answers [None] where the library raises: for a
    hash it cannot identify, or a password it refuses to check;
    [jwt_decode] is given the clock reading it checks [exp] against and
    answers [None] for [JWTError]. *)
Class Libraries : Type := {
  pwd_context_hash : string -> string;
  pwd_context_verify : string -> string -> option bool;
  jwt_encode : Dict -> string -> string -> string;
  jwt_decode : string -> string -> string -> datetime -> option Dict
}.

(* ================================================================== *)
(** * [main.py] *)
(* ================================================================== *)

Definition SECRET_KEY : string := "supersecretkey".
Definition ALGORITHM : string := "HS256".
Definition ACCESS_TOKEN_EXPIRE_MINUTES : Z := 60 * 12.

(** [s.split(sep)] for a one-character separator *)
Fixpoint split_on (sep : ascii) (s : string) : list string :=
  match s with
  | EmptyString => [EmptyString]
  | String c rest =>
      if Ascii.eqb c sep then EmptyString :: split_on sep rest
      else match split_on sep rest with
           | [] => [String c EmptyString]
           | h :: t => String c h :: t
           end
  end.

(** [x in container] for a string [x]; [None] is Python's [TypeError] on
    a container that is not iterable. *)
Definition py_in (x : string) (container : Value) : option bool :=
  match container with
  | VList l => Some (existsb (fun v => is_str (Some v) x) l)
  | VDict d => Some (match dict_get x d with Some _ => true | None => false end)
  | VStr s => Some (match String.index 0 x s with Some _ => true | None => false end)
  | _ => None
  end.

(** [user.get("systems", [])] *)
Definition user_systems (user : Document) : Value :=
  match doc_get "systems" user with
  | Some v => v
  | None => VList []
  end.

(** [str(user.get("_id")) if isinstance(user.get("_id"), ObjectId) else user.get("id")] *)
Definition user_id_str (user : Document) : Value :=
  match doc_get "_id" user with
  | Some (VOid o) => VStr (oid_str o)
  | _ => or_none (doc_get "id" user)
  end.

Definition HTTP (status_code : Z) (detail : string) : Exc :=
  HTTPException status_code detail.

(** The entitlement check that opens every handler under
    [/systems/{system}] and [/analytics/{system}]:
    [if user.get("role") != "admin" and system not in user.get("systems", [])]. *)
Definition check_access (system : string) (user : Document) : M unit :=
  if negb (is_str (doc_get "role" user) "admin") then
    match py_in system (user_systems user) with
    | None => raise TypeError
    | Some false => raise (HTTP 403 "Access denied to this system")
    | Some true => ret tt
    end
  else ret tt.

(** [ObjectId(s)] inside a handler *)
Definition to_ObjectId (s : string) : M ParsedId :=
  match ObjectId_parse s with
  | Some oid => ret oid
  | None => raise InvalidId
  end.

(** [{"_id": oid}] as a condition: an object of fewer than twelve bytes
    equals no stored id. *)
Definition id_is (oid : ParsedId) : Cond :=
  match oid with
  | FullId o => CEq (VOid o)
  | ShortId _ => CIn []
  end.

(** [authorization.split(" ")[1]], for a header that starts with
    ["Bearer "] and so has a second piece *)
Definition bearer_token (authorization : string) : string :=
  nth 1 (split_on " " authorization) "".

Section Handlers.
Context {L : Libraries}.

Definition verify_password (plain_password hashed_password : string) : option bool :=
  pwd_context_verify plain_password hashed_password.

Definition get_password_hash (password : string) : string :=
  pwd_context_hash password.

(** [expires_delta or timedelta(minutes=...)]: a zero delta is falsy. *)
Definition create_access_token (data : Dict) (expires_delta : option Z) : M string :=
  let to_encode := data in
  now <- utcnow ;;
  let delta :=
    match expires_delta with
    | Some d => if d =? 0 then timedelta_minutes ACCESS_TOKEN_EXPIRE_MINUTES else d
    | None => timedelta_minutes ACCESS_TOKEN_EXPIRE_MINUTES
    end in
  let expire := now + delta in
  let to_encode := dict_update to_encode [("exp", VTime expire)] in
  ret (jwt_encode to_encode SECRET_KEY ALGORITHM).

Definition get_current_user (authorization : option string) : M Document :=
  match authorization with
  | None => raise (HTTP 401 "Not authenticated")
  | Some a =>
      if String.eqb a "" || negb (String.prefix "Bearer " a) then
        raise (HTTP 401 "Not authenticated")
      else
        let token := bearer_token a in
        now <- utcnow ;;
        match jwt_decode token SECRET_KEY ALGORITHM now with
        | None => raise (HTTP 401 "Token expired or invalid")
        | Some payload =>
            let user_id := or_none (dict_get "sub" payload) in
            let role := or_none (dict_get "role" payload) in
            match user_id with
            | VNone => raise (HTTP 401 "Invalid token")
            | VStr s =>
                oid <- to_ObjectId s ;;
                user <- find_one "user" [("_id", id_is oid)] ;;
                match user with
                | None => raise (HTTP 401 "User not found")
                | Some user =>
                    let user := doc_set "id" (VStr (oid_str (_id user))) user in
                    let user := doc_set "role" role user in
                    ret user
                end
            | _ => raise TypeError
            end
        end
  end.

Definition require_admin (user : Document) : M Document :=
  if negb (is_str (doc_get "role" user) "admin") then
    raise (HTTP 403 "Admin access required")
  else ret user.

(** ** Auth endpoints *)

Definition register (payload : UserCreate) : M Token :=
  existing <- find_one "user" [("email", CEq (VStr (uc_email payload)))] ;;
  match existing with
  | Some _ => raise (HTTP 400 "Email already registered")
  | None =>
      let hashed := get_password_hash (uc_password payload) in
      created <- utcnow ;;
      updated <- utcnow ;;
      let user_doc :=
        [("email", VStr (uc_email payload));
         ("name", VStr (uc_name payload));
         ("password", VStr hashed);
         ("role", VStr (uc_role payload));
         ("systems", str_list (uc_systems payload));
         ("created_at", VTime created);
         ("updated_at", VTime updated)] in
      inserted <- insert_one "user" (new_document user_doc eq_refl) ;;
      token <- create_access_token
                 [("sub", VStr (oid_str inserted)); ("role", VStr (uc_role payload))]
                 None ;;
      ret (mkToken token "bearer")
  end.

Definition login (payload : LoginRequest) : M Token :=
  user <- find_one "user" [("email", CEq (VStr (lr_email payload)))] ;;
  match user with
  | None => raise (HTTP 401 "Invalid credentials")
  | Some user =>
      let verified :=
        match doc_get "password" user with
        | None => verify_password (lr_password payload) ""
        | Some (VStr hashed) => verify_password (lr_password payload) hashed
        | Some VNone => Some false
        | Some _ => None
        end in
      match verified with
      | None => raise ValueError
      | Some false => raise (HTTP 401 "Invalid credentials")
      | Some true =>
          let role :=
            match doc_get "role" user with
            | Some r => r
            | None => VStr "user"
            end in
          token <- create_access_token
                     [("sub", VStr (oid_str (_id user))); ("role", role)] None ;;
          ret (mkToken token "bearer")
      end
  end.
End Handlers.

(** The handler's view of a stored document: [it["id"] = str(it["_id"])]. *)
Definition with_id (d : Document) : Document :=
  doc_set "id" (VStr (oid_str (_id d))) d.

(** ** Admin: users *)

Definition list_users : M (list Document) :=
  users <- cursor_list (find_cursor "user" []) ;;
  ret (map (fun u => doc_pop "password" (with_id u)) users).

Definition create_user {L : Libraries} (payload : UserCreate) : M Dict :=
  existing <- find_one "user" [("email", CEq (VStr (uc_email payload)))] ;;
  match existing with
  | Some _ => raise (HTTP 400 "Email already exists")
  | None =>
      let doc := UserCreate_dict payload in
      let password := uc_password payload in
      let doc := dict_pop "password" doc in
      let doc := dict_set "password" (VStr (get_password_hash password)) doc in
      created <- utcnow ;;
      let doc := dict_set "created_at" (VTime created) doc in
      updated <- utcnow ;;
      let doc := dict_set "updated_at" (VTime updated) doc in
      inserted <- insert_one "user" (new_document doc eq_refl) ;;
      ret [("id", VStr (oid_str inserted))]
  end.

Definition update_user (user_id : string) (payload : UserUpdate) : M Dict :=
  let updates := UserUpdate_updates payload in
  now <- utcnow ;;
  let updates := dict_set "updated_at" (VTime now) updates in
  oid <- to_ObjectId user_id ;;
  matched_count <- update_one "user" [("_id", id_is oid)] (USet updates) ;;
  if matched_count =? 0 then raise (HTTP 404 "User not found")
  else ret [("updated", VBool true)].

Definition delete_user (user_id : string) : M Dict :=
  oid <- to_ObjectId user_id ;;
  deleted_count <- delete_one "user" [("_id", id_is oid)] ;;
  if deleted_count =? 0 then raise (HTTP 404 "User not found")
  else ret [("deleted", VBool true)].

Definition assign_systems (user_id : string) (systems : list string) : M Dict :=
  oid <- to_ObjectId user_id ;;
  update_one "user" [("_id", id_is oid)]
             (UAddToSet "systems" (map VStr systems)) ;;;
  ret [("assigned", VBool true)].

(** ** Activity tracking *)

Definition log_activity (payload : ActivityLog) (user : Document) : M Dict :=
  let doc := ActivityLog_dict payload in
  let doc := dict_set "user_id" (user_id_str user) doc in
  now <- utcnow ;;
  let doc := dict_set "created_at" (VTime now) doc in
  insert_one "activity" (new_document doc eq_refl) ;;;
  ret [("logged", VBool true)].

Definition get_activity (limit : Z) : M (list Document) :=
  items <- cursor_list
             (cursor_limit limit (cursor_sort "created_at" (-1) (find_cursor "activity" []))) ;;
  ret (map with_id items).

(** ** Systems registry *)

Definition DEFAULT_SYSTEMS : list string :=
  ["school"; "college"; "university"; "library"; "hostel"; "transport"; "hospital";
   "clinic"; "pharmacy"; "patient-record"; "doctor-appointment"; "inventory";
   "payroll"; "project"; "crm"; "erp"; "accounting"; "budget"; "loan"; "banking";
   "ecommerce-order"; "warehouse"; "hotel"; "restaurant"; "tourism"; "hr";
   "attendance"; "performance"; "exam"; "finance"; "insurance"; "gov-records";
   "public-transport-ticket"; "electric-bill"; "water-supply"; "citizen-complaint";
   "police-case"; "court-scheduling"; "disaster-response"; "construction";
   "real-estate"; "manufacturing"; "quality-control"; "factory-maintenance";
   "supply-chain"; "logistics"; "shipping"].

(** [for s in v]: the items of a list, the keys of a dict, the
    characters of a string; [None] is Python's [TypeError]. *)
Definition py_iter (v : Value) : option (list Value) :=
  match v with
  | VList l => Some l
  | VDict d => Some (map (fun kv => VStr (fst kv)) d)
  | VStr s => Some (map (fun c => VStr (String c EmptyString)) (list_ascii_of_string s))
  | _ => None
  end.

Definition list_systems (user : Document) : M (list Value) :=
  if is_str (doc_get "role" user) "admin" then ret (map VStr DEFAULT_SYSTEMS)
  else
    match py_iter (user_systems user) with
    | Some l =>
        ret (filter (fun s => existsb (fun d => is_str (Some s) d) DEFAULT_SYSTEMS) l)
    | None => raise TypeError
    end.

(** ** Generic CRUD for the resources of a system *)

Definition create_resource (system rtype : string) (payload : Resource) (user : Document)
  : M Dict :=
  check_access system user ;;;
  created <- utcnow ;;
  updated <- utcnow ;;
  let doc :=
    [("system", VStr system);
     ("type", VStr rtype);
     ("data", VDict (r_data payload));
     ("owner_id", user_id_str user);
     ("created_at", VTime created);
     ("updated_at", VTime updated)] in
  inserted <- insert_one "resource" (new_document doc eq_refl) ;;
  ret [("id", VStr (oid_str inserted))].

Definition query_resources (system rtype : string) (params : QueryParams) (user : Document)
  : M (list Document) :=
  check_access system user ;;;
  let q : Filter := [("system", CEq (VStr system)); ("type", CEq (VStr rtype))] in
  let q := dict_update q (filter_of (qp_filter params)) in
  cursor <- cursor_skip (qp_skip params) (find_cursor "resource" q) ;;
  let cursor := cursor_limit (qp_limit params) cursor in
  items <- cursor_list cursor ;;
  ret (map with_id items).

(** The scope of one resource: [{"_id": ObjectId(rid), "system": system, "type": rtype}]. *)
Definition resource_scope (oid : ParsedId) (system rtype : string) : Filter :=
  [("_id", id_is oid); ("system", CEq (VStr system)); ("type", CEq (VStr rtype))].

(** The same for an id of twelve bytes. *)
Definition resource_key (oid : ObjectId) (system rtype : string) : Filter :=
  resource_scope (FullId oid) system rtype.

Definition get_resource (system rtype rid : string) (user : Document) : M Document :=
  check_access system user ;;;
  oid <- to_ObjectId rid ;;
  doc <- find_one "resource" (resource_scope oid system rtype) ;;
  match doc with
  | None => raise (HTTP 404 "Not found")
  | Some doc => ret (with_id doc)
  end.

Definition update_resource (system rtype rid : string) (payload : ResourceUpdate)
    (user : Document) : M Dict :=
  check_access system user ;;;
  oid <- to_ObjectId rid ;;
  now <- utcnow ;;
  matched_count <-
    update_one "resource" (resource_scope oid system rtype)
               (USet [("data", VDict (ru_data payload)); ("updated_at", VTime now)]) ;;
  if matched_count =? 0 then raise (HTTP 404 "Not found")
  else ret [("updated", VBool true)].

Definition delete_resource (system rtype rid : string) (user : Document) : M Dict :=
  check_access system user ;;;
  oid <- to_ObjectId rid ;;
  deleted_count <- delete_one "resource" (resource_scope oid system rtype) ;;
  if deleted_count =? 0 then raise (HTTP 404 "Not found")
  else ret [("deleted", VBool true)].

(** ** Analytics per system *)

Definition system_analytics (system : string) (user : Document) : M Dict :=
  check_access system user ;;;
  now <- utcnow ;;
  let since := datetime_ymd (dt_year now) 1 1 in
  let pipeline :=
    [StageMatch [("system", CEq (VStr system)); ("created_at", CGteTime since)];
     StageGroupCount "created_at" "type";
     StageSortAsc ["_id"; "month"]] in
  agg <- aggregate "resource" pipeline ;;
  totals <- count_documents "resource" [("system", CEq (VStr system))] ;;
  ret [("series", VList (map VDict agg)); ("total", VInt totals)].

Definition health : M Dict := ret [("ok", VBool true)].

(** ** Routes: a handler behind its dependencies *)

Section Routes.
Context {L : Libraries}.

(** [user=Depends(get_current_user)] *)
Definition authenticated {A} (authorization : option string) (handler : Document -> M A)
  : M A :=
  user <- get_current_user authorization ;;
  handler user.

(** [dependencies=[Depends(require_admin)]] *)
Definition admin_only {A} (authorization : option string) (handler : M A) : M A :=
  user <- get_current_user authorization ;;
  require_admin user ;;;
  handler.
End Routes.

(** The admin endpoints of the service, with their arguments. *)
Inductive AdminEndpoint : Type :=
| GET_admin_users
| POST_admin_users (payload : UserCreate)
| PATCH_admin_user (user_id : string) (payload : UserUpdate)
| DELETE_admin_user (user_id : string)
| POST_admin_user_assign (user_id : string) (systems : list string)
| GET_admin_activity (limit : Z).

(** What an endpoint answers. *)
Inductive Response : Type :=
| RDict (d : Dict)
| RDoc (d : Document)
| RDocs (l : list Document).

Definition admin_route {L : Libraries} (e : AdminEndpoint) (authorization : option string)
  : M Response :=
  match e with
  | GET_admin_users =>
      admin_only authorization (r <- list_users ;; ret (RDocs r))
  | POST_admin_users payload =>
      admin_only authorization (r <- create_user payload ;; ret (RDict r))
  | PATCH_admin_user user_id payload =>
      admin_only authorization (r <- update_user user_id payload ;; ret (RDict r))
  | DELETE_admin_user user_id =>
      admin_only authorization (r <- delete_user user_id ;; ret (RDict r))
  | POST_admin_user_assign user_id systems =>
      admin_only authorization (r <- assign_systems user_id systems ;; ret (RDict r))
  | GET_admin_activity limit =>
      admin_only authorization (r <- get_activity limit ;; ret (RDocs r))
  end.

(** The endpoints under [/systems/{system}], and the analytics of a
    system, with their arguments. *)
Inductive SystemEndpoint : Type :=
| POST_resource (rtype : string) (payload : Resource)
| POST_resource_query (rtype : string) (params : QueryParams)
| GET_resource (rtype rid : string)
| PATCH_resource (rtype rid : string) (payload : ResourceUpdate)
| DELETE_resource (rtype rid : string)
| GET_analytics.

Definition system_handler (system : string) (e : SystemEndpoint) (user : Document)
  : M Response :=
  match e with
  | POST_resource rtype payload =>
      r <- create_resource system rtype payload user ;; ret (RDict r)
  | POST_resource_query rtype params =>
      r <- query_resources system rtype params user ;; ret (RDocs r)
  | GET_resource rtype rid =>
      r <- get_resource system rtype rid user ;; ret (RDoc r)
  | PATCH_resource rtype rid payload =>
      r <- update_resource system rtype rid payload user ;; ret (RDict r)
  | DELETE_resource rtype rid =>
      r <- delete_resource system rtype rid user ;; ret (RDict r)
  | GET_analytics =>
      r <- system_analytics system user ;; ret (RDict r)
  end.

Definition system_route {L : Libraries} (system : string) (e : SystemEndpoint)
    (authorization : option string) : M Response :=
  authenticated authorization (system_handler system e).

(* ================================================================== *)
(** * A library instance and worlds to run the handlers on *)
(* ================================================================== *)

(** Stand-ins for the two libraries, without cryptography: the hash of
    [p] is ["hashed:p"], a token spells ["role.sub.key"] and never
    expires. *)
Definition plain_hash (password : string) : string := "hashed:" ++ password.

Definition plain_verify (password hashed : string) : option bool :=
  if String.prefix "hashed:" hashed then Some (String.eqb hashed (plain_hash password))
  else None.

Definition claim_str (k : string) (claims : Dict) : string :=
  match dict_get k claims with
  | Some (VStr s) => s
  | _ => ""
  end.

Definition plain_encode (claims : Dict) (key algorithm : string) : string :=
  claim_str "role" claims ++ "." ++ claim_str "sub" claims ++ "." ++ key.

Definition plain_decode (token key algorithm : string) (now : datetime) : option Dict :=
  match split_on "." token with
  | [role; sub; k] =>
      if String.eqb k key then Some [("sub", VStr sub); ("role", VStr role)] else None
  | _ => None
  end.

Definition plain_libraries : Libraries :=
  {| pwd_context_hash := plain_hash;
     pwd_context_verify := plain_verify;
     jwt_encode := plain_encode;
     jwt_decode := plain_decode |}.

(** An empty store; the clock reads one second later each time. *)
Definition empty_world : World :=
  mkWorld (fun _ => []) 1%N (fun n => 1800000000000000 + Z.of_nat n * 1000000) O [].

(** The world a computation leaves, and its result. *)
Definition run {A} (m : M A) (w : World) : World := snd (m w).
Definition result {A} (m : M A) (w : World) : Result A := fst (m w).

(** A small population: an admin, a user entitled to [school], a user
    registered with [school] listed twice; then one resource under
    [hospital] created by the admin and one under [school] created by
    the user. *)
Definition alice : UserCreate :=
  mkUserCreate "alice@example.org" "Alice" "pw-alice" "admin" [].
Definition bob : UserCreate :=
  mkUserCreate "bob@example.org" "Bob" "pw-bob" "user" ["school"].
Definition carol : UserCreate :=
  mkUserCreate "carol@example.org" "Carol" "pw-carol" "user" ["school"; "school"].

Definition alice_id : string := oid_str 1%N.
Definition bob_id : string := oid_str 2%N.
Definition carol_id : string := oid_str 3%N.

(** The headers the three would send with the tokens registration gave
    them. *)
Definition bearer (role sub : string) : string :=
  "Bearer " ++ role ++ "." ++ sub ++ "." ++ SECRET_KEY.
Definition alice_header : option string := Some (bearer "admin" alice_id).
Definition bob_header : option string := Some (bearer "user" bob_id).

Definition world_users : World :=
  run (register (L := plain_libraries) carol)
    (run (register (L := plain_libraries) bob)
       (run (register (L := plain_libraries) alice) empty_world)).

(** The caller a header resolves to; a document without fields if it
    does not resolve. *)
Definition caller (authorization : option string) (w : World) : Document :=
  match result (get_current_user (L := plain_libraries) authorization) w with
  | Ok user => user
  | Raise _ => mkDocument 0%N []
  end.

Definition patient_payload : Resource :=
  mkResource "hospital" "patient" [("name", VStr "Paul"); ("ward", VInt 7)] None None None.
Definition student_payload : Resource :=
  mkResource "school" "student" [("name", VStr "Ann")] None None None.

Definition world_resources : World :=
  run (create_resource "school" "student" student_payload (caller bob_header world_users))
    (run (create_resource "hospital" "patient" patient_payload
            (caller alice_header world_users))
       world_users).

(** Bob's record as stored by his registration, and the student he
    created. *)
Definition bob_stored : Document :=
  mkDocument 2%N
    [("email", VStr "bob@example.org"); ("name", VStr "Bob");
     ("password", VStr "hashed:pw-bob"); ("role", VStr "user");
     ("systems", VList [VStr "school"]);
     ("created_at", VTime 1800000003000000);
     ("updated_at", VTime 1800000004000000)].

Definition student_stored : Document :=
  mkDocument 5%N
    [("system", VStr "school"); ("type", VStr "student");
     ("data", VDict [("name", VStr "Ann")]);
     ("owner_id", VStr "000000000000000000000002");
     ("created_at", VTime 1800000011000000);
     ("updated_at", VTime 1800000012000000)].

Definition bob_claims : Dict := [("sub", VStr bob_id); ("role", VStr "user")].

(** Bob as the handlers see him. *)
Definition bob_caller : Document := caller bob_header world_users.

(** Alice's role is changed to [user] by an admin update after her
    token was issued. *)
Definition world_demoted : World :=
  run (update_user alice_id (mkUserUpdate None (Some "user") None)) world_users.

(** A filter that names the scoping fields itself. *)
Definition override_filter : FieldFilter :=
  [(mkFieldName "system" eq_refl, CEq (VStr "hospital"));
   (mkFieldName "type" eq_refl, CEq (VStr "patient"))].

(* ================================================================== *)
(** * Notions the statements use *)
(* ================================================================== *)

(** The answer of a handler that refuses the caller and leaves the
    world as it found it. *)
Definition denied {A} (w : World) : Result A * World :=
  (Raise (HTTP 403 "Access denied to this system"), w).

(** The caller passes the entitlement check for [system]. *)
Definition allowed (system : string) (user : Document) : Prop :=
  is_str (doc_get "role" user) "admin" = true
  \/ py_in system (user_systems user) = Some true.

(** The world after one reading of the clock. *)
Definition tick (w : World) : World :=
  mkWorld (db w) (next_oid w) (clock w) (S (ticks w)) (trace w).

(** The id the driver hands out next is new: every stored id is below
    the counter. *)
Definition fresh_ids (w : World) : Prop :=
  forall name d, In d (db w name) -> (_id d < next_oid w)%N.

(** A computation that keeps the ids fresh. *)
Definition keeps_fresh {A} (m : M A) : Prop :=
  forall w, fresh_ids w -> fresh_ids (run m w).

(** The stored user with this id. *)
Definition stored_user (oid : ObjectId) (w : World) : option Document :=
  first_match [("_id", CEq (VOid oid))] (db w "user").

(** How often a value occurs in an array. *)
Definition occurrences (v : Value) (arr : list Value) : nat :=
  List.length (filter (value_eqb v) arr).

(** The same request made [n] more times after the first. *)
Fixpoint again {A} (n : nat) (m : M A) : M A :=
  match n with
  | O => m
  | S k => m ;;; again k m
  end.

(** Within a collection no id is stored twice. *)
Definition distinct_ids (w : World) : Prop :=
  forall name, NoDup (map _id (db w name)).

(** The store as the driver keeps it: ids fresh and distinct. *)
Definition store_ok (w : World) : Prop := fresh_ids w /\ distinct_ids w.

(** A computation that keeps the store so. *)
Definition keeps_ok {A} (m : M A) : Prop :=
  forall w, store_ok w -> store_ok (run m w).

(** A computation that leaves a collection as it was. *)
Definition leaves {A} (name : string) (m : M A) : Prop :=
  forall w, db (run m w) name = db w name.

(** The keys of a document body are those of a Python dict: each once. *)
Definition dict_keys_once (d : Dict) : Prop := NoDup (map fst d).

(** The same, as a test that computes. *)
Fixpoint keys_onceb (keys : list string) : bool :=
  match keys with
  | [] => true
  | k :: rest => negb (existsb (String.eqb k) rest) && keys_onceb rest
  end.

(** The emails of the stored users. *)
Definition stored_emails (w : World) : list (option Value) :=
  map (doc_get "email") (db w "user").



(** The [count] of a row of the analytics series, and their sum. *)
Definition row_count (row : Dict) : Z :=
  match dict_get "count" row with
  | Some (VInt n) => n
  | _ => 0
  end.

Definition total_count (rows : list Dict) : Z :=
  fold_right Z.add 0 (map row_count rows).

(** The sum of the counts of the groups of [$group]. *)
Definition group_total (groups : list (Value * Z)) : Z :=
  fold_right Z.add 0 (map snd groups).

(** The mandatory scope of a query: [{"system": system, "type": rtype}]. *)
Definition scope (system rtype : string) : Filter :=
  [("system", CEq (VStr system)); ("type", CEq (VStr rtype))].

(** The patient as stored by Alice, and a user who is not yet
    registered. *)
Definition patient_stored : Document :=
  mkDocument 4%N
    [("system", VStr "hospital"); ("type", VStr "patient");
     ("data", VDict [("name", VStr "Paul"); ("ward", VInt 7)]);
     ("owner_id", VStr "000000000000000000000001");
     ("created_at", VTime 1800000009000000);
     ("updated_at", VTime 1800000010000000)].

Definition dave : UserCreate :=
  mkUserCreate "dave@example.org" "Dave" "pw-dave" "user" ["library"].


(** JSON data that the store holds as it is given: null, booleans,
    strings, integers of eight bytes, and arrays and objects of such,
    with keys that have no NUL character. *)
Fixpoint storable (v : Value) : bool :=
  match v with
  | VNone | VBool _ | VStr _ => true
  | VInt z => (int64_min <=? z) && (z <=? int64_max)
  | VTime _ | VOid _ => false
  | VList l => forallb storable l
  | VDict d => forallb (fun kv => key_ok (fst kv) && storable (snd kv)) d
  end.

(** The operands of a condition. *)
Definition cond_operands (c : Cond) : list Value :=
  match c with
  | CEq v | CNe v => [v]
  | CIn vs | CNin vs => vs
  | CExists _ => []
  | CGteTime t => [VTime t]
  end.

(** An operand that a JSON filter can spell as a plain value: storable,
    and not an object whose first key starts with a dollar sign, which
    the server would read as operators. *)
Definition literal (v : Value) : bool :=
  storable v
  && match v with
     | VDict ((k, _) :: _) => negb (String.prefix "$" k)
     | _ => true
     end.

(** The stored document that an id read from a request names. *)
Definition target_user (oid : ParsedId) (w : World) : option Document :=
  first_match [("_id", id_is oid)] (db w "user").

(** Data with an integer of nine bytes. *)
Definition wide_data : Dict := [("n", VInt (2 ^ 64))].

(** A password library as [plain_libraries], which moreover refuses to
    check a password with a NUL character, as [passlib] does for
    [bcrypt]. *)
Definition strict_verify (password hashed : string) : option bool :=
  if no_nul password then plain_verify password hashed else None.

Definition strict_libraries : Libraries :=
  {| pwd_context_hash := plain_hash;
     pwd_context_verify := strict_verify;
     jwt_encode := plain_encode;
     jwt_decode := plain_decode |}.

(** A password with a NUL character. *)
Definition nul_password : string := String "p" (String zero (String "w" EmptyString)).

(* ================================================================== *)
(** * Dicts and values *)
(* ================================================================== *)

Section DictFacts.
Context {V : Type}.
Implicit Types (d : dict V) (k : string) (v : V).

Lemma dict_get_set_same k v d : dict_get k (dict_set k v d) = Some v.
Proof.
  induction d as [|[k' v'] rest IH]; simpl.
  - now rewrite String.eqb_refl.
  - destruct (String.eqb k k') eqn:E; simpl.
    + now rewrite String.eqb_refl.
    + now rewrite E.
Qed.

Lemma dict_get_set_other k k' v d :
  k <> k' -> dict_get k (dict_set k' v d) = dict_get k d.
Proof.
  intros Hne. apply String.eqb_neq in Hne.
  induction d as [|[k0 v0] rest IH]; simpl.
  - now rewrite Hne.
  - destruct (String.eqb k' k0) eqn:E; simpl.
    + apply String.eqb_eq in E. subst k0. now rewrite Hne.
    + now rewrite IH.
Qed.

Lemma dict_get_update_other k d other :
  dict_get k other = None -> dict_get k (dict_update d other) = dict_get k d.
Proof.
  unfold dict_update. revert d.
  induction other as [|[k' v'] rest IH]; intros d Hnone; simpl in *.
  - reflexivity.
  - destruct (String.eqb k k') eqn:E; [discriminate|].
    rewrite IH by assumption.
    apply dict_get_set_other. now apply String.eqb_neq.
Qed.
End DictFacts.

(** Induction over values that reaches inside lists and dicts. *)
Lemma Value_nested_ind (P : Value -> Prop) :
  P VNone ->
  (forall b, P (VBool b)) ->
  (forall z, P (VInt z)) ->
  (forall s, P (VStr s)) ->
  (forall t, P (VTime t)) ->
  (forall o, P (VOid o)) ->
  (forall l, Forall P l -> P (VList l)) ->
  (forall d, Forall (fun kv => P (snd kv)) d -> P (VDict d)) ->
  forall v, P v.
Proof.
  intros HNone HBool HInt HStr HTime HOid HList HDict.
  fix IH 1. intros [| b | z | s | t | o | l | d].
  - exact HNone.
  - apply HBool.
  - apply HInt.
  - apply HStr.
  - apply HTime.
  - apply HOid.
  - apply HList. induction l as [|x rest IHl]; constructor; [apply IH | exact IHl].
  - apply HDict. induction d as [|[k x] rest IHd]; constructor; [apply IH | exact IHd].
Qed.

Lemma value_eqb_eq (a b : Value) : value_eqb a b = true <-> a = b.
Proof.
  revert b. induction a using Value_nested_ind; intros b0; destruct b0; simpl;
    try (split; [discriminate | congruence]).
  - tauto.
  - rewrite Bool.eqb_true_iff. split; congruence.
  - rewrite Z.eqb_eq. split; congruence.
  - rewrite String.eqb_eq. split; congruence.
  - rewrite Z.eqb_eq. split; congruence.
  - rewrite N.eqb_eq. split; congruence.
  - rename l0 into l'. revert l'.
    induction H as [|x xs Hx Hxs IH]; intros [|y ys];
      try (split; [discriminate | congruence]); [tauto|].
    rewrite andb_true_iff, Hx, IH. split.
    + intros [-> E]. now inversion E.
    + intros E. inversion E. auto.
  - rename d0 into d'. revert d'.
    induction H as [|[k x] xs Hx Hxs IH]; intros [|[k' y] ys];
      try (split; [discriminate | congruence]); [tauto|].
    simpl in Hx.
    rewrite !andb_true_iff, String.eqb_eq, Hx, IH. split.
    + intros [[-> ->] E]. now inversion E.
    + intros E. inversion E. auto.
Qed.

Lemma value_eqb_refl (a : Value) : value_eqb a a = true.
Proof. now apply value_eqb_eq. Qed.

Lemma value_eqb_sym (a b : Value) : value_eqb a b = value_eqb b a.
Proof.
  destruct (value_eqb a b) eqn:E1, (value_eqb b a) eqn:E2; try reflexivity.
  - apply value_eqb_eq in E1. subst. now rewrite value_eqb_refl in E2.
  - apply value_eqb_eq in E2. subst. now rewrite value_eqb_refl in E1.
Qed.

(* ================================================================== *)
(** * What BSON holds *)
(* ================================================================== *)

Lemma encode_error_dict (d : Dict) :
  Forall (fun kv => key_ok (fst kv) = true /\ encode_error (snd kv) = None) d ->
  encode_error (VDict d) = None.
Proof.
  induction 1 as [|[k v] rest [Hk Hv] _ IH]; [reflexivity|].
  simpl in *. now rewrite Hk, Hv.
Qed.

Lemma encode_error_list (l : list Value) :
  Forall (fun v => encode_error v = None) l -> encode_error (VList l) = None.
Proof.
  induction 1 as [|v rest Hv _ IH]; [reflexivity|].
  simpl in *. now rewrite Hv.
Qed.

Lemma encode_error_dict_inv (d : Dict) :
  encode_error (VDict d) = None ->
  Forall (fun kv => key_ok (fst kv) = true /\ encode_error (snd kv) = None) d.
Proof.
  induction d as [|[k v] rest IH]; intros H; constructor.
  - simpl in *. destruct (key_ok k); [|discriminate].
    destruct (encode_error v); [discriminate | now split].
  - apply IH. simpl in *. destruct (key_ok k); [|discriminate].
    destruct (encode_error v); [discriminate | exact H].
Qed.

Lemma encode_error_strs (l : list string) : encode_error (VList (map VStr l)) = None.
Proof. apply encode_error_list. induction l; constructor; auto. Qed.

Lemma bson_store_strs (l : list string) : map bson_store (map VStr l) = map VStr l.
Proof. induction l as [|x rest IH]; simpl; [reflexivity | now rewrite IH]. Qed.

(** JSON data within the bounds of BSON is encoded, and read back as it
    was given. *)
Lemma storable_encoded (v : Value) : storable v = true -> encode_error v = None.
Proof.
  induction v using Value_nested_ind; simpl; intros Hv;
    try reflexivity; try discriminate.
  - now rewrite Hv.
  - apply encode_error_list.
    induction H as [|x rest Hx _ IH]; constructor; simpl in Hv;
      apply andb_true_iff in Hv; destruct Hv; auto.
  - apply encode_error_dict.
    induction H as [|[k x] rest Hx _ IH]; constructor; simpl in Hv, Hx;
      apply andb_true_iff in Hv; destruct Hv as [Hkx Hrest];
      [apply andb_true_iff in Hkx; destruct Hkx; auto | auto].
Qed.

Lemma storable_kept (v : Value) : storable v = true -> bson_store v = v.
Proof.
  induction v using Value_nested_ind; simpl; intros Hv;
    try reflexivity; try discriminate.
  - f_equal.
    induction H as [|x rest Hx _ IH]; [reflexivity|]. simpl in *.
    apply andb_true_iff in Hv. destruct Hv as [H1 H2].
    now rewrite Hx, IH.
  - f_equal.
    induction H as [|[k x] rest Hx _ IH]; [reflexivity|]. simpl in *.
    apply andb_true_iff in Hv. destruct Hv as [H1 H2].
    apply andb_true_iff in H1. destruct H1 as [_ H1].
    now rewrite Hx, IH.
Qed.

Lemma trunc_ms_le (t : datetime) : trunc_ms t <= t < trunc_ms t + 1000.
Proof. unfold trunc_ms. pose proof (Z.div_mod t 1000 ltac:(lia)).
  pose proof (Z.mod_pos_bound t 1000 ltac:(lia)). lia. Qed.

Lemma trunc_ms_idem (t : datetime) : trunc_ms (trunc_ms t) = trunc_ms t.
Proof. unfold trunc_ms. now rewrite Z.div_mul by lia. Qed.

(** A document that can be encoded is stored under the next id, at the
    end of its collection, as BSON holds it. *)
Lemma insert_one_stores (name : string) (doc : NewDocument) (w : World) :
  encode_error (VDict (new_fields doc)) = None ->
  insert_one name doc w
  = (Ok (next_oid w),
     log_access name OpInsertOne
       (set_collection name
          (db w name ++ [mkDocument (next_oid w) (store_dict (new_fields doc))])
          (mkWorld (db w) (N.succ (next_oid w)) (clock w) (ticks w) (trace w)))).
Proof. intros H. unfold insert_one. now rewrite H. Qed.

(** One that cannot is refused, and nothing is stored. *)
Lemma insert_one_refuses (name : string) (doc : NewDocument) (w : World) (e : Exc) :
  encode_error (VDict (new_fields doc)) = Some e ->
  insert_one name doc w
  = (Raise e, mkWorld (db w) (N.succ (next_oid w)) (clock w) (ticks w) (trace w)).
Proof. intros H. unfold insert_one. now rewrite H. Qed.

(* ================================================================== *)
(** * [ObjectId(str(oid)) == oid] *)
(* ================================================================== *)

Lemma hex_val_hex_char (d : N) : (d < 16)%N -> hex_val (hex_char d) = Some d.
Proof.
  intros Hd.
  assert (Hcases : In d [0;1;2;3;4;5;6;7;8;9;10;11;12;13;14;15]%N).
  { simpl. lia. }
  simpl in Hcases.
  repeat (destruct Hcases as [<-|Hcases]; [reflexivity|]).
  contradiction.
Qed.

Lemma is_space_hex_char (d : N) : (d < 16)%N -> is_space (hex_char d) = false.
Proof.
  intros Hd.
  assert (Hcases : In d [0;1;2;3;4;5;6;7;8;9;10;11;12;13;14;15]%N).
  { simpl. lia. }
  simpl in Hcases.
  repeat (destruct Hcases as [<-|Hcases]; [reflexivity|]).
  contradiction.
Qed.

Lemma length_append (s1 s2 : string) :
  String.length (s1 ++ s2) = (String.length s1 + String.length s2)%nat.
Proof. induction s1; simpl; auto. Qed.

Lemma append_assoc (s1 s2 s3 : string) : ((s1 ++ s2) ++ s3 = s1 ++ (s2 ++ s3))%string.
Proof. induction s1 as [|c rest IH]; simpl; [reflexivity | now rewrite IH]. Qed.

Lemma hex_digits_length (w : nat) (n : N) : String.length (hex_digits w n) = w.
Proof.
  revert n. induction w as [|w IH]; intros n; simpl.
  - reflexivity.
  - rewrite length_append, IH. simpl. lia.
Qed.

(** What [bytes.fromhex] has read of a string stays read when the string
    goes on. *)
Lemma fromhex_app (s t : string) (bytes : list N) :
  fromhex s = Some bytes ->
  fromhex (s ++ t) = option_map (app bytes) (fromhex t).
Proof.
  remember (String.length s) as n eqn:Hn.
  assert (Hle : (String.length s <= n)%nat) by lia. clear Hn.
  revert s bytes Hle.
  induction n as [|n IH]; intros s bytes Hle Hs.
  - destruct s; [|simpl in Hle; lia].
    simpl in Hs. injection Hs as <-. simpl. now destruct (fromhex t).
  - destruct s as [|c rest].
    + simpl in Hs. injection Hs as <-. simpl. now destruct (fromhex t).
    + simpl in Hle. cbn [fromhex append] in *.
      destruct (is_space c).
      * apply IH; [lia | exact Hs].
      * destruct (hex_val c) as [hi|]; [|discriminate].
        destruct rest as [|c' rest']; [discriminate|].
        cbn [append]. simpl in Hle.
        destruct (hex_val c') as [lo|]; [|discriminate].
        destruct (fromhex rest') as [more|] eqn:Hmore; [|discriminate].
        injection Hs as <-.
        rewrite (IH rest' more ltac:(lia) Hmore).
        now destruct (fromhex t).
Qed.

Lemma bytes_value_snoc (bytes : list N) (b : N) :
  bytes_value (bytes ++ [b])%list = (bytes_value bytes * 256 + b)%N.
Proof. unfold bytes_value. now rewrite fold_left_app. Qed.

(** [bytes.fromhex] reads the digits of [str(oid)] back, a byte for
    every two. *)
Lemma fromhex_digits (k : nat) (n : N) :
  exists bytes,
    fromhex (hex_digits (2 * k) n) = Some bytes
    /\ List.length bytes = k
    /\ bytes_value bytes = (n mod 256 ^ N.of_nat k)%N.
Proof.
  revert n. induction k as [|k IH]; intros n.
  - exists []. repeat split. simpl. now rewrite N.mod_1_r.
  - replace (2 * S k)%nat with (S (S (2 * k))) by lia.
    cbn [hex_digits]. rewrite append_assoc. cbn [append].
    destruct (IH (n / 16 / 16)%N) as (bytes & Hbytes & Hlen & Hval).
    set (hi := ((n / 16) mod 16)%N). set (lo := (n mod 16)%N).
    assert (Hhi : (hi < 16)%N) by (apply N.mod_lt; lia).
    assert (Hlo : (lo < 16)%N) by (apply N.mod_lt; lia).
    exists (bytes ++ [(hi * 16 + lo)%N])%list.
    rewrite (fromhex_app _ _ bytes Hbytes).
    cbn [fromhex].
    rewrite (is_space_hex_char hi Hhi), (hex_val_hex_char hi Hhi),
            (hex_val_hex_char lo Hlo).
    repeat split.
    + rewrite length_app, Hlen. simpl. lia.
    + rewrite bytes_value_snoc, Hval.
      rewrite Nat2N.inj_succ, N.pow_succ_r'.
      rewrite N.Div0.div_div.
      rewrite (N.Div0.mod_mul_r n 256 (256 ^ N.of_nat k)).
      assert (H256 : (n mod 256 = lo + 16 * hi)%N).
      { unfold hi, lo. now rewrite <- N.Div0.mod_mul_r. }
      rewrite H256. change (16 * 16)%N with 256%N. lia.
Qed.

(** The id a handler returns as a string is read back as the same id. *)
Lemma ObjectId_of_oid_str (o : ObjectId) :
  (o < oid_limit)%N -> ObjectId_of_str (oid_str o) = Some o.
Proof.
  intros Ho. unfold ObjectId_of_str, ObjectId_parse, oid_str.
  rewrite hex_digits_length. cbn [Nat.eqb].
  destruct (fromhex_digits 12 o) as (bytes & Hbytes & Hlen & Hval).
  change (2 * 12)%nat with 24%nat in Hbytes. rewrite Hbytes, Hlen. cbn [Nat.eqb].
  rewrite Hval. f_equal. apply N.mod_small. exact Ho.
Qed.

(** What [ObjectId(s)] makes of a string of 24 hexadecimal digits. *)
Lemma ObjectId_parse_full (s : string) (o : ObjectId) :
  ObjectId_of_str s = Some o -> ObjectId_parse s = Some (FullId o).
Proof.
  unfold ObjectId_of_str.
  destruct (ObjectId_parse s) as [[o'|bytes]|]; intros H; now inversion H.
Qed.

Lemma to_ObjectId_full (s : string) (o : ObjectId) :
  ObjectId_of_str s = Some o -> to_ObjectId s = ret (FullId o).
Proof.
  intros H. unfold to_ObjectId. now rewrite (ObjectId_parse_full s o H).
Qed.

(** The step of a handler that reads an id of twelve bytes. *)
Ltac full_id H :=
  rewrite (to_ObjectId_full _ _ H); unfold ret;
  repeat match goal with
    | |- context [resource_scope (FullId ?o) ?s ?t] =>
        change (resource_scope (FullId o) s t) with (resource_key o s t)
    | |- context [id_is (FullId ?o)] =>
        change (id_is (FullId o)) with (CEq (VOid o))
    end.

Example oid_str_example : oid_str 255%N = "0000000000000000000000ff".
Proof. reflexivity. Qed.

Example ObjectId_of_str_example :
  ObjectId_of_str "0000000000000000000000FF" = Some 255%N
  /\ ObjectId_of_str "nope" = None
  /\ ObjectId_of_str "00000000000000000000000g" = None.
Proof. repeat split; reflexivity. Qed.

Example ObjectId_parse_example :
  ObjectId_parse "0000000000000000000000ff" = Some (FullId 255%N)
  /\ ObjectId_parse "00 00 00 00 00 00 00 ff " = Some (ShortId [0; 0; 0; 0; 0; 0; 0; 255]%N)
  /\ ObjectId_parse "0 0000000000000000000000" = None
  /\ ObjectId_parse "not-an-object-id" = None.
Proof. repeat split; reflexivity. Qed.

Example calendar_example :
  civil_from_days 0 = (1970, 1, 1)
  /\ civil_from_days 10957 = (2000, 1, 1)
  /\ civil_from_days 11016 = (2000, 2, 29)
  /\ days_from_civil 2024 12 31 = 20088
  /\ civil_from_days 20088 = (2024, 12, 31).
Proof. repeat split; reflexivity. Qed.

(* ================================================================== *)
(** * Identity resolution *)
(* ================================================================== *)

Lemma doc_get_set_same (k : string) (v : Value) (d : Document) :
  k <> "_id" -> doc_get k (doc_set k v d) = Some v.
Proof.
  intros Hk. unfold doc_get, doc_set. simpl.
  apply String.eqb_neq in Hk. rewrite Hk. apply dict_get_set_same.
Qed.

Lemma doc_get_set_other (k k' : string) (v : Value) (d : Document) :
  k <> k' -> doc_get k (doc_set k' v d) = doc_get k d.
Proof.
  intros Hk. unfold doc_get, doc_set. simpl.
  destruct (String.eqb k "_id"); [reflexivity|].
  now apply dict_get_set_other.
Qed.

(** An object of fewer than twelve bytes names no stored document. *)
Lemma short_id_no_match (bytes : list N) (q : Filter) (d : Document) :
  doc_matches (("_id", id_is (ShortId bytes)) :: q) d = false.
Proof. reflexivity. Qed.

Lemma short_id_names_nothing (bytes : list N) (q : Filter) (docs : list Document) :
  first_match (("_id", id_is (ShortId bytes)) :: q) docs = None.
Proof.
  unfold first_match. induction docs as [|d rest IH]; [reflexivity|].
  cbn [find]. now rewrite short_id_no_match.
Qed.

Section Identity.
Context {L : Libraries}.

(** A header that resolves: what the token held and which stored user
    it named. *)
Lemma get_current_user_ok (authorization : option string) (w w1 : World) (user : Document) :
  get_current_user authorization w = (Ok user, w1) ->
  exists a payload s oid stored,
    authorization = Some a
    /\ jwt_decode (bearer_token a) SECRET_KEY ALGORITHM (clock w (ticks w)) = Some payload
    /\ or_none (dict_get "sub" payload) = VStr s
    /\ ObjectId_of_str s = Some oid
    /\ stored_user oid w = Some stored
    /\ user = doc_set "role" (or_none (dict_get "role" payload)) (with_id stored)
    /\ w1 = log_access "user" OpFindOne (tick w).
Proof.
  unfold get_current_user. destruct authorization as [a|]; [|discriminate].
  destruct (String.eqb a "" || negb (String.prefix "Bearer " a)); [discriminate|].
  unfold bind, utcnow. simpl.
  destruct (jwt_decode (bearer_token a) SECRET_KEY ALGORITHM (clock w (ticks w)))
    as [payload|] eqn:Hdec; [|discriminate].
  destruct (or_none (dict_get "sub" payload)) eqn:Hsub; try discriminate.
  unfold to_ObjectId.
  destruct (ObjectId_parse s) as [[oid|bytes]|] eqn:Hoid; [| |discriminate].
  - unfold ret, find_one. simpl.
    destruct (first_match [("_id", CEq (VOid oid))] (db w "user")) as [stored|] eqn:Hst;
      [|discriminate].
    intros H. inversion H; subst.
    exists a, payload, s, oid, stored.
    repeat split; try assumption. unfold ObjectId_of_str. now rewrite Hoid.
  - unfold ret, find_one. cbn [db log_access].
    rewrite short_id_names_nothing. discriminate.
Qed.

(** A header whose token decodes and names a stored user resolves, by
    one reading of the clock and one lookup among the users. *)
Lemma get_current_user_resolves (a : string) (w : World) (payload : Dict) (s : string)
    (oid : ObjectId) (stored : Document) :
  String.prefix "Bearer " a = true ->
  jwt_decode (bearer_token a) SECRET_KEY ALGORITHM (clock w (ticks w)) = Some payload ->
  dict_get "sub" payload = Some (VStr s) ->
  ObjectId_of_str s = Some oid ->
  stored_user oid w = Some stored ->
  get_current_user (Some a) w
  = (Ok (doc_set "role" (or_none (dict_get "role" payload)) (with_id stored)),
     log_access "user" OpFindOne (tick w)).
Proof.
  intros Hprefix Hdec Hsub Hoid Hstored.
  unfold get_current_user.
  assert (Hempty : String.eqb a "" = false).
  { destruct a; [discriminate Hprefix | reflexivity]. }
  rewrite Hempty, Hprefix. cbn [orb negb].
  unfold bind, utcnow. rewrite Hdec, Hsub. cbn [or_none].
  rewrite (to_ObjectId_full _ _ Hoid). unfold ret, find_one.
  unfold stored_user in Hstored. cbn [db id_is]. rewrite Hstored. reflexivity.
Qed.

(** The guard reads the role the token carried. *)
Lemma resolved_role (authorization : option string) (w w1 : World) (user : Document) :
  get_current_user authorization w = (Ok user, w1) ->
  exists a payload,
    authorization = Some a
    /\ jwt_decode (bearer_token a) SECRET_KEY ALGORITHM (clock w (ticks w)) = Some payload
    /\ doc_get "role" user = Some (or_none (dict_get "role" payload)).
Proof.
  intros H. apply get_current_user_ok in H.
  destruct H as (a & payload & s & oid & stored & -> & Hdec & _ & _ & _ & -> & _).
  exists a, payload. repeat split; [assumption|].
  apply doc_get_set_same. discriminate.
Qed.

Lemma admin_only_unfold {A} (authorization : option string) (handler : M A) (w : World) :
  admin_only authorization handler w =
  match get_current_user authorization w with
  | (Ok user, w1) =>
      if negb (is_str (doc_get "role" user) "admin")
      then (Raise (HTTP 403 "Admin access required"), w1)
      else handler w1
  | (Raise e, w1) => (Raise e, w1)
  end.
Proof.
  unfold admin_only, bind, require_admin.
  destruct (get_current_user authorization w) as [[user|e] w1]; [|reflexivity].
  destruct (negb (is_str (doc_get "role" user) "admin")); reflexivity.
Qed.

Lemma admin_only_user_token {A} (a : string) (handler : M A) (w : World) (payload : Dict) :
  jwt_decode (bearer_token a) SECRET_KEY ALGORITHM (clock w (ticks w)) = Some payload ->
  dict_get "role" payload = Some (VStr "user") ->
  (exists e w', admin_only (Some a) handler w = (Raise e, w'))
  /\ (forall user w1,
        get_current_user (Some a) w = (Ok user, w1) ->
        admin_only (Some a) handler w = (Raise (HTTP 403 "Admin access required"), w1)).
Proof.
  intros Hdec Hrole.
  assert (Hforbid : forall user w1,
             get_current_user (Some a) w = (Ok user, w1) ->
             admin_only (Some a) handler w = (Raise (HTTP 403 "Admin access required"), w1)).
  { intros user w1 Hu. rewrite admin_only_unfold, Hu.
    apply resolved_role in Hu. destruct Hu as (a' & payload' & Ha & Hdec' & Hr).
    inversion Ha; subst a'. rewrite Hdec in Hdec'. inversion Hdec'; subst payload'.
    rewrite Hr, Hrole. reflexivity. }
  split; [|exact Hforbid].
  destruct (get_current_user (Some a) w) as [[user|e] w1] eqn:Hu.
  - eauto.
  - exists e, w1. rewrite admin_only_unfold, Hu. reflexivity.
Qed.
End Identity.

(* ================================================================== *)
(** * The guards *)
(* ================================================================== *)

Lemma check_access_denied (system : string) (user : Document) (w : World) :
  is_str (doc_get "role" user) "admin" = false ->
  py_in system (user_systems user) = Some false ->
  check_access system user w = denied w.
Proof.
  intros Hrole Hin. unfold check_access. rewrite Hrole, Hin. reflexivity.
Qed.

Lemma check_access_allowed (system : string) (user : Document) (w : World) :
  allowed system user -> check_access system user w = (Ok tt, w).
Proof.
  unfold check_access. intros [Hadmin | Hin].
  - rewrite Hadmin. reflexivity.
  - rewrite Hin. destruct (negb _); reflexivity.
Qed.

(** A caller whose role, as the handlers see it, is not [admin] and
    whose systems do not hold [system] is refused with 403 by every
    handler under [/systems/{system}] and by the analytics of the system,
    whatever the rest of the request; the world the handler leaves is the
    world it was given. *)
Lemma forbidden_without_store_access (system : string) (user : Document) (w : World) :
  is_str (doc_get "role" user) "admin" = false ->
  py_in system (user_systems user) = Some false ->
  (forall rtype payload, create_resource system rtype payload user w = denied w)
  /\ (forall rtype params, query_resources system rtype params user w = denied w)
  /\ (forall rtype rid, get_resource system rtype rid user w = denied w)
  /\ (forall rtype rid payload, update_resource system rtype rid payload user w = denied w)
  /\ (forall rtype rid, delete_resource system rtype rid user w = denied w)
  /\ system_analytics system user w = denied w.
Proof.
  intros Hrole Hin.
  pose proof (check_access_denied system user w Hrole Hin) as Hdenied.
  unfold create_resource, query_resources, get_resource, update_resource,
    delete_resource, system_analytics, bind.
  rewrite Hdenied. unfold denied. repeat split; reflexivity.
Qed.

(** Behind the route, a refusal has cost one reading of the clock and
    one lookup among the users: the collections are as they were and the
    trace has grown by that lookup alone. *)
Lemma refused_route_reads_users_only {L : Libraries} {A : Type}
    (handler : Document -> M A) (authorization : option string)
    (w w1 : World) (user : Document) :
  get_current_user authorization w = (Ok user, w1) ->
  handler user w1 = denied w1 ->
  authenticated authorization handler w = denied w1
  /\ db w1 = db w
  /\ trace w1 = (trace w ++ [("user", OpFindOne)])%list.
Proof.
  intros Huser Hdenied. split.
  - unfold authenticated, bind. rewrite Huser. exact Hdenied.
  - apply get_current_user_ok in Huser.
    destruct Huser as (a & payload & s & oid & stored & _ & _ & _ & _ & _ & _ & ->).
    split; reflexivity.
Qed.

Lemma system_handler_denied (system : string) (e : SystemEndpoint) (user : Document)
    (w : World) :
  is_str (doc_get "role" user) "admin" = false ->
  py_in system (user_systems user) = Some false ->
  system_handler system e user w = denied w.
Proof.
  intros Hrole Hin.
  destruct (forbidden_without_store_access system user w Hrole Hin)
    as (H1 & H2 & H3 & H4 & H5 & H6).
  destruct e; unfold system_handler, bind;
    [rewrite H1 | rewrite H2 | rewrite H3 | rewrite H4 | rewrite H5 | rewrite H6];
    reflexivity.
Qed.

(** C3, as the code has it. A request whose token carries a role other
    than [admin] and names a stored user whose systems do not hold
    [system] is refused with 403 by every endpoint under
    [/systems/{system}] and by the analytics of the system, whatever the
    rest of the request.  The world it leaves shows one reading of the
    clock and one lookup among the users, both by identity resolution:
    no collection was written and the resources were not read. *)
Theorem forbidden_by_token_role {L : Libraries}
    (system : string) (e : SystemEndpoint) (a : string) (w : World)
    (payload : Dict) (s : string) (oid : ObjectId) (stored : Document) :
  String.prefix "Bearer " a = true ->
  jwt_decode (bearer_token a) SECRET_KEY ALGORITHM (clock w (ticks w)) = Some payload ->
  dict_get "sub" payload = Some (VStr s) ->
  ObjectId_of_str s = Some oid ->
  stored_user oid w = Some stored ->
  is_str (dict_get "role" payload) "admin" = false ->
  py_in system (user_systems stored) = Some false ->
  system_route system e (Some a) w
  = (Raise (HTTP 403 "Access denied to this system"),
     log_access "user" OpFindOne (tick w)).
Proof.
  intros Hprefix Hdec Hsub Hoid Hstored Hrole Hin.
  unfold system_route, authenticated, bind.
  rewrite (get_current_user_resolves a w payload s oid stored Hprefix Hdec Hsub Hoid Hstored).
  apply system_handler_denied.
  - rewrite doc_get_set_same by discriminate.
    destruct (dict_get "role" payload) as [v|]; [exact Hrole | reflexivity].
  - unfold user_systems in *.
    rewrite doc_get_set_other by discriminate.
    unfold with_id. rewrite doc_get_set_other by discriminate. exact Hin.
Qed.

(** C3, as stated, fails for a user whose role changed after the token
    was issued: Alice is stored with the role [user] and without any
    system, her token still says [admin], and her request to create a
    patient under [hospital] is answered and stores the patient. *)
Lemma stale_admin_token_is_not_refused :
  option_map (doc_get "role") (stored_user 1%N world_demoted) = Some (Some (VStr "user"))
  /\ option_map (fun d => py_in "hospital" (user_systems d)) (stored_user 1%N world_demoted)
     = Some (Some false)
  /\ result (system_route (L := plain_libraries) "hospital"
               (POST_resource "patient" patient_payload) alice_header) world_demoted
     = Ok (RDict [("id", VStr "000000000000000000000004")])
  /\ map (doc_get "data")
         (db (run (system_route (L := plain_libraries) "hospital"
                     (POST_resource "patient" patient_payload) alice_header)
                world_demoted) "resource")
     = [Some (VDict [("name", VStr "Paul"); ("ward", VInt 7)])].
Proof. repeat split; vm_compute; reflexivity. Qed.

(** C4. A request to an admin endpoint whose token carries the role
    [user] never gets an answer from the endpoint: it ends in an error,
    and once the caller is resolved the error is the 403 of the admin
    guard, raised in the world identity resolution left (the handler did
    not run). *)
Theorem user_token_never_passes_admin_guard {L : Libraries}
    (e : AdminEndpoint) (a : string) (w : World) (payload : Dict) :
  jwt_decode (bearer_token a) SECRET_KEY ALGORITHM (clock w (ticks w)) = Some payload ->
  dict_get "role" payload = Some (VStr "user") ->
  (exists exc w', admin_route e (Some a) w = (Raise exc, w'))
  /\ (forall user w1,
        get_current_user (Some a) w = (Ok user, w1) ->
        admin_route e (Some a) w = (Raise (HTTP 403 "Admin access required"), w1)).
Proof.
  intros Hdec Hrole.
  destruct e; simpl; apply (admin_only_user_token _ _ _ _ Hdec Hrole).
Qed.

(* ================================================================== *)
(** * Login *)
(* ================================================================== *)

(** A login with an email no stored user has and a login with a stored
    email and a password that the library checks and finds wrong are
    refused alike: the same exception, status 401 with the same message,
    and the same effect on the world, one lookup in the user
    collection. *)
Lemma login_failures_alike {L : Libraries}
    (unknown : LoginRequest) (w1 : World)
    (wrong : LoginRequest) (w2 : World) (stored : Document) (hashed : string) :
  first_match [("email", CEq (VStr (lr_email unknown)))] (db w1 "user") = None ->
  first_match [("email", CEq (VStr (lr_email wrong)))] (db w2 "user") = Some stored ->
  doc_get "password" stored = Some (VStr hashed) ->
  verify_password (lr_password wrong) hashed = Some false ->
  login unknown w1 = (Raise (HTTP 401 "Invalid credentials"), log_access "user" OpFindOne w1)
  /\ login wrong w2 = (Raise (HTTP 401 "Invalid credentials"), log_access "user" OpFindOne w2)
  /\ result (login unknown) w1 = result (login wrong) w2.
Proof.
  intros Hunknown Hstored Hpw Hverify.
  assert (H1 : login unknown w1
               = (Raise (HTTP 401 "Invalid credentials"), log_access "user" OpFindOne w1)).
  { unfold login, bind, find_one. rewrite Hunknown. reflexivity. }
  assert (H2 : login wrong w2
               = (Raise (HTTP 401 "Invalid credentials"), log_access "user" OpFindOne w2)).
  { unfold login, bind, find_one. rewrite Hstored, Hpw, Hverify. reflexivity. }
  repeat split; try assumption.
  unfold result. now rewrite H1, H2.
Qed.

(** C9, where the code departs from it. The check of the password is
    not guarded: when the library refuses to check a password against
    the stored hash, the login with a stored email ends in the error of
    the library, and a login with an unknown email, whatever its
    password, ends in the 401.  The two refusals differ, so the answer
    tells whether the email is stored. *)
Theorem login_error_reveals_stored_email {L : Libraries}
    (unknown : LoginRequest) (wrong : LoginRequest) (w : World)
    (stored : Document) (hashed : string) :
  first_match [("email", CEq (VStr (lr_email unknown)))] (db w "user") = None ->
  first_match [("email", CEq (VStr (lr_email wrong)))] (db w "user") = Some stored ->
  doc_get "password" stored = Some (VStr hashed) ->
  verify_password (lr_password wrong) hashed = None ->
  result (login unknown) w = Raise (HTTP 401 "Invalid credentials")
  /\ result (login wrong) w = Raise ValueError
  /\ result (login unknown) w <> result (login wrong) w.
Proof.
  intros Hunknown Hstored Hpw Hverify.
  assert (H1 : result (login unknown) w = Raise (HTTP 401 "Invalid credentials")).
  { unfold result, login, bind, find_one. rewrite Hunknown. reflexivity. }
  assert (H2 : result (login wrong) w = Raise ValueError).
  { unfold result, login, bind, find_one. rewrite Hstored, Hpw, Hverify. reflexivity. }
  repeat split; try assumption.
  rewrite H1, H2. discriminate.
Qed.

(* ================================================================== *)
(** * Assigning systems *)
(* ================================================================== *)

(** An update that can be encoded is sent, with its values as BSON
    holds them. *)
Lemma update_one_sent (name : string) (q : Filter) (u : Update) (w : World) :
  update_error u = None ->
  update_one name q u w =
  match first_match q (db w name) with
  | None => (Ok 0, log_access name OpUpdateOne w)
  | Some d =>
      match apply_update (store_update u) d with
      | None => (Raise WriteError, log_access name OpUpdateOne w)
      | Some d' =>
          (Ok 1, set_collection name (replace_first q (fun _ => d') (db w name))
                   (log_access name OpUpdateOne w))
      end
  end.
Proof. intros H. unfold update_one. now rewrite H. Qed.

(** One that cannot is refused, and the store is not reached. *)
Lemma update_one_refuses (name : string) (q : Filter) (u : Update) (w : World) (e : Exc) :
  update_error u = Some e -> update_one name q u w = (Raise e, w).
Proof. intros H. unfold update_one. now rewrite H. Qed.

(** Strings are encoded and stored as they are. *)
Lemma update_one_add_strs (name : string) (q : Filter) (strs : list string) (w : World) :
  update_one name q (UAddToSet "systems" (map VStr strs)) w =
  match first_match q (db w name) with
  | None => (Ok 0, log_access name OpUpdateOne w)
  | Some d =>
      match apply_update (UAddToSet "systems" (map VStr strs)) d with
      | None => (Raise WriteError, log_access name OpUpdateOne w)
      | Some d' =>
          (Ok 1, set_collection name (replace_first q (fun _ => d') (db w name))
                   (log_access name OpUpdateOne w))
      end
  end.
Proof.
  rewrite update_one_sent.
  - cbn [store_update]. now rewrite bson_store_strs.
  - cbn [update_error]. change (key_ok "systems") with true. cbv iota.
    apply encode_error_strs.
Qed.

Lemma assign_systems_unfold (user_id : string) (systems : list string) (w : World) :
  assign_systems user_id systems w =
  match ObjectId_parse user_id with
  | None => (Raise InvalidId, w)
  | Some oid =>
      match update_one "user" [("_id", id_is oid)]
              (UAddToSet "systems" (map VStr systems)) w with
      | (Ok _, w') => (Ok [("assigned", VBool true)], w')
      | (Raise e, w') => (Raise e, w')
      end
  end.
Proof.
  unfold assign_systems, bind, to_ObjectId.
  destruct (ObjectId_parse user_id); reflexivity.
Qed.

Lemma update_one_result (name : string) (q : Filter) (u : Update) (w : World) :
  update_error u = None ->
  forall e, result (update_one name q u) w = Raise e -> e = WriteError.
Proof.
  intros Hu e. unfold result. rewrite (update_one_sent _ _ _ _ Hu).
  destruct (first_match q (db w name)) as [d|]; [|discriminate].
  destruct (apply_update (store_update u) d); simpl; [discriminate|congruence].
Qed.

Lemma update_error_add_strs (strs : list string) :
  update_error (UAddToSet "systems" (map VStr strs)) = None.
Proof.
  cbn [update_error]. change (key_ok "systems") with true. cbv iota.
  apply encode_error_strs.
Qed.

(** C10, as the code has it. For a user id of 24 hexadecimal digits,
    the assignment succeeds with [{"assigned": true}]: when the id names
    no stored user, and then the store holds what it held, one access
    to the user collection apart; and when it names a stored user whose
    [systems] is an array or absent.  No assignment, whatever its
    arguments, ends in a 404; one with a user id that [ObjectId] refuses
    ends in [InvalidId] with the world untouched. *)
Theorem assign_systems_never_not_found
    (user_id : string) (systems : list string) (w : World) (oid : ObjectId) :
  ObjectId_of_str user_id = Some oid ->
  (stored_user oid w = None ->
   assign_systems user_id systems w
   = (Ok [("assigned", VBool true)], log_access "user" OpUpdateOne w))
  /\ (forall stored,
        stored_user oid w = Some stored ->
        doc_get "systems" stored = None
        \/ (exists arr, doc_get "systems" stored = Some (VList arr)) ->
        result (assign_systems user_id systems) w = Ok [("assigned", VBool true)])
  /\ (forall uid sys w0 detail,
        result (assign_systems uid sys) w0 <> Raise (HTTP 404 detail))
  /\ (forall uid sys w0,
        ObjectId_parse uid = None -> assign_systems uid sys w0 = (Raise InvalidId, w0)).
Proof.
  intros Hoid. apply ObjectId_parse_full in Hoid. unfold stored_user.
  repeat apply conj.
  - intros Hnone. rewrite assign_systems_unfold, Hoid, update_one_add_strs.
    cbn [id_is]. rewrite Hnone. reflexivity.
  - intros stored Hstored Hsys. unfold result.
    rewrite assign_systems_unfold, Hoid, update_one_add_strs.
    cbn [id_is]. rewrite Hstored.
    unfold doc_get in Hsys. cbn [String.eqb Ascii.eqb Bool.eqb] in Hsys.
    cbn [apply_update].
    destruct Hsys as [Hsys | [arr Hsys]]; rewrite Hsys; reflexivity.
  - intros uid sys w0 detail. unfold result. rewrite assign_systems_unfold.
    destruct (ObjectId_parse uid) as [o|]; [|discriminate].
    destruct (update_one "user" [("_id", id_is o)]
                (UAddToSet "systems" (map VStr sys)) w0) as [[n|e] w'] eqn:Hu;
      [discriminate|].
    pose proof (update_one_result "user" [("_id", id_is o)]
                  (UAddToSet "systems" (map VStr sys)) w0
                  (update_error_add_strs sys) e) as He.
    unfold result in He. rewrite Hu in He. simpl in *.
    rewrite (He eq_refl). discriminate.
  - intros uid sys w0 Hbad. rewrite assign_systems_unfold, Hbad. reflexivity.
Qed.

(** C10, as stated, fails on a user id that is not an ObjectId: the
    request of an admin ends in [InvalidId], not in [{"assigned": true}]. *)
Lemma assign_systems_malformed_id :
  assign_systems "not-an-object-id" ["school"] world_users = (Raise InvalidId, world_users)
  /\ result (admin_route (L := plain_libraries)
               (POST_admin_user_assign "not-an-object-id" ["school"]) alice_header)
       world_users
     = Raise InvalidId.
Proof. split; reflexivity. Qed.

(* ================================================================== *)
(** * Lookups by id in a collection that was updated *)
(* ================================================================== *)

Lemma doc_matches_id (o : ObjectId) (d : Document) :
  doc_matches [("_id", CEq (VOid o))] d = N.eqb (_id d) o.
Proof.
  unfold doc_matches. simpl. now rewrite orb_false_r, andb_true_r.
Qed.

(** Replacing the first match of [q] by a document with the same id
    that agrees on [g] leaves [g] of every lookup by id as it was. *)
Lemma first_match_id_replace_first {X : Type} (g : Document -> X)
    (q : Filter) (d d' : Document) (o : ObjectId) (docs : list Document) :
  first_match q docs = Some d ->
  _id d' = _id d ->
  g d' = g d ->
  option_map g (first_match [("_id", CEq (VOid o))] (replace_first q (fun _ => d') docs))
  = option_map g (first_match [("_id", CEq (VOid o))] docs).
Proof.
  intros Hfirst Hid Hg. unfold first_match in *.
  induction docs as [|x rest IH]; cbn [find replace_first] in *; [reflexivity|].
  destruct (doc_matches q x) eqn:Hq.
  - inversion Hfirst; subst x. cbn [find].
    rewrite !doc_matches_id, Hid.
    destruct (N.eqb (_id d) o); simpl; [now rewrite Hg | reflexivity].
  - cbn [find]. destruct (doc_matches [("_id", CEq (VOid o))] x); [reflexivity|].
    now apply IH.
Qed.

Lemma first_match_some (q : Filter) (d : Document) (docs : list Document) :
  first_match q docs = Some d -> doc_matches q d = true.
Proof. intros H. apply find_some in H. tauto. Qed.

(** After the first match of [q] is replaced by a document that matches
    [q], that document is the first match. *)
Lemma first_match_replace_first (q : Filter) (d d' : Document) (docs : list Document) :
  first_match q docs = Some d ->
  doc_matches q d' = true ->
  first_match q (replace_first q (fun _ => d') docs) = Some d'.
Proof.
  intros Hfirst Hd'. unfold first_match in *.
  induction docs as [|x rest IH]; cbn [find replace_first] in *; [discriminate|].
  destruct (doc_matches q x) eqn:Hq.
  - cbn [find]. now rewrite Hd'.
  - cbn [find]. rewrite Hq. now apply IH.
Qed.

Lemma set_collection_same (name : string) (docs : list Document) (w : World) :
  db (set_collection name docs w) name = docs.
Proof. unfold set_collection. simpl. now rewrite String.eqb_refl. Qed.

(** [$addToSet] on [systems] does not touch [updated_at], and the
    handler does not read the clock: for every user, the stored
    [updated_at] after an assignment is the one from before. *)
Lemma assign_systems_keeps_updated_at
    (user_id : string) (systems : list string) (w : World) (o : ObjectId) :
  ticks (run (assign_systems user_id systems) w) = ticks w
  /\ option_map (doc_get "updated_at") (stored_user o (run (assign_systems user_id systems) w))
     = option_map (doc_get "updated_at") (stored_user o w).
Proof.
  unfold run. rewrite assign_systems_unfold.
  destruct (ObjectId_parse user_id) as [oid|]; [|split; reflexivity].
  rewrite update_one_add_strs.
  destruct (first_match [("_id", id_is oid)] (db w "user")) as [d|] eqn:Hd;
    [|split; reflexivity].
  destruct (apply_update (UAddToSet "systems" (map VStr systems)) d) as [d'|] eqn:Hup;
    [|split; reflexivity].
  simpl. split; [reflexivity|].
  unfold stored_user. rewrite set_collection_same. simpl.
  apply first_match_id_replace_first with (d := d); [exact Hd| |].
  - simpl in Hup.
    destruct (dict_get "systems" (body d)) as [[]|]; inversion Hup; reflexivity.
  - simpl in Hup.
    destruct (dict_get "systems" (body d)) as [[]|]; inversion Hup;
      apply doc_get_set_other; discriminate.
Qed.

(** C8 at a failing input. Bob was registered at the fifth reading of
    the clock; the assignment of [hospital] at the tenth changes his
    stored systems and leaves his [updated_at] at the old reading. *)
Theorem assign_systems_does_not_stamp :
  let w' := run (assign_systems bob_id ["hospital"]) world_users in
  result (assign_systems bob_id ["hospital"]) world_users = Ok [("assigned", VBool true)]
  /\ option_map (doc_get "systems") (stored_user 2%N world_users)
     = Some (Some (VList [VStr "school"]))
  /\ option_map (doc_get "systems") (stored_user 2%N w')
     = Some (Some (VList [VStr "school"; VStr "hospital"]))
  /\ option_map (doc_get "updated_at") (stored_user 2%N w')
     = Some (Some (VTime (clock world_users 4)))
  /\ clock world_users (ticks world_users) <> clock world_users 4.
Proof.
  cbv zeta. repeat split; try reflexivity.
  vm_compute. discriminate.
Qed.

(** What a registration and an admin update send to the store can
    always be encoded. *)
Lemma encode_error_user_doc (email name hashed role : string) (systems : list string)
    (created updated : datetime) :
  encode_error
    (VDict [("email", VStr email); ("name", VStr name); ("password", VStr hashed);
            ("role", VStr role); ("systems", str_list systems);
            ("created_at", VTime created); ("updated_at", VTime updated)]) = None.
Proof.
  apply encode_error_dict.
  repeat constructor; try reflexivity. apply encode_error_strs.
Qed.

Lemma encode_error_set (k : string) (v : Value) (d : Dict) :
  key_ok k = true -> encode_error v = None -> encode_error (VDict d) = None ->
  encode_error (VDict (dict_set k v d)) = None.
Proof.
  intros Hk Hv Hd. apply encode_error_dict. apply encode_error_dict_inv in Hd.
  induction Hd as [|[k' v'] rest Hkv Hrest IH]; cbn [dict_set].
  - repeat constructor; assumption.
  - destruct (String.eqb k k'); constructor; simpl; auto.
Qed.

Lemma encode_error_updates (payload : UserUpdate) (now : datetime) :
  update_error (USet (dict_set "updated_at" (VTime now) (UserUpdate_updates payload))) = None.
Proof.
  cbn [update_error]. apply encode_error_set; try reflexivity.
  apply encode_error_dict. unfold UserUpdate_updates.
  destruct payload as [[n|] [r|] [l|]]; cbn [uu_name uu_role uu_systems app];
    repeat constructor; try reflexivity; apply encode_error_strs.
Qed.

Lemma store_dict_set (k : string) (v : Value) (d : Dict) :
  store_dict (dict_set k v d) = dict_set k (bson_store v) (store_dict d).
Proof.
  induction d as [|[k' v'] rest IH]; cbn [dict_set store_dict map fst snd]; [reflexivity|].
  destruct (String.eqb k k'); cbn [map fst snd]; [reflexivity|].
  f_equal. exact IH.
Qed.

(** The other writes on users do stamp. A registration stores the two
    readings of the clock it takes, in milliseconds, as [created_at] and
    [updated_at]. *)
Lemma register_stamps {L : Libraries} (payload : UserCreate) (w : World) :
  first_match [("email", CEq (VStr (uc_email payload)))] (db w "user") = None ->
  exists token,
    result (register payload) w = Ok token
    /\ exists d, last (db (run (register payload) w) "user") d
                 = mkDocument (next_oid w)
                     [("email", VStr (uc_email payload));
                      ("name", VStr (uc_name payload));
                      ("password", VStr (get_password_hash (uc_password payload)));
                      ("role", VStr (uc_role payload));
                      ("systems", str_list (uc_systems payload));
                      ("created_at", VTime (trunc_ms (clock w (ticks w))));
                      ("updated_at", VTime (trunc_ms (clock w (S (ticks w)))))].
Proof.
  intros Hnew. unfold result, run, register, bind, find_one. rewrite Hnew.
  unfold utcnow. cbn [fst snd db next_oid clock ticks trace log_access].
  rewrite !insert_one_stores by apply encode_error_user_doc.
  unfold create_access_token, bind, utcnow, ret.
  cbn [fst snd db next_oid clock ticks trace log_access set_collection new_fields].
  eexists. split; [reflexivity|].
  exists (mkDocument 0%N []).
  rewrite String.eqb_refl.
  cbn [store_dict map fst snd bson_store str_list]. rewrite bson_store_strs.
  apply last_last.
Qed.

Lemma store_dict_updates (payload : UserUpdate) :
  store_dict (UserUpdate_updates payload) = UserUpdate_updates payload.
Proof.
  unfold UserUpdate_updates, store_dict.
  destruct payload as [[n|] [r|] [l|]]; cbn [uu_name uu_role uu_systems app map fst snd];
    cbn [bson_store str_list]; rewrite ?bson_store_strs; reflexivity.
Qed.

(** What an admin update does, by the id it is given. *)
Lemma update_user_unfold (user_id : string) (payload : UserUpdate) (w : World) :
  update_user user_id payload w =
  match ObjectId_parse user_id with
  | None => (Raise InvalidId, tick w)
  | Some oid =>
      match target_user oid w with
      | None => (Raise (HTTP 404 "User not found"), log_access "user" OpUpdateOne (tick w))
      | Some d =>
          (Ok [("updated", VBool true)],
           set_collection "user"
             (replace_first [("_id", id_is oid)]
                (fun _ =>
                   mkDocument (_id d)
                     (dict_update (body d)
                        (dict_set "updated_at" (VTime (trunc_ms (clock w (ticks w))))
                           (UserUpdate_updates payload))))
                (db w "user"))
             (log_access "user" OpUpdateOne (tick w)))
      end
  end.
Proof.
  unfold update_user, bind, utcnow, to_ObjectId.
  destruct (ObjectId_parse user_id) as [oid|]; [|reflexivity].
  unfold ret. rewrite update_one_sent by apply encode_error_updates.
  unfold target_user. cbn [fst snd db ticks clock log_access].
  destruct (first_match [("_id", id_is oid)] (db w "user")) as [d|]; [|reflexivity].
  cbn [store_update apply_update Z.eqb]. rewrite store_dict_set, store_dict_updates.
  reflexivity.
Qed.

(** And a deletion. *)
Lemma delete_user_unfold (user_id : string) (w : World) :
  delete_user user_id w =
  match ObjectId_parse user_id with
  | None => (Raise InvalidId, w)
  | Some oid =>
      match target_user oid w with
      | None => (Raise (HTTP 404 "User not found"), log_access "user" OpDeleteOne w)
      | Some _ =>
          (Ok [("deleted", VBool true)],
           set_collection "user" (remove_first [("_id", id_is oid)] (db w "user"))
             (log_access "user" OpDeleteOne w))
      end
  end.
Proof.
  unfold delete_user, bind, to_ObjectId.
  destruct (ObjectId_parse user_id) as [oid|]; [|reflexivity].
  unfold ret, delete_one, target_user.
  destruct (first_match [("_id", id_is oid)] (db w "user")) as [d|]; reflexivity.
Qed.

(** An admin update of a stored user stores the reading of the clock it
    takes, in milliseconds, as [updated_at]. *)
Lemma update_user_stamps (user_id : string) (payload : UserUpdate) (w : World)
    (oid : ObjectId) (d : Document) :
  ObjectId_of_str user_id = Some oid ->
  stored_user oid w = Some d ->
  result (update_user user_id payload) w = Ok [("updated", VBool true)]
  /\ option_map (doc_get "updated_at") (stored_user oid (run (update_user user_id payload) w))
     = Some (Some (VTime (trunc_ms (clock w (ticks w))))).
Proof.
  intros Hoid Hd. unfold result, run.
  rewrite update_user_unfold, (ObjectId_parse_full _ _ Hoid).
  change (target_user (FullId oid) w) with (stored_user oid w). rewrite Hd.
  cbn [fst snd id_is]. split; [reflexivity|].
  unfold stored_user in *. rewrite set_collection_same.
  rewrite first_match_replace_first with (d := d); [|exact Hd|].
  - cbn [option_map]. f_equal. unfold doc_get. simpl String.eqb. cbn [body].
    destruct payload as [[n|] [r|] [l|]]; unfold dict_update; simpl fold_left;
      apply dict_get_set_same.
  - rewrite doc_matches_id. cbn [_id].
    apply first_match_some in Hd. now rewrite doc_matches_id in Hd.
Qed.

(* ================================================================== *)
(** * The caller the guards see *)
(* ================================================================== *)

Lemma with_id_get (k : string) (d : Document) :
  k <> "id" -> doc_get k (with_id d) = doc_get k d.
Proof. intros Hk. unfold with_id. now apply doc_get_set_other. Qed.

(** C2, as the code has it. For a request whose token decodes, names a
    well-formed id and finds a stored user, the caller is that stored
    record as it is now: its systems and every field other than [id] and
    [role] are the stored ones, so a change of entitlements is seen by
    the next request. The role is the one the token carries, written
    over the stored role. *)
Theorem caller_is_stored_record_with_token_role {L : Libraries}
    (a : string) (w : World) (payload : Dict) (s : string) (oid : ObjectId)
    (stored : Document) :
  String.prefix "Bearer " a = true ->
  jwt_decode (bearer_token a) SECRET_KEY ALGORITHM (clock w (ticks w)) = Some payload ->
  dict_get "sub" payload = Some (VStr s) ->
  ObjectId_of_str s = Some oid ->
  stored_user oid w = Some stored ->
  exists user,
    get_current_user (Some a) w = (Ok user, log_access "user" OpFindOne (tick w))
    /\ doc_get "systems" user = doc_get "systems" stored
    /\ (forall k, k <> "id" -> k <> "role" -> doc_get k user = doc_get k stored)
    /\ doc_get "role" user = Some (or_none (dict_get "role" payload)).
Proof.
  intros Hprefix Hdec Hsub Hoid Hstored.
  exists (doc_set "role" (or_none (dict_get "role" payload)) (with_id stored)).
  split; [|split; [|split]].
  - now apply get_current_user_resolves with (s := s) (oid := oid).
  - rewrite doc_get_set_other by discriminate. apply with_id_get. discriminate.
  - intros k Hid Hrole. rewrite doc_get_set_other by assumption. now apply with_id_get.
  - apply doc_get_set_same. discriminate.
Qed.

(** C2, as stated, fails on a role that changed after the token was
    issued: Alice's stored role is [user], her token still says [admin],
    the caller the guards see is an admin and the admin endpoint
    answers. *)
Lemma stale_token_keeps_admin_role :
  option_map (doc_get "role") (stored_user 1%N world_demoted) = Some (Some (VStr "user"))
  /\ doc_get "role" (caller alice_header world_demoted) = Some (VStr "admin")
  /\ exists users,
       result (admin_route (L := plain_libraries) GET_admin_users alice_header) world_demoted
       = Ok (RDocs users).
Proof.
  split; [reflexivity|]. split; [reflexivity|].
  eexists. vm_compute. reflexivity.
Qed.

(* ================================================================== *)
(** * Queries *)
(* ================================================================== *)

(** C1 at a failing input. Bob is entitled to [school] only. His query
    on [school]/[student] passes the entitlement check for [school]; its
    filter names [system] and [type] itself, the update of the query by
    the filter replaces the scoping conditions, and the answer is the
    patient stored under [hospital]. *)
Theorem query_filter_overrides_scope :
  let bob_caller := caller bob_header world_resources in
  py_in "hospital" (user_systems bob_caller) = Some false
  /\ is_str (doc_get "role" bob_caller) "admin" = false
  /\ exists items,
       result (query_resources "school" "student"
                 (mkQueryParams override_filter 50 0 None) bob_caller)
         world_resources
       = Ok items
       /\ map (doc_get "system") items = [Some (VStr "hospital")]
       /\ map (doc_get "type") items = [Some (VStr "patient")]
       /\ map (doc_get "data") items
          = [Some (VDict [("name", VStr "Paul"); ("ward", VInt 7)])].
Proof.
  cbv zeta. split; [reflexivity|]. split; [reflexivity|].
  eexists. split; [vm_compute; reflexivity|].
  repeat split; reflexivity.
Qed.

(** ** Where the scoping holds *)

Lemma dict_get_in {V : Type} (k : string) (v : V) (d : dict V) :
  dict_get k d = Some v -> In (k, v) d.
Proof.
  induction d as [|[k' v'] rest IH]; simpl; [discriminate|].
  destruct (String.eqb k k') eqn:E.
  - apply String.eqb_eq in E. subst k'. intros H. inversion H. now left.
  - intros H. right. now apply IH.
Qed.

Lemma doc_matches_cond (q : Filter) (d : Document) (k : string) (c : Cond) :
  doc_matches q d = true ->
  dict_get k q = Some c ->
  cond_holds c (doc_get k d) = true.
Proof.
  unfold doc_matches. intros Hall Hk.
  rewrite forallb_forall in Hall. apply (Hall (k, c)). now apply dict_get_in.
Qed.

Lemma in_firstn {A : Type} (n : nat) (x : A) (l : list A) : In x (firstn n l) -> In x l.
Proof. intros H. rewrite <- (firstn_skipn n l). apply in_or_app. now left. Qed.

Lemma in_skipn {A : Type} (n : nat) (x : A) (l : list A) : In x (skipn n l) -> In x l.
Proof. intros H. rewrite <- (firstn_skipn n l). apply in_or_app. now right. Qed.

(** What [list(cursor)] answers matches the filter of the cursor. *)
Lemma cursor_list_matches (c : Cursor) (w w' : World) (items : list Document) :
  cur_sort c = None ->
  cursor_list c w = (Ok items, w') ->
  forall d, In d items -> doc_matches (cur_filter c) d = true.
Proof.
  intros Hsort. unfold cursor_list. rewrite Hsort. intros H. inversion H; subst.
  intros d Hd.
  assert (Hin : In d (filter (doc_matches (cur_filter c)) (db w (cur_collection c)))).
  { destruct (cur_limit c =? 0).
    - now apply in_skipn in Hd.
    - apply in_firstn in Hd. now apply in_skipn in Hd. }
  apply filter_In in Hin. tauto.
Qed.

(** A filter that has no [system] and no [type] key leaves the scoping
    in place: every document answered is of the system and type of the
    path. *)
Lemma query_scoped_when_filter_is_silent
    (system rtype : string) (params : QueryParams) (user : Document)
    (w w' : World) (items : list Document) :
  dict_get "system" (filter_of (qp_filter params)) = None ->
  dict_get "type" (filter_of (qp_filter params)) = None ->
  query_resources system rtype params user w = (Ok items, w') ->
  forall d, In d items ->
    eq_match (VStr system) (doc_get "system" d) = true
    /\ eq_match (VStr rtype) (doc_get "type" d) = true.
Proof.
  intros Hsys Htype. unfold query_resources, bind.
  destruct (check_access system user w) as [[[]|e] w0]; [|discriminate].
  unfold cursor_skip. destruct (qp_skip params <? 0); [discriminate|].
  unfold ret, find_cursor. cbn [cur_collection cur_filter cur_sort cur_limit cur_skip].
  set (q := dict_update [("system", CEq (VStr system)); ("type", CEq (VStr rtype))]
              (filter_of (qp_filter params))).
  set (c := cursor_limit (qp_limit params)
              (mkCursor "resource" q None (qp_skip params) 0)).
  destruct (cursor_list c w0) as [[found|e] w1] eqn:Hlist; [|discriminate].
  intros H. inversion H; subst. intros d Hd.
  apply in_map_iff in Hd. destruct Hd as (x & <- & Hx).
  assert (Hm : doc_matches q x = true).
  { apply (cursor_list_matches c w0 _ found eq_refl Hlist x Hx). }
  rewrite !with_id_get by discriminate.
  split.
  - apply (doc_matches_cond q x "system" (CEq (VStr system)) Hm).
    subst q. now rewrite dict_get_update_other.
  - apply (doc_matches_cond q x "type" (CEq (VStr rtype)) Hm).
    subst q. now rewrite dict_get_update_other.
Qed.

(* ================================================================== *)
(** * Fresh ids *)
(* ================================================================== *)

Lemma fresh_ids_empty_world : fresh_ids empty_world.
Proof. intros name d H. destruct H. Qed.

Lemma keeps_fresh_ret {A} (a : A) : keeps_fresh (ret a).
Proof. intros w H. exact H. Qed.

Lemma keeps_fresh_raise {A} (e : Exc) : keeps_fresh (raise (A := A) e).
Proof. intros w H. exact H. Qed.

Lemma keeps_fresh_bind {A B} (m : M A) (k : A -> M B) :
  keeps_fresh m -> (forall a, keeps_fresh (k a)) -> keeps_fresh (bind m k).
Proof.
  intros Hm Hk w Hw. specialize (Hm w Hw). unfold run, bind in *.
  destruct (m w) as [[a|e] w1]; simpl in *.
  - apply (Hk a w1 Hm).
  - exact Hm.
Qed.

Lemma keeps_fresh_utcnow : keeps_fresh utcnow.
Proof. intros w H. exact H. Qed.

Lemma keeps_fresh_find_one (name : string) (q : Filter) : keeps_fresh (find_one name q).
Proof. intros w H. exact H. Qed.

Lemma keeps_fresh_cursor_list (c : Cursor) : keeps_fresh (cursor_list c).
Proof. intros w H. exact H. Qed.

Lemma keeps_fresh_count_documents (name : string) (q : Filter) :
  keeps_fresh (count_documents name q).
Proof. intros w H. exact H. Qed.

Lemma keeps_fresh_aggregate (name : string) (pipeline : list Stage) :
  keeps_fresh (aggregate name pipeline).
Proof.
  intros w H. unfold run, aggregate.
  destruct (run_pipeline pipeline (map row_of_doc (db w name))); exact H.
Qed.

Lemma keeps_fresh_insert_one (name : string) (doc : NewDocument) :
  keeps_fresh (insert_one name doc).
Proof.
  intros w H n d. unfold run, insert_one.
  destruct (encode_error (VDict (new_fields doc))); simpl.
  { intros Hin. specialize (H n d Hin). lia. }
  destruct (String.eqb n name) eqn:E.
  - intros Hin. apply in_app_or in Hin. destruct Hin as [Hin | [<- | []]].
    + apply String.eqb_eq in E. subst n. specialize (H name d Hin). lia.
    + simpl. lia.
  - intros Hin. specialize (H n d Hin). lia.
Qed.

Lemma apply_update_id (u : Update) (d d' : Document) :
  apply_update u d = Some d' -> _id d' = _id d.
Proof.
  destruct u as [fields | field each]; simpl.
  - intros H. inversion H. reflexivity.
  - destruct (dict_get field (body d)) as [[]|]; intros H; inversion H; reflexivity.
Qed.

Lemma in_replace_first (q : Filter) (d' x : Document) (docs : list Document) :
  In x (replace_first q (fun _ => d') docs) -> x = d' \/ In x docs.
Proof.
  induction docs as [|y rest IH]; cbn [replace_first]; [tauto|].
  destruct (doc_matches q y); simpl; intuition.
Qed.

Lemma in_remove_first (q : Filter) (x : Document) (docs : list Document) :
  In x (remove_first q docs) -> In x docs.
Proof.
  induction docs as [|y rest IH]; cbn [remove_first]; [tauto|].
  destruct (doc_matches q y); simpl; intuition.
Qed.

Lemma first_match_in (q : Filter) (d : Document) (docs : list Document) :
  first_match q docs = Some d -> In d docs.
Proof. intros H. apply find_some in H. tauto. Qed.

Lemma keeps_fresh_update_one (name : string) (q : Filter) (u : Update) :
  keeps_fresh (update_one name q u).
Proof.
  intros w H. unfold run, update_one.
  destruct (update_error u); [exact H|].
  destruct (first_match q (db w name)) as [d|] eqn:Hd; [|exact H].
  destruct (apply_update (store_update u) d) as [d'|] eqn:Hu; [|exact H].
  intros n x. simpl. destruct (String.eqb n name) eqn:E.
  - apply String.eqb_eq in E. subst n. intros Hin.
    apply in_replace_first in Hin. destruct Hin as [-> | Hin].
    + rewrite (apply_update_id _ _ _ Hu). apply (H name). now apply first_match_in with q.
    + now apply (H name).
  - apply H.
Qed.

Lemma keeps_fresh_delete_one (name : string) (q : Filter) : keeps_fresh (delete_one name q).
Proof.
  intros w H. unfold run, delete_one.
  destruct (first_match q (db w name)) as [d|] eqn:Hd; [|exact H].
  intros n x. simpl. destruct (String.eqb n name) eqn:E.
  - apply String.eqb_eq in E. subst n. intros Hin.
    apply in_remove_first in Hin. now apply (H name).
  - apply H.
Qed.

Lemma keeps_fresh_check_access (system : string) (user : Document) :
  keeps_fresh (check_access system user).
Proof.
  intros w H. unfold run, check_access.
  destruct (negb _); [|exact H].
  destruct (py_in system (user_systems user)) as [[]|]; exact H.
Qed.

Lemma keeps_fresh_to_ObjectId (s : string) : keeps_fresh (to_ObjectId s).
Proof. intros w H. unfold run, to_ObjectId. destruct (ObjectId_parse s); exact H. Qed.

Lemma keeps_fresh_cursor_skip (n : Z) (c : Cursor) : keeps_fresh (cursor_skip n c).
Proof. intros w H. unfold run, cursor_skip. destruct (n <? 0); exact H. Qed.

Create HintDb fresh.
#[local] Hint Resolve keeps_fresh_ret keeps_fresh_raise keeps_fresh_utcnow
  keeps_fresh_find_one keeps_fresh_cursor_list keeps_fresh_count_documents
  keeps_fresh_aggregate keeps_fresh_insert_one keeps_fresh_update_one
  keeps_fresh_delete_one keeps_fresh_check_access keeps_fresh_to_ObjectId
  keeps_fresh_cursor_skip : fresh.

Ltac keeps_fresh :=
  repeat first
    [ apply keeps_fresh_bind; [solve [auto with fresh] | intro]
    | solve [auto with fresh]
    | match goal with
      | |- keeps_fresh (match ?x with _ => _ end) => destruct x
      | |- keeps_fresh (if ?b then _ else _) => destruct b
      end ].

(** Every handler on resources keeps the ids fresh. *)
Lemma resource_handlers_keep_fresh (system rtype rid : string) (user : Document) :
  (forall payload, keeps_fresh (create_resource system rtype payload user))
  /\ (forall params, keeps_fresh (query_resources system rtype params user))
  /\ keeps_fresh (get_resource system rtype rid user)
  /\ (forall payload, keeps_fresh (update_resource system rtype rid payload user))
  /\ keeps_fresh (delete_resource system rtype rid user)
  /\ keeps_fresh (system_analytics system user).
Proof.
  repeat split; intros;
    unfold create_resource, query_resources, get_resource, update_resource,
      delete_resource, system_analytics;
    keeps_fresh.
Qed.

(** So do the handlers on users. *)
Lemma user_handlers_keep_fresh {L : Libraries} :
  (forall payload, keeps_fresh (register payload))
  /\ (forall payload, keeps_fresh (login payload))
  /\ (forall payload, keeps_fresh (create_user payload))
  /\ (forall user_id payload, keeps_fresh (update_user user_id payload))
  /\ (forall user_id, keeps_fresh (delete_user user_id))
  /\ (forall user_id systems, keeps_fresh (assign_systems user_id systems)).
Proof.
  repeat split; intros;
    unfold register, login, create_user, update_user, delete_user, assign_systems,
      create_access_token;
    keeps_fresh.
Qed.

(* ================================================================== *)
(** * Resources: create, update, get *)
(* ================================================================== *)

Lemma first_match_app_new (q : Filter) (d : Document) (docs : list Document) :
  (forall x, In x docs -> doc_matches q x = false) ->
  doc_matches q d = true ->
  first_match q (docs ++ [d]) = Some d.
Proof.
  intros Hold Hnew. unfold first_match.
  induction docs as [|x rest IH]; cbn [app find].
  - now rewrite Hnew.
  - rewrite (Hold x (or_introl eq_refl)). apply IH.
    intros y Hy. apply Hold. now right.
Qed.

Lemma resource_key_matches (oid : ObjectId) (system rtype : string) (d : Document) :
  doc_matches (resource_key oid system rtype) d
  = N.eqb (_id d) oid
    && (eq_match (VStr system) (dict_get "system" (body d))
        && eq_match (VStr rtype) (dict_get "type" (body d))).
Proof.
  unfold doc_matches, resource_key. simpl.
  now rewrite orb_false_r, andb_true_r.
Qed.

Lemma eq_match_str (s : string) : eq_match (VStr s) (Some (VStr s)) = true.
Proof. simpl. now rewrite String.eqb_refl. Qed.

Lemma get_resource_found (system rtype rid : string) (user : Document) (w : World)
    (oid : ObjectId) (d : Document) :
  allowed system user ->
  ObjectId_of_str rid = Some oid ->
  first_match (resource_key oid system rtype) (db w "resource") = Some d ->
  get_resource system rtype rid user w
  = (Ok (with_id d), log_access "resource" OpFindOne w).
Proof.
  intros Hallowed Hoid Hd. unfold get_resource, bind.
  rewrite (check_access_allowed system user w Hallowed).
  rewrite (to_ObjectId_full _ _ Hoid). unfold ret, find_one.
  change (resource_scope (FullId oid) system rtype) with (resource_key oid system rtype).
  rewrite Hd. reflexivity.
Qed.

(** The id the handlers write as [owner_id] is a string. *)
Lemma user_id_str_is_str (user : Document) : user_id_str user = VStr (oid_str (_id user)).
Proof. reflexivity. Qed.

(** A resource whose data is storable can be encoded, and is stored with
    its data as given and its dates in milliseconds. *)
Lemma encode_error_resource (system rtype : string) (data : Dict) (user : Document)
    (created updated : datetime) :
  storable (VDict data) = true ->
  encode_error
    (VDict [("system", VStr system); ("type", VStr rtype); ("data", VDict data);
            ("owner_id", user_id_str user);
            ("created_at", VTime created); ("updated_at", VTime updated)]) = None.
Proof.
  intros Hdata. apply encode_error_dict.
  repeat constructor; try reflexivity. now apply storable_encoded.
Qed.

Lemma store_dict_resource (system rtype : string) (data : Dict) (owner : Value)
    (created updated : datetime) :
  storable (VDict data) = true ->
  store_dict [("system", VStr system); ("type", VStr rtype); ("data", VDict data);
              ("owner_id", owner);
              ("created_at", VTime created); ("updated_at", VTime updated)]
  = [("system", VStr system); ("type", VStr rtype); ("data", VDict data);
     ("owner_id", bson_store owner);
     ("created_at", VTime (trunc_ms created)); ("updated_at", VTime (trunc_ms updated))].
Proof.
  intros Hdata. unfold store_dict. cbn [map fst snd].
  rewrite (storable_kept (VDict data) Hdata). reflexivity.
Qed.

(** What [create_resource] does for a caller allowed on the system who
    sends storable data. *)
Lemma create_resource_stores (system rtype : string) (payload : Resource) (user : Document)
    (w : World) :
  allowed system user ->
  storable (VDict (r_data payload)) = true ->
  exists w1,
    create_resource system rtype payload user w
    = (Ok [("id", VStr (oid_str (next_oid w)))], w1)
    /\ db w1 "resource"
       = (db w "resource"
          ++ [mkDocument (next_oid w)
                [("system", VStr system); ("type", VStr rtype);
                 ("data", VDict (r_data payload)); ("owner_id", user_id_str user);
                 ("created_at", VTime (trunc_ms (clock w (ticks w))));
                 ("updated_at", VTime (trunc_ms (clock w (S (ticks w)))))]])%list
    /\ (forall name, name <> "resource" -> db w1 name = db w name)
    /\ next_oid w1 = N.succ (next_oid w).
Proof.
  intros Hallowed Hdata. unfold create_resource, bind.
  rewrite (check_access_allowed system user w Hallowed).
  unfold utcnow. cbn [fst snd db next_oid clock ticks trace].
  rewrite insert_one_stores by (now apply encode_error_resource).
  unfold ret. cbn [new_fields db next_oid clock ticks trace].
  rewrite store_dict_resource by exact Hdata.
  eexists. split; [reflexivity|].
  cbn [db log_access set_collection]. rewrite String.eqb_refl.
  split; [reflexivity|]. split; [|reflexivity].
  intros name Hne. apply String.eqb_neq in Hne. now rewrite Hne.
Qed.

Lemma encode_error_cons (k : string) (v : Value) (rest : Dict) :
  encode_error (VDict ((k, v) :: rest))
  = if key_ok k then
      match encode_error v with
      | Some e => Some e
      | None => encode_error (VDict rest)
      end
    else Some InvalidDocument.
Proof. reflexivity. Qed.

(** Data that the driver cannot encode is refused with the error of the
    driver, and no collection changes. *)
Lemma create_resource_refuses (system rtype : string) (payload : Resource)
    (user : Document) (w : World) (e : Exc) :
  allowed system user ->
  encode_error (VDict (r_data payload)) = Some e ->
  result (create_resource system rtype payload user) w = Raise e
  /\ db (run (create_resource system rtype payload user) w) = db w.
Proof.
  intros Hallowed He. unfold result, run, create_resource, bind.
  rewrite (check_access_allowed system user w Hallowed).
  unfold utcnow. cbn [fst snd db next_oid clock ticks trace].
  rewrite insert_one_refuses with (e := e); [split; reflexivity|].
  cbn [new_fields]. rewrite !encode_error_cons, He. reflexivity.
Qed.

(** C5, as the code has it. In a world whose ids are fresh and not used
    up, a caller allowed on [system] who creates a resource with
    storable data (JSON whose integers have eight bytes and whose keys
    have no NUL character) gets an id back, and reading the resource
    under that id, system and type answers a document whose [data] is
    the mapping that was sent.  With data that the driver cannot encode
    the creation ends in the error of the driver and stores nothing. *)
Theorem create_then_get_round_trip
    (system rtype : string) (payload : Resource) (user : Document) (w : World) :
  fresh_ids w ->
  (next_oid w < oid_limit)%N ->
  allowed system user ->
  (storable (VDict (r_data payload)) = true ->
   exists rid w1 doc w2,
     create_resource system rtype payload user w = (Ok [("id", VStr rid)], w1)
     /\ get_resource system rtype rid user w1 = (Ok doc, w2)
     /\ doc_get "data" doc = Some (VDict (r_data payload)))
  /\ (forall e,
        encode_error (VDict (r_data payload)) = Some e ->
        result (create_resource system rtype payload user) w = Raise e
        /\ db (run (create_resource system rtype payload user) w) = db w).
Proof.
  intros Hfresh Hlimit Hallowed.
  split; [|intros e He; now apply create_resource_refuses].
  intros Hdata.
  destruct (create_resource_stores system rtype payload user w Hallowed Hdata)
    as (w1 & Hcreate & Hdb & _ & _).
  set (new :=
         mkDocument (next_oid w)
           [("system", VStr system); ("type", VStr rtype);
            ("data", VDict (r_data payload)); ("owner_id", user_id_str user);
            ("created_at", VTime (trunc_ms (clock w (ticks w))));
            ("updated_at", VTime (trunc_ms (clock w (S (ticks w)))))]) in *.
  exists (oid_str (next_oid w)), w1, (with_id new), (log_access "resource" OpFindOne w1).
  split; [exact Hcreate|]. split; [|reflexivity].
  apply get_resource_found with (oid := next_oid w); [exact Hallowed| |].
  - now apply ObjectId_of_oid_str.
  - rewrite Hdb. apply first_match_app_new.
    + intros x Hx. rewrite resource_key_matches.
      specialize (Hfresh "resource" x Hx).
      assert (Hne : N.eqb (_id x) (next_oid w) = false) by (apply N.eqb_neq; lia).
      now rewrite Hne.
    + rewrite resource_key_matches. subst new. cbn [_id body].
      rewrite N.eqb_refl. cbn [dict_get String.eqb Ascii.eqb Bool.eqb].
      now rewrite !eq_match_str.
Qed.

(** C5, as stated, fails on data with an integer of nine bytes: the
    driver cannot encode it, the creation ends in [OverflowError] and no
    resource is stored. *)
Lemma create_refuses_wide_integer :
  allowed "school" bob_caller
  /\ result (create_resource "school" "student"
               (mkResource "school" "student" wide_data None None None) bob_caller)
       world_users
     = Raise OverflowError
  /\ db (run (create_resource "school" "student"
                (mkResource "school" "student" wide_data None None None) bob_caller)
           world_users) "resource"
     = [].
Proof.
  split; [right; vm_compute; reflexivity|].
  split; vm_compute; reflexivity.
Qed.

(** [$set] of [data] and [updated_at] leaves a resource under its key. *)
Lemma resource_key_after_set (oid : ObjectId) (system rtype : string) (d : Document)
    (data : Dict) (now : datetime) :
  doc_matches (resource_key oid system rtype) d = true ->
  doc_matches (resource_key oid system rtype)
    (mkDocument (_id d)
       (dict_update (body d) [("data", VDict data); ("updated_at", VTime now)]))
  = true.
Proof.
  rewrite !resource_key_matches. cbn [_id body]. unfold dict_update. cbn [fold_left fst snd].
  rewrite !(dict_get_set_other "system"), !(dict_get_set_other "type") by discriminate.
  trivial.
Qed.

Lemma update_error_resource_set (data : Dict) (now : datetime) :
  update_error (USet [("data", VDict data); ("updated_at", VTime now)])
  = encode_error (VDict data).
Proof.
  cbn [update_error]. simpl.
  match goal with |- match ?x with _ => _ end = _ => destruct x end; reflexivity.
Qed.

Lemma store_update_resource_set (data : Dict) (now : datetime) :
  storable (VDict data) = true ->
  store_update (USet [("data", VDict data); ("updated_at", VTime now)])
  = USet [("data", VDict data); ("updated_at", VTime (trunc_ms now))].
Proof.
  intros Hdata. unfold store_update, store_dict. cbn [map fst snd].
  rewrite (storable_kept (VDict data) Hdata). reflexivity.
Qed.

(** What [update_resource] does to a stored resource, for a caller
    allowed on the system who sends storable data. *)
Lemma update_resource_stores (system rtype rid : string) (payload : ResourceUpdate)
    (user : Document) (w : World) (oid : ObjectId) (old : Document) :
  allowed system user ->
  ObjectId_of_str rid = Some oid ->
  first_match (resource_key oid system rtype) (db w "resource") = Some old ->
  storable (VDict (ru_data payload)) = true ->
  exists w1,
    update_resource system rtype rid payload user w = (Ok [("updated", VBool true)], w1)
    /\ db w1 "resource"
       = replace_first (resource_key oid system rtype)
           (fun _ => mkDocument (_id old)
                       (dict_update (body old)
                          [("data", VDict (ru_data payload));
                           ("updated_at", VTime (trunc_ms (clock w (ticks w))))]))
           (db w "resource")
    /\ (forall name, name <> "resource" -> db w1 name = db w name).
Proof.
  intros Hallowed Hoid Hold Hdata. unfold update_resource, bind.
  rewrite (check_access_allowed system user w Hallowed).
  rewrite (to_ObjectId_full _ _ Hoid). unfold ret, utcnow.
  change (resource_scope (FullId oid) system rtype) with (resource_key oid system rtype).
  rewrite update_one_sent
    by (rewrite update_error_resource_set; now apply storable_encoded).
  rewrite store_update_resource_set by exact Hdata.
  cbn [db log_access clock ticks]. rewrite Hold. cbn [apply_update Z.eqb].
  eexists. split; [reflexivity|]. split; [apply set_collection_same|].
  intros name Hne. apply String.eqb_neq in Hne.
  cbn [db set_collection]. now rewrite Hne.
Qed.

(** Data that the driver cannot encode is refused with the error of the
    driver, and no collection changes. *)
Lemma update_resource_refuses (system rtype rid : string) (payload : ResourceUpdate)
    (user : Document) (w : World) (oid : ObjectId) (e : Exc) :
  allowed system user ->
  ObjectId_of_str rid = Some oid ->
  encode_error (VDict (ru_data payload)) = Some e ->
  result (update_resource system rtype rid payload user) w = Raise e
  /\ db (run (update_resource system rtype rid payload user) w) = db w.
Proof.
  intros Hallowed Hoid He. unfold result, run, update_resource, bind.
  rewrite (check_access_allowed system user w Hallowed).
  full_id Hoid. unfold utcnow.
  rewrite update_one_refuses with (e := e); [split; reflexivity|].
  now rewrite update_error_resource_set.
Qed.

(** C6, as the code has it. For a resource stored under the id, system
    and type, the update by a caller allowed on [system] who sends
    storable data succeeds, and a read that follows answers a document
    whose [data] is the mapping the update sent: no key of the old
    mapping is kept unless the new one has it.  With data that the
    driver cannot encode the update ends in the error of the driver and
    changes nothing. *)
Theorem update_then_get_replaces_data
    (system rtype rid : string) (payload : ResourceUpdate) (user : Document) (w : World)
    (oid : ObjectId) (old : Document) :
  allowed system user ->
  ObjectId_of_str rid = Some oid ->
  first_match (resource_key oid system rtype) (db w "resource") = Some old ->
  (storable (VDict (ru_data payload)) = true ->
   exists w1 doc w2,
     update_resource system rtype rid payload user w = (Ok [("updated", VBool true)], w1)
     /\ get_resource system rtype rid user w1 = (Ok doc, w2)
     /\ doc_get "data" doc = Some (VDict (ru_data payload))
     /\ forall k, dict_get k (ru_data payload) = None ->
                  forall data, doc_get "data" doc = Some (VDict data) -> dict_get k data = None)
  /\ (forall e,
        encode_error (VDict (ru_data payload)) = Some e ->
        result (update_resource system rtype rid payload user) w = Raise e
        /\ db (run (update_resource system rtype rid payload user) w) = db w).
Proof.
  intros Hallowed Hoid Hold.
  split; [|intros e He; now apply update_resource_refuses with (oid := oid)].
  intros Hstorable.
  destruct (update_resource_stores system rtype rid payload user w oid old
              Hallowed Hoid Hold Hstorable) as (w1 & Hupdate & Hdb & _).
  set (new :=
         mkDocument (_id old)
           (dict_update (body old)
              [("data", VDict (ru_data payload));
               ("updated_at", VTime (trunc_ms (clock w (ticks w))))])) in *.
  assert (Hdata : doc_get "data" (with_id new) = Some (VDict (ru_data payload))).
  { rewrite with_id_get by discriminate. subst new. unfold doc_get. cbn [String.eqb Ascii.eqb Bool.eqb body].
    unfold dict_update. cbn [fold_left fst snd].
    rewrite dict_get_set_other by discriminate. apply dict_get_set_same. }
  exists w1, (with_id new), (log_access "resource" OpFindOne w1).
  split; [exact Hupdate|]. split; [|split].
  - apply get_resource_found with (oid := oid); [exact Hallowed|exact Hoid|].
    rewrite Hdb. apply first_match_replace_first with (d := old); [exact Hold|].
    apply resource_key_after_set. now apply first_match_some with (docs := db w "resource").
  - exact Hdata.
  - intros k Hk data Hd. rewrite Hdata in Hd. inversion Hd; subst data. exact Hk.
Qed.

(** C6, as stated, fails on data with an integer of nine bytes: the
    update of the stored student ends in [OverflowError], and the
    student keeps the data it had. *)
Lemma update_refuses_wide_integer :
  first_match (resource_key 5%N "school" "student") (db world_resources "resource")
  = Some student_stored
  /\ result (update_resource "school" "student" (oid_str 5%N)
               (mkResourceUpdate wide_data) bob_caller)
       world_resources
     = Raise OverflowError
  /\ option_map (doc_get "data")
       (first_match (resource_key 5%N "school" "student")
          (db (run (update_resource "school" "student" (oid_str 5%N)
                      (mkResourceUpdate wide_data) bob_caller)
                 world_resources) "resource"))
     = Some (Some (VDict [("name", VStr "Ann")])).
Proof. repeat split; vm_compute; reflexivity. Qed.

(* ================================================================== *)
(** * [$addToSet] *)
(* ================================================================== *)

Lemma existsb_value_eqb (v : Value) (arr : list Value) :
  existsb (value_eqb v) arr = true <-> In v arr.
Proof.
  rewrite existsb_exists. split.
  - intros (x & Hx & E). apply value_eqb_eq in E. now subst.
  - intros H. exists v. split; [exact H | apply value_eqb_refl].
Qed.

Lemma add_to_set_in (arr : list Value) (v x : Value) :
  In x (add_to_set arr v) <-> In x arr \/ x = v.
Proof.
  unfold add_to_set. destruct (existsb (value_eqb v) arr) eqn:E.
  - apply existsb_value_eqb in E. split; [tauto|]. intros [H | ->]; assumption.
  - rewrite in_app_iff. simpl. split; intros [H | H]; auto.
    destruct H as [<- | []]. now right.
Qed.

Lemma add_to_set_NoDup (arr : list Value) (v : Value) :
  NoDup arr -> NoDup (add_to_set arr v).
Proof.
  intros Hnd. unfold add_to_set. destruct (existsb (value_eqb v) arr) eqn:E.
  - exact Hnd.
  - assert (Hnot : ~ In v arr).
    { intros Hin. apply existsb_value_eqb in Hin. congruence. }
    clear E. induction Hnd as [|x xs Hx Hxs IH]; simpl.
    + constructor; [tauto | constructor].
    + constructor.
      * rewrite in_app_iff. simpl. intros [H | [H | []]]; [tauto|].
        apply Hnot. now left.
      * apply IH. intros H. apply Hnot. now right.
Qed.

Lemma fold_add_to_set_in (each arr : list Value) (x : Value) :
  In x (fold_left add_to_set each arr) <-> In x arr \/ In x each.
Proof.
  revert arr. induction each as [|v rest IH]; intros arr; simpl.
  - tauto.
  - rewrite IH, add_to_set_in. intuition.
Qed.

Lemma fold_add_to_set_NoDup (each arr : list Value) :
  NoDup arr -> NoDup (fold_left add_to_set each arr).
Proof.
  revert arr. induction each as [|v rest IH]; intros arr Hnd; simpl.
  - exact Hnd.
  - apply IH. now apply add_to_set_NoDup.
Qed.

(** Adding values the array already holds changes nothing. *)
Lemma fold_add_to_set_present (each arr : list Value) :
  (forall v, In v each -> In v arr) -> fold_left add_to_set each arr = arr.
Proof.
  induction each as [|v rest IH]; intros Hall; simpl.
  - reflexivity.
  - assert (Hv : add_to_set arr v = arr).
    { unfold add_to_set.
      assert (E : existsb (value_eqb v) arr = true).
      { apply existsb_value_eqb. apply Hall. now left. }
      now rewrite E. }
    rewrite Hv. apply IH. intros x Hx. apply Hall. now right.
Qed.

Lemma fold_add_to_set_idempotent (each arr : list Value) :
  fold_left add_to_set each (fold_left add_to_set each arr)
  = fold_left add_to_set each arr.
Proof.
  apply fold_add_to_set_present. intros v Hv.
  apply fold_add_to_set_in. now right.
Qed.

Lemma occurrences_absent (v : Value) (arr : list Value) :
  ~ In v arr -> occurrences v arr = O.
Proof.
  unfold occurrences. induction arr as [|x xs IH]; intros Hnot; simpl.
  - reflexivity.
  - destruct (value_eqb v x) eqn:E.
    + apply value_eqb_eq in E. subst x. exfalso. apply Hnot. now left.
    + apply IH. intros H. apply Hnot. now right.
Qed.

Lemma occurrences_NoDup (v : Value) (arr : list Value) :
  NoDup arr -> In v arr -> occurrences v arr = 1%nat.
Proof.
  intros Hnd. induction Hnd as [|x xs Hx Hxs IH]; intros Hin; [destruct Hin|].
  unfold occurrences in *. simpl.
  destruct (value_eqb v x) eqn:E.
  - apply value_eqb_eq in E. subst x. simpl.
    f_equal. now apply occurrences_absent.
  - destruct Hin as [-> | Hin].
    + now rewrite value_eqb_refl in E.
    + now apply IH.
Qed.

(* ================================================================== *)
(** * Assigning systems: set union *)
(* ================================================================== *)

(** One assignment to a stored user whose systems are an array. *)
Lemma assign_systems_step (user_id : string) (systems : list string) (w : World)
    (oid : ObjectId) (stored : Document) (arr : list Value) :
  ObjectId_of_str user_id = Some oid ->
  stored_user oid w = Some stored ->
  doc_get "systems" stored = Some (VList arr) ->
  exists w1 stored1,
    assign_systems user_id systems w = (Ok [("assigned", VBool true)], w1)
    /\ stored_user oid w1 = Some stored1
    /\ doc_get "systems" stored1
       = Some (VList (fold_left add_to_set (map VStr systems) arr)).
Proof.
  intros Hoid Hstored Hsys.
  set (stored1 :=
         doc_set "systems" (VList (fold_left add_to_set (map VStr systems) arr)) stored).
  exists (set_collection "user"
            (replace_first [("_id", CEq (VOid oid))] (fun _ => stored1) (db w "user"))
            (log_access "user" OpUpdateOne w)), stored1.
  unfold stored_user in *. split; [|split].
  - rewrite assign_systems_unfold, (ObjectId_parse_full _ _ Hoid), update_one_add_strs.
    cbn [id_is]. rewrite Hstored. cbn [apply_update].
    unfold doc_get in Hsys. cbn [String.eqb Ascii.eqb Bool.eqb] in Hsys.
    rewrite Hsys. reflexivity.
  - rewrite set_collection_same.
    apply first_match_replace_first with (d := stored); [exact Hstored|].
    rewrite doc_matches_id. subst stored1. cbn [doc_set _id].
    apply first_match_some in Hstored. now rewrite doc_matches_id in Hstored.
  - subst stored1. apply doc_get_set_same. discriminate.
Qed.

Lemma again_succ {A} (n : nat) (m : M A) (w : World) :
  again (S n) m w =
  match m w with
  | (Ok _, w1) => again n m w1
  | (Raise e, w1) => (Raise e, w1)
  end.
Proof. reflexivity. Qed.

(** However often the assignment is made, the stored array is the one
    the first assignment left. *)
Lemma assign_systems_again (n : nat) (user_id : string) (systems : list string) :
  forall (w : World) (oid : ObjectId) (stored : Document) (arr : list Value),
  ObjectId_of_str user_id = Some oid ->
  stored_user oid w = Some stored ->
  doc_get "systems" stored = Some (VList arr) ->
  exists w' stored',
    again n (assign_systems user_id systems) w = (Ok [("assigned", VBool true)], w')
    /\ stored_user oid w' = Some stored'
    /\ doc_get "systems" stored'
       = Some (VList (fold_left add_to_set (map VStr systems) arr)).
Proof.
  induction n as [|n IH]; intros w oid stored arr Hoid Hstored Hsys.
  - cbn [again]. now apply assign_systems_step with (stored := stored).
  - destruct (assign_systems_step user_id systems w oid stored arr Hoid Hstored Hsys)
      as (w1 & stored1 & Hrun & Hstored1 & Hsys1).
    destruct (IH w1 oid stored1 _ Hoid Hstored1 Hsys1) as (w' & stored' & Hagain & Hst & Hs).
    exists w', stored'. rewrite again_succ, Hrun.
    rewrite fold_add_to_set_idempotent in Hs. auto.
Qed.

(** C7, as the code has it. For a stored user whose systems array holds
    no value twice, the assignment, made once or any number of times
    more, succeeds and leaves the same array: the old values, then the
    new ones in the order given, each assigned system exactly once. *)
Theorem assign_systems_set_union
    (n : nat) (user_id : string) (systems : list string) (w : World)
    (oid : ObjectId) (stored : Document) (arr : list Value) :
  ObjectId_of_str user_id = Some oid ->
  stored_user oid w = Some stored ->
  doc_get "systems" stored = Some (VList arr) ->
  NoDup arr ->
  exists w' stored' arr',
    again n (assign_systems user_id systems) w = (Ok [("assigned", VBool true)], w')
    /\ stored_user oid w' = Some stored'
    /\ doc_get "systems" stored' = Some (VList arr')
    /\ arr' = fold_left add_to_set (map VStr systems) arr
    /\ NoDup arr'
    /\ (forall s, In s systems -> occurrences (VStr s) arr' = 1%nat)
    /\ (forall v, In v arr' <-> In v arr \/ In v (map VStr systems)).
Proof.
  intros Hoid Hstored Hsys Hnd.
  destruct (assign_systems_again n user_id systems w oid stored arr Hoid Hstored Hsys)
    as (w' & stored' & Hrun & Hst & Hs).
  exists w', stored', (fold_left add_to_set (map VStr systems) arr).
  assert (Hnd' : NoDup (fold_left add_to_set (map VStr systems) arr))
    by now apply fold_add_to_set_NoDup.
  repeat split; try assumption.
  - intros s Hin. apply occurrences_NoDup; [exact Hnd'|].
    apply fold_add_to_set_in. right. now apply in_map.
  - apply fold_add_to_set_in.
  - apply fold_add_to_set_in.
Qed.

(** C7, as stated, fails on a stored user whose systems hold a value
    twice. Carol was registered with [school] listed twice; after the
    assignment of [school] her systems hold it twice still. *)
Lemma assign_systems_keeps_stored_duplicates :
  result (assign_systems carol_id ["school"; "school"]) world_users
  = Ok [("assigned", VBool true)]
  /\ exists arr,
       option_map (doc_get "systems")
         (stored_user 3%N (run (assign_systems carol_id ["school"; "school"]) world_users))
       = Some (Some (VList arr))
       /\ occurrences (VStr "school") arr = 2%nat.
Proof.
  split; [reflexivity|].
  eexists. split; reflexivity.
Qed.

(* ================================================================== *)
(** * The statements at work on the example population *)
(* ================================================================== *)

Lemma fresh_ids_world_users : fresh_ids world_users.
Proof.
  unfold world_users.
  repeat apply (proj1 (user_handlers_keep_fresh (L := plain_libraries))).
  apply fresh_ids_empty_world.
Qed.

Lemma bob_token_resolves :
  get_current_user (L := plain_libraries) bob_header world_users
  = (Ok bob_caller, log_access "user" OpFindOne (tick world_users)).
Proof.
  assert (Hcaller : bob_caller
                    = doc_set "role" (or_none (dict_get "role" bob_claims))
                        (with_id bob_stored))
    by (vm_compute; reflexivity).
  rewrite Hcaller.
  apply (get_current_user_resolves (L := plain_libraries)
           (bearer "user" bob_id) world_users bob_claims bob_id 2%N bob_stored);
    vm_compute; reflexivity.
Qed.

Lemma bob_allowed_on_school : allowed "school" bob_caller.
Proof. right. vm_compute. reflexivity. Qed.

Lemma caller_is_stored_record_with_token_role_witness :
  String.prefix "Bearer " (bearer "user" bob_id) = true
  /\ stored_user 2%N world_users = Some bob_stored
  /\ exists user,
       get_current_user (L := plain_libraries) bob_header world_users
       = (Ok user, log_access "user" OpFindOne (tick world_users))
       /\ doc_get "systems" user = Some (VList [VStr "school"])
       /\ doc_get "role" user = Some (VStr "user").
Proof.
  assert (H1 : String.prefix "Bearer " (bearer "user" bob_id) = true)
    by (vm_compute; reflexivity).
  assert (H2 : jwt_decode (Libraries := plain_libraries)
                 (bearer_token (bearer "user" bob_id)) SECRET_KEY ALGORITHM
                 (clock world_users (ticks world_users))
               = Some bob_claims) by (vm_compute; reflexivity).
  assert (H3 : dict_get "sub" bob_claims = Some (VStr bob_id)) by reflexivity.
  assert (H4 : ObjectId_of_str bob_id = Some 2%N) by (vm_compute; reflexivity).
  assert (H5 : stored_user 2%N world_users = Some bob_stored) by (vm_compute; reflexivity).
  split; [exact H1|]. split; [exact H5|].
  destruct (caller_is_stored_record_with_token_role (L := plain_libraries)
              (bearer "user" bob_id) world_users bob_claims bob_id 2%N bob_stored
              H1 H2 H3 H4 H5)
    as (user & Hrun & Hsys & _ & Hrole).
  exists user. split; [exact Hrun|]. split; [|exact Hrole].
  rewrite Hsys. reflexivity.
Defined.

Lemma forbidden_by_token_role_witness :
  String.prefix "Bearer " (bearer "user" bob_id) = true
  /\ stored_user 2%N world_users = Some bob_stored
  /\ is_str (dict_get "role" bob_claims) "admin" = false
  /\ py_in "hospital" (user_systems bob_stored) = Some false
  /\ system_route (L := plain_libraries) "hospital"
       (POST_resource "patient" patient_payload) bob_header world_users
     = (Raise (HTTP 403 "Access denied to this system"),
        log_access "user" OpFindOne (tick world_users)).
Proof.
  assert (H1 : String.prefix "Bearer " (bearer "user" bob_id) = true)
    by (vm_compute; reflexivity).
  assert (H2 : jwt_decode (Libraries := plain_libraries)
                 (bearer_token (bearer "user" bob_id)) SECRET_KEY ALGORITHM
                 (clock world_users (ticks world_users))
               = Some bob_claims) by (vm_compute; reflexivity).
  assert (H3 : dict_get "sub" bob_claims = Some (VStr bob_id)) by reflexivity.
  assert (H4 : ObjectId_of_str bob_id = Some 2%N) by (vm_compute; reflexivity).
  assert (H5 : stored_user 2%N world_users = Some bob_stored) by (vm_compute; reflexivity).
  assert (H6 : is_str (dict_get "role" bob_claims) "admin" = false) by reflexivity.
  assert (H7 : py_in "hospital" (user_systems bob_stored) = Some false) by reflexivity.
  split; [exact H1|]. split; [exact H5|]. split; [exact H6|]. split; [exact H7|].
  exact (forbidden_by_token_role (L := plain_libraries) "hospital"
           (POST_resource "patient" patient_payload) (bearer "user" bob_id) world_users
           bob_claims bob_id 2%N bob_stored H1 H2 H3 H4 H5 H6 H7).
Defined.

Lemma user_token_never_passes_admin_guard_witness :
  jwt_decode (Libraries := plain_libraries) (bearer_token (bearer "user" bob_id))
    SECRET_KEY ALGORITHM (clock world_users (ticks world_users))
  = Some bob_claims
  /\ dict_get "role" bob_claims = Some (VStr "user")
  /\ admin_route (L := plain_libraries) GET_admin_users bob_header world_users
     = (Raise (HTTP 403 "Admin access required"),
        log_access "user" OpFindOne (tick world_users)).
Proof.
  assert (Hdec : jwt_decode (Libraries := plain_libraries)
                   (bearer_token (bearer "user" bob_id))
                   SECRET_KEY ALGORITHM (clock world_users (ticks world_users))
                 = Some bob_claims)
    by (vm_compute; reflexivity).
  split; [exact Hdec|]. split; [reflexivity|].
  apply (proj2 (user_token_never_passes_admin_guard (L := plain_libraries)
                  GET_admin_users (bearer "user" bob_id) world_users
                  bob_claims Hdec eq_refl)
           bob_caller).
  exact bob_token_resolves.
Defined.

Lemma create_then_get_round_trip_witness :
  (next_oid world_users < oid_limit)%N
  /\ allowed "school" bob_caller
  /\ storable (VDict (r_data student_payload)) = true
  /\ exists rid w1 doc w2,
       create_resource "school" "student" student_payload bob_caller world_users
       = (Ok [("id", VStr rid)], w1)
       /\ get_resource "school" "student" rid bob_caller w1 = (Ok doc, w2)
       /\ doc_get "data" doc = Some (VDict (r_data student_payload)).
Proof.
  assert (Hlimit : (next_oid world_users < oid_limit)%N) by (vm_compute; reflexivity).
  split; [exact Hlimit|].
  split; [exact bob_allowed_on_school|].
  split; [reflexivity|].
  exact (proj1 (create_then_get_round_trip "school" "student" student_payload bob_caller
                  world_users fresh_ids_world_users Hlimit bob_allowed_on_school)
           eq_refl).
Defined.

Lemma update_then_get_replaces_data_witness :
  allowed "school" bob_caller
  /\ ObjectId_of_str (oid_str 5%N) = Some 5%N
  /\ first_match (resource_key 5%N "school" "student") (db world_resources "resource")
     = Some student_stored
  /\ doc_get "data" student_stored = Some (VDict [("name", VStr "Ann")])
  /\ storable (VDict [("grade", VInt 3)]) = true
  /\ exists w1 doc w2,
       update_resource "school" "student" (oid_str 5%N)
         (mkResourceUpdate [("grade", VInt 3)]) bob_caller world_resources
       = (Ok [("updated", VBool true)], w1)
       /\ get_resource "school" "student" (oid_str 5%N) bob_caller w1 = (Ok doc, w2)
       /\ doc_get "data" doc = Some (VDict [("grade", VInt 3)]).
Proof.
  assert (H1 : ObjectId_of_str (oid_str 5%N) = Some 5%N) by (vm_compute; reflexivity).
  assert (H2 : first_match (resource_key 5%N "school" "student")
                 (db world_resources "resource")
               = Some student_stored) by (vm_compute; reflexivity).
  split; [exact bob_allowed_on_school|]. split; [exact H1|]. split; [exact H2|].
  split; [reflexivity|]. split; [reflexivity|].
  destruct (proj1 (update_then_get_replaces_data "school" "student" (oid_str 5%N)
                     (mkResourceUpdate [("grade", VInt 3)]) bob_caller world_resources
                     5%N student_stored bob_allowed_on_school H1 H2)
              eq_refl)
    as (w1 & doc & w2 & Hupdate & Hget & Hdata & _).
  exists w1, doc, w2.
  split; [exact Hupdate|]. split; [exact Hget | exact Hdata].
Defined.

Lemma assign_systems_set_union_witness :
  ObjectId_of_str bob_id = Some 2%N
  /\ stored_user 2%N world_users = Some bob_stored
  /\ NoDup [VStr "school"]
  /\ exists w' stored',
       again 2 (assign_systems bob_id ["hospital"; "school"; "hospital"]) world_users
       = (Ok [("assigned", VBool true)], w')
       /\ stored_user 2%N w' = Some stored'
       /\ doc_get "systems" stored' = Some (VList [VStr "school"; VStr "hospital"])
       /\ occurrences (VStr "school") [VStr "school"; VStr "hospital"] = 1%nat.
Proof.
  assert (Hnd : NoDup [VStr "school"]).
  { constructor; [intros [] | constructor]. }
  assert (H1 : ObjectId_of_str bob_id = Some 2%N) by (vm_compute; reflexivity).
  assert (H2 : stored_user 2%N world_users = Some bob_stored) by (vm_compute; reflexivity).
  assert (H3 : doc_get "systems" bob_stored = Some (VList [VStr "school"])) by reflexivity.
  split; [exact H1|]. split; [exact H2|]. split; [exact Hnd|].
  destruct (assign_systems_set_union 2 bob_id ["hospital"; "school"; "hospital"]
              world_users 2%N bob_stored [VStr "school"] H1 H2 H3 Hnd)
    as (w' & stored' & arr' & Hrun & Hstored & Hsys & Harr & _ & Honce & _).
  exists w', stored'. split; [exact Hrun|]. split; [exact Hstored|].
  assert (Hval : arr' = [VStr "school"; VStr "hospital"]).
  { rewrite Harr. vm_compute. reflexivity. }
  rewrite <- Hval. split; [exact Hsys|].
  apply Honce. right. left. reflexivity.
Defined.

Lemma login_failures_alike_witness :
  first_match [("email", CEq (VStr "nobody@example.org"))] (db world_users "user") = None
  /\ first_match [("email", CEq (VStr "bob@example.org"))] (db world_users "user")
     = Some bob_stored
  /\ verify_password (L := plain_libraries) "not-bobs-password" "hashed:pw-bob" = Some false
  /\ result (login (L := plain_libraries)
               (mkLoginRequest "nobody@example.org" "pw-bob")) world_users
     = result (login (L := plain_libraries)
                 (mkLoginRequest "bob@example.org" "not-bobs-password")) world_users.
Proof.
  assert (H1 : first_match [("email", CEq (VStr "nobody@example.org"))]
                 (db world_users "user") = None) by (vm_compute; reflexivity).
  assert (H2 : first_match [("email", CEq (VStr "bob@example.org"))]
                 (db world_users "user") = Some bob_stored) by (vm_compute; reflexivity).
  assert (H3 : verify_password (L := plain_libraries) "not-bobs-password" "hashed:pw-bob"
               = Some false) by (vm_compute; reflexivity).
  split; [exact H1|]. split; [exact H2|]. split; [exact H3|].
  apply (login_failures_alike (L := plain_libraries)
           (mkLoginRequest "nobody@example.org" "pw-bob") world_users
           (mkLoginRequest "bob@example.org" "not-bobs-password") world_users
           bob_stored "hashed:pw-bob" H1 H2 eq_refl H3).
Defined.

Lemma login_error_reveals_stored_email_witness :
  first_match [("email", CEq (VStr "nobody@example.org"))] (db world_users "user") = None
  /\ first_match [("email", CEq (VStr "bob@example.org"))] (db world_users "user")
     = Some bob_stored
  /\ verify_password (L := strict_libraries) nul_password "hashed:pw-bob" = None
  /\ result (login (L := strict_libraries)
               (mkLoginRequest "nobody@example.org" nul_password)) world_users
     = Raise (HTTP 401 "Invalid credentials")
  /\ result (login (L := strict_libraries)
               (mkLoginRequest "bob@example.org" nul_password)) world_users
     = Raise ValueError.
Proof.
  assert (H1 : first_match [("email", CEq (VStr "nobody@example.org"))]
                 (db world_users "user") = None) by (vm_compute; reflexivity).
  assert (H2 : first_match [("email", CEq (VStr "bob@example.org"))]
                 (db world_users "user") = Some bob_stored) by (vm_compute; reflexivity).
  assert (H3 : verify_password (L := strict_libraries) nul_password "hashed:pw-bob" = None)
    by (vm_compute; reflexivity).
  split; [exact H1|]. split; [exact H2|]. split; [exact H3|].
  destruct (login_error_reveals_stored_email (L := strict_libraries)
              (mkLoginRequest "nobody@example.org" nul_password)
              (mkLoginRequest "bob@example.org" nul_password) world_users
              bob_stored "hashed:pw-bob" H1 H2 eq_refl H3)
    as (Hunknown & Hwrong & _).
  split; [exact Hunknown | exact Hwrong].
Defined.

Lemma assign_systems_never_not_found_witness :
  ObjectId_of_str (oid_str 99%N) = Some 99%N
  /\ stored_user 99%N world_users = None
  /\ assign_systems (oid_str 99%N) ["school"] world_users
     = (Ok [("assigned", VBool true)], log_access "user" OpUpdateOne world_users).
Proof.
  assert (H1 : ObjectId_of_str (oid_str 99%N) = Some 99%N) by (vm_compute; reflexivity).
  assert (H2 : stored_user 99%N world_users = None) by (vm_compute; reflexivity).
  split; [exact H1|]. split; [exact H2|].
  exact (proj1 (assign_systems_never_not_found (oid_str 99%N) ["school"] world_users
                  99%N H1) H2).
Defined.

(* ================================================================== *)
(** * Distinct ids *)
(* ================================================================== *)

Lemma store_ok_empty_world : store_ok empty_world.
Proof.
  split; [apply fresh_ids_empty_world|]. intros name. constructor.
Qed.

Lemma keeps_ok_bind {A B} (m : M A) (k : A -> M B) :
  keeps_ok m -> (forall a, keeps_ok (k a)) -> keeps_ok (bind m k).
Proof.
  intros Hm Hk w Hw. specialize (Hm w Hw). unfold run, bind in *.
  destruct (m w) as [[a|e] w1]; simpl in *.
  - apply (Hk a w1 Hm).
  - exact Hm.
Qed.

(** A computation that leaves every collection and the id counter as
    they were keeps the store in order. *)
Lemma keeps_ok_reader {A} (m : M A) :
  (forall w, db (run m w) = db w /\ next_oid (run m w) = next_oid w) -> keeps_ok m.
Proof.
  intros Hm w [Hf Hd]. destruct (Hm w) as [Hdb Hn]. split.
  - intros name d. rewrite Hdb, Hn. apply Hf.
  - intros name. rewrite Hdb. apply Hd.
Qed.

Lemma keeps_ok_ret {A} (a : A) : keeps_ok (ret a).
Proof. apply keeps_ok_reader. intros w. split; reflexivity. Qed.

Lemma keeps_ok_raise {A} (e : Exc) : keeps_ok (raise (A := A) e).
Proof. apply keeps_ok_reader. intros w. split; reflexivity. Qed.

Lemma keeps_ok_utcnow : keeps_ok utcnow.
Proof. apply keeps_ok_reader. intros w. split; reflexivity. Qed.

Lemma keeps_ok_find_one (name : string) (q : Filter) : keeps_ok (find_one name q).
Proof. apply keeps_ok_reader. intros w. split; reflexivity. Qed.

Lemma keeps_ok_cursor_list (c : Cursor) : keeps_ok (cursor_list c).
Proof. apply keeps_ok_reader. intros w. split; reflexivity. Qed.

Lemma keeps_ok_count_documents (name : string) (q : Filter) :
  keeps_ok (count_documents name q).
Proof. apply keeps_ok_reader. intros w. split; reflexivity. Qed.

Lemma keeps_ok_aggregate (name : string) (pipeline : list Stage) :
  keeps_ok (aggregate name pipeline).
Proof.
  apply keeps_ok_reader. intros w. unfold run, aggregate.
  destruct (run_pipeline pipeline (map row_of_doc (db w name))); split; reflexivity.
Qed.

Lemma keeps_ok_check_access (system : string) (user : Document) :
  keeps_ok (check_access system user).
Proof.
  apply keeps_ok_reader. intros w. unfold run, check_access.
  destruct (negb _); [|split; reflexivity].
  destruct (py_in system (user_systems user)) as [[]|]; split; reflexivity.
Qed.

Lemma keeps_ok_to_ObjectId (s : string) : keeps_ok (to_ObjectId s).
Proof.
  apply keeps_ok_reader. intros w. unfold run, to_ObjectId.
  destruct (ObjectId_parse s); split; reflexivity.
Qed.

Lemma keeps_ok_cursor_skip (n : Z) (c : Cursor) : keeps_ok (cursor_skip n c).
Proof.
  apply keeps_ok_reader. intros w. unfold run, cursor_skip.
  destruct (n <? 0); split; reflexivity.
Qed.

Lemma keeps_ok_insert_one (name : string) (doc : NewDocument) :
  keeps_ok (insert_one name doc).
Proof.
  intros w [Hf Hd]. split; [now apply keeps_fresh_insert_one|].
  intros n. unfold run, insert_one.
  destruct (encode_error (VDict (new_fields doc))); simpl; [apply Hd|].
  destruct (String.eqb n name) eqn:E; [|apply Hd].
  apply String.eqb_eq in E. subst n.
  rewrite map_app. simpl.
  apply NoDup_app; [apply Hd | constructor; [intros [] | constructor] |].
  intros x Hx [<- | []].
  apply in_map_iff in Hx. destruct Hx as (d & Hid & Hin).
  specialize (Hf name d Hin). lia.
Qed.

Lemma map_id_replace_first (q : Filter) (d d' : Document) (docs : list Document) :
  first_match q docs = Some d ->
  _id d' = _id d ->
  map _id (replace_first q (fun _ => d') docs) = map _id docs.
Proof.
  intros Hfirst Hid. unfold first_match in Hfirst.
  induction docs as [|x rest IH]; cbn [find replace_first map] in *; [reflexivity|].
  destruct (doc_matches q x).
  - inversion Hfirst; subst x. cbn [map]. now rewrite Hid.
  - cbn [map]. now rewrite IH.
Qed.

Lemma keeps_ok_update_one (name : string) (q : Filter) (u : Update) :
  keeps_ok (update_one name q u).
Proof.
  intros w [Hf Hd]. split; [now apply keeps_fresh_update_one|].
  intros n. unfold run, update_one.
  destruct (update_error u); [apply Hd|].
  destruct (first_match q (db w name)) as [d|] eqn:Hfirst; [|apply Hd].
  destruct (apply_update (store_update u) d) as [d'|] eqn:Hu; [|apply Hd].
  simpl. destruct (String.eqb n name) eqn:E; [|apply Hd].
  rewrite (map_id_replace_first q d d' (db w name) Hfirst (apply_update_id _ _ _ Hu)).
  apply Hd.
Qed.

Lemma NoDup_map_id_remove_first (q : Filter) (docs : list Document) :
  NoDup (map _id docs) -> NoDup (map _id (remove_first q docs)).
Proof.
  induction docs as [|x rest IH]; cbn [remove_first map]; intros Hnd; [exact Hnd|].
  inversion Hnd as [|? ? Hx Hrest]; subst.
  destruct (doc_matches q x); [exact Hrest|].
  cbn [map]. constructor; [|now apply IH].
  intros Hin. apply Hx.
  apply in_map_iff in Hin. destruct Hin as (d & Hid & Hd).
  apply in_map_iff. exists d. split; [exact Hid|]. now apply in_remove_first with q.
Qed.

Lemma keeps_ok_delete_one (name : string) (q : Filter) : keeps_ok (delete_one name q).
Proof.
  intros w [Hf Hd]. split; [now apply keeps_fresh_delete_one|].
  intros n. unfold run, delete_one.
  destruct (first_match q (db w name)) as [d|] eqn:Hfirst; [|apply Hd].
  simpl. destruct (String.eqb n name) eqn:E; [|apply Hd].
  apply NoDup_map_id_remove_first. apply Hd.
Qed.

Create HintDb store.
#[local] Hint Resolve keeps_ok_ret keeps_ok_raise keeps_ok_utcnow
  keeps_ok_find_one keeps_ok_cursor_list keeps_ok_count_documents
  keeps_ok_aggregate keeps_ok_insert_one keeps_ok_update_one
  keeps_ok_delete_one keeps_ok_check_access keeps_ok_to_ObjectId
  keeps_ok_cursor_skip : store.

Ltac keeps_ok :=
  repeat first
    [ solve [auto with store]
    | apply keeps_ok_bind; [ | intro ]
    | match goal with
      | |- keeps_ok (match ?x with _ => _ end) => destruct x
      | |- keeps_ok (if ?b then _ else _) => destruct b
      end ].

Lemma keeps_ok_get_current_user {L : Libraries} (authorization : option string) :
  keeps_ok (get_current_user authorization).
Proof. unfold get_current_user. keeps_ok. Qed.

#[local] Hint Resolve keeps_ok_get_current_user : store.

(** Whatever a handler is given and whatever it answers, it leaves the
    store in order: every stored id is below the id counter of the
    driver, and no collection holds an id twice. *)
Lemma handlers_keep_store_ok {L : Libraries} :
  (forall authorization, keeps_ok (get_current_user authorization))
  /\ (forall payload, keeps_ok (register payload))
  /\ (forall payload, keeps_ok (login payload))
  /\ keeps_ok list_users
  /\ (forall payload, keeps_ok (create_user payload))
  /\ (forall user_id payload, keeps_ok (update_user user_id payload))
  /\ (forall user_id, keeps_ok (delete_user user_id))
  /\ (forall user_id systems, keeps_ok (assign_systems user_id systems))
  /\ (forall payload user, keeps_ok (log_activity payload user))
  /\ (forall limit, keeps_ok (get_activity limit))
  /\ (forall user, keeps_ok (list_systems user))
  /\ (forall system rtype payload user, keeps_ok (create_resource system rtype payload user))
  /\ (forall system rtype params user, keeps_ok (query_resources system rtype params user))
  /\ (forall system rtype rid user, keeps_ok (get_resource system rtype rid user))
  /\ (forall system rtype rid payload user,
        keeps_ok (update_resource system rtype rid payload user))
  /\ (forall system rtype rid user, keeps_ok (delete_resource system rtype rid user))
  /\ (forall system user, keeps_ok (system_analytics system user))
  /\ (forall e authorization, keeps_ok (admin_route e authorization)).
Proof.
  repeat apply conj; intros;
    try (destruct e; unfold admin_route, admin_only);
    unfold register, login, list_users, create_user, update_user,
      delete_user, assign_systems, log_activity, get_activity, list_systems,
      create_resource, query_resources, get_resource, update_resource,
      delete_resource, system_analytics, create_access_token, require_admin;
    keeps_ok.
Qed.

(* ================================================================== *)
(** * Which collection a handler writes *)
(* ================================================================== *)

Lemma leaves_bind {A B} (name : string) (m : M A) (k : A -> M B) :
  leaves name m -> (forall a, leaves name (k a)) -> leaves name (bind m k).
Proof.
  intros Hm Hk w. specialize (Hm w). unfold run, bind in *.
  destruct (m w) as [[a|e] w1]; simpl in *.
  - rewrite <- Hm. apply (Hk a w1).
  - exact Hm.
Qed.

Lemma leaves_reader {A} (name : string) (m : M A) :
  (forall w, db (run m w) = db w) -> leaves name m.
Proof. intros Hm w. now rewrite Hm. Qed.

Lemma leaves_ret {A} (name : string) (a : A) : leaves name (ret a).
Proof. intros w. reflexivity. Qed.

Lemma leaves_raise {A} (name : string) (e : Exc) : leaves name (raise (A := A) e).
Proof. intros w. reflexivity. Qed.

Lemma leaves_utcnow (name : string) : leaves name utcnow.
Proof. intros w. reflexivity. Qed.

Lemma leaves_find_one (name coll : string) (q : Filter) : leaves name (find_one coll q).
Proof. intros w. reflexivity. Qed.

Lemma leaves_cursor_list (name : string) (c : Cursor) : leaves name (cursor_list c).
Proof. intros w. reflexivity. Qed.

Lemma leaves_count_documents (name coll : string) (q : Filter) :
  leaves name (count_documents coll q).
Proof. intros w. reflexivity. Qed.

Lemma leaves_aggregate (name coll : string) (pipeline : list Stage) :
  leaves name (aggregate coll pipeline).
Proof.
  intros w. unfold run, aggregate.
  destruct (run_pipeline pipeline (map row_of_doc (db w coll))); reflexivity.
Qed.

Lemma leaves_check_access (name system : string) (user : Document) :
  leaves name (check_access system user).
Proof.
  intros w. unfold run, check_access.
  destruct (negb _); [|reflexivity].
  destruct (py_in system (user_systems user)) as [[]|]; reflexivity.
Qed.

Lemma leaves_to_ObjectId (name s : string) : leaves name (to_ObjectId s).
Proof. intros w. unfold run, to_ObjectId. destruct (ObjectId_parse s); reflexivity. Qed.

Lemma leaves_cursor_skip (name : string) (n : Z) (c : Cursor) :
  leaves name (cursor_skip n c).
Proof. intros w. unfold run, cursor_skip. destruct (n <? 0); reflexivity. Qed.

Lemma leaves_insert_one (name coll : string) (doc : NewDocument) :
  name <> coll -> leaves name (insert_one coll doc).
Proof.
  intros Hne w. apply String.eqb_neq in Hne.
  unfold run, insert_one.
  destruct (encode_error (VDict (new_fields doc))); simpl; [reflexivity|].
  now rewrite Hne.
Qed.

Lemma leaves_update_one (name coll : string) (q : Filter) (u : Update) :
  name <> coll -> leaves name (update_one coll q u).
Proof.
  intros Hne w. apply String.eqb_neq in Hne. unfold run, update_one.
  destruct (update_error u); [reflexivity|].
  destruct (first_match q (db w coll)) as [d|]; [|reflexivity].
  destruct (apply_update (store_update u) d); [|reflexivity].
  simpl. now rewrite Hne.
Qed.

Lemma leaves_delete_one (name coll : string) (q : Filter) :
  name <> coll -> leaves name (delete_one coll q).
Proof.
  intros Hne w. apply String.eqb_neq in Hne. unfold run, delete_one.
  destruct (first_match q (db w coll)) as [d|]; [|reflexivity].
  simpl. now rewrite Hne.
Qed.

Create HintDb frame.
#[local] Hint Resolve leaves_ret leaves_raise leaves_utcnow leaves_find_one
  leaves_cursor_list leaves_count_documents leaves_aggregate leaves_check_access
  leaves_to_ObjectId leaves_cursor_skip : frame.
#[local] Hint Extern 1 (leaves _ (insert_one _ _)) =>
  apply leaves_insert_one; discriminate : frame.
#[local] Hint Extern 1 (leaves _ (update_one _ _ _)) =>
  apply leaves_update_one; discriminate : frame.
#[local] Hint Extern 1 (leaves _ (delete_one _ _)) =>
  apply leaves_delete_one; discriminate : frame.

Ltac leaves :=
  repeat first
    [ solve [auto with frame]
    | apply leaves_bind; [ | intro ]
    | match goal with
      | |- leaves _ (match ?x with _ => _ end) => destruct x
      | |- leaves _ (if ?b then _ else _) => destruct b
      end ].

Lemma leaves_get_current_user {L : Libraries} (name : string)
    (authorization : option string) :
  leaves name (get_current_user authorization).
Proof. unfold get_current_user. leaves. Qed.

(** X2. The handlers write where their name says and nowhere else.  The
    handlers under [/systems] and [/analytics] leave the users and the
    activity log as they were; the handlers on users and the two auth
    endpoints leave the resources and the activity log; logging an
    activity leaves users and resources; identity resolution and the
    handlers that only read leave every collection. *)
Theorem handlers_write_their_own_collection {L : Libraries} :
  (forall name authorization, leaves name (get_current_user authorization))
  /\ (forall name, leaves name list_users)
  /\ (forall name limit, leaves name (get_activity limit))
  /\ (forall name user, leaves name (list_systems user))
  /\ (forall name system rtype params user,
        leaves name (query_resources system rtype params user))
  /\ (forall name system rtype rid user, leaves name (get_resource system rtype rid user))
  /\ (forall name system user, leaves name (system_analytics system user))
  /\ (forall name payload, leaves name (login payload))
  /\ (forall name, name <> "resource" ->
        (forall system rtype payload user,
            leaves name (create_resource system rtype payload user))
        /\ (forall system rtype rid payload user,
               leaves name (update_resource system rtype rid payload user))
        /\ (forall system rtype rid user,
               leaves name (delete_resource system rtype rid user)))
  /\ (forall name, name <> "user" ->
        (forall payload, leaves name (register payload))
        /\ (forall payload, leaves name (create_user payload))
        /\ (forall user_id payload, leaves name (update_user user_id payload))
        /\ (forall user_id, leaves name (delete_user user_id))
        /\ (forall user_id systems, leaves name (assign_systems user_id systems)))
  /\ (forall name payload user, name <> "activity" ->
        leaves name (log_activity payload user)).
Proof.
  repeat apply conj; intros;
    repeat match goal with
      | |- _ /\ _ => split; intros
      end;
    unfold register, login, list_users, create_user, update_user,
      delete_user, assign_systems, log_activity, get_activity, list_systems,
      create_resource, query_resources, get_resource, update_resource,
      delete_resource, system_analytics, create_access_token;
    try apply leaves_get_current_user;
    repeat first
      [ solve [auto with frame]
      | apply leaves_bind; [ | intro ]
      | apply leaves_insert_one; assumption
      | apply leaves_update_one; assumption
      | apply leaves_delete_one; assumption
      | match goal with
        | |- leaves _ (match ?x with _ => _ end) => destruct x
        | |- leaves _ (if ?b then _ else _) => destruct b
        end ].
Qed.

(* ================================================================== *)
(** * Deleting, and reading under the wrong scope *)
(* ================================================================== *)

Lemma same_id_same_doc (docs : list Document) (x d : Document) :
  NoDup (map _id docs) -> In x docs -> In d docs -> _id x = _id d -> x = d.
Proof.
  induction docs as [|y rest IH]; cbn [map]; intros Hnd Hx Hd Hid; [destruct Hx|].
  inversion Hnd as [|? ? Hy Hrest]; subst.
  destruct Hx as [-> | Hx], Hd as [-> | Hd]; try reflexivity.
  - exfalso. apply Hy. rewrite Hid. now apply in_map.
  - exfalso. apply Hy. rewrite <- Hid. now apply in_map.
  - now apply IH.
Qed.

Lemma first_match_none (q : Filter) (docs : list Document) :
  (forall x, In x docs -> doc_matches q x = false) -> first_match q docs = None.
Proof.
  intros Hall. unfold first_match.
  induction docs as [|x rest IH]; cbn [find]; [reflexivity|].
  rewrite (Hall x (or_introl eq_refl)). apply IH. intros y Hy. apply Hall. now right.
Qed.

(** A filter all of whose matches carry the id [oid]. *)
Lemma first_match_after_remove (q : Filter) (oid : ObjectId) (docs : list Document) :
  (forall d, doc_matches q d = true -> _id d = oid) ->
  NoDup (map _id docs) ->
  first_match q (remove_first q docs) = None.
Proof.
  intros Hpin. induction docs as [|x rest IH]; cbn [remove_first map]; intros Hnd.
  - reflexivity.
  - inversion Hnd as [|? ? Hx Hrest]; subst.
    destruct (doc_matches q x) eqn:Hq.
    + apply first_match_none. intros y Hy.
      destruct (doc_matches q y) eqn:Hqy; [|reflexivity].
      exfalso. apply Hx. rewrite (Hpin x Hq), <- (Hpin y Hqy). now apply in_map.
    + unfold first_match. cbn [find]. rewrite Hq. now apply IH.
Qed.

(** Lookups that the removed document would not have answered are
    answered as before. *)
Lemma first_match_other_after_remove (q q' : Filter) (docs : list Document) :
  (forall d, doc_matches q d = true -> doc_matches q' d = false) ->
  first_match q' (remove_first q docs) = first_match q' docs.
Proof.
  intros Hother. unfold first_match.
  induction docs as [|x rest IH]; cbn [remove_first find]; [reflexivity|].
  destruct (doc_matches q x) eqn:Hq.
  - now rewrite (Hother x Hq).
  - cbn [find]. now rewrite IH.
Qed.

Lemma id_filter_pins (oid : ObjectId) (d : Document) :
  doc_matches [("_id", CEq (VOid oid))] d = true -> _id d = oid.
Proof. rewrite doc_matches_id. apply N.eqb_eq. Qed.

Lemma resource_key_pins (oid : ObjectId) (system rtype : string) (d : Document) :
  doc_matches (resource_key oid system rtype) d = true -> _id d = oid.
Proof.
  rewrite resource_key_matches. intros H. apply andb_true_iff in H.
  apply N.eqb_eq. tauto.
Qed.

(** X3. In a store whose ids are distinct, deleting a stored user
    answers [{"deleted": true}]; afterwards no user is stored under the
    id, every other user is stored as before, a second deletion ends in
    404, and a token that names the deleted user no longer resolves: the
    request ends in 401 "User not found". *)
Theorem delete_user_removes_the_user {L : Libraries}
    (user_id : string) (oid : ObjectId) (d : Document) (w : World) :
  distinct_ids w ->
  ObjectId_of_str user_id = Some oid ->
  stored_user oid w = Some d ->
  exists w',
    delete_user user_id w = (Ok [("deleted", VBool true)], w')
    /\ stored_user oid w' = None
    /\ (forall o, o <> oid -> stored_user o w' = stored_user o w)
    /\ result (delete_user user_id) w' = Raise (HTTP 404 "User not found")
    /\ forall a payload,
         String.prefix "Bearer " a = true ->
         jwt_decode (bearer_token a) SECRET_KEY ALGORITHM (clock w' (ticks w'))
         = Some payload ->
         dict_get "sub" payload = Some (VStr user_id) ->
         result (get_current_user (Some a)) w' = Raise (HTTP 401 "User not found").
Proof.
  intros Hdistinct Hoid Hstored. unfold stored_user in *.
  set (q := [("_id", CEq (VOid oid))] : Filter) in *.
  set (w' := set_collection "user" (remove_first q (db w "user"))
               (log_access "user" OpDeleteOne w)).
  assert (Hgone : first_match q (db w' "user") = None).
  { subst w'. rewrite set_collection_same.
    apply first_match_after_remove with (oid := oid);
      [apply id_filter_pins | apply Hdistinct]. }
  exists w'. split; [|split; [|split; [|split]]].
  - unfold delete_user, bind. full_id Hoid. unfold ret, delete_one.
    fold q. rewrite Hstored. reflexivity.
  - exact Hgone.
  - intros o Hne. subst w'. rewrite set_collection_same.
    apply first_match_other_after_remove. intros x Hx.
    apply id_filter_pins in Hx. rewrite doc_matches_id, Hx.
    apply N.eqb_neq. congruence.
  - unfold result, delete_user, bind. full_id Hoid.
    unfold ret, delete_one. fold q. rewrite Hgone. reflexivity.
  - intros a payload Hprefix Hdec Hsub.
    unfold result, get_current_user.
    assert (Hempty : String.eqb a "" = false).
    { destruct a; [discriminate Hprefix | reflexivity]. }
    rewrite Hempty, Hprefix. cbn [orb negb].
    unfold bind, utcnow. rewrite Hdec, Hsub. cbn [or_none].
    full_id Hoid. unfold ret, find_one. cbn [db].
    fold q. rewrite Hgone. reflexivity.
Qed.

(** X4. In a store whose ids are distinct, deleting a stored resource
    under its id, system and type answers [{"deleted": true}]; reading
    it afterwards ends in 404, and so does deleting it again.  The
    resources under other ids are found as before. *)
Theorem delete_resource_then_get_is_not_found
    (system rtype rid : string) (user : Document) (oid : ObjectId) (d : Document)
    (w : World) :
  distinct_ids w ->
  allowed system user ->
  ObjectId_of_str rid = Some oid ->
  first_match (resource_key oid system rtype) (db w "resource") = Some d ->
  exists w',
    delete_resource system rtype rid user w = (Ok [("deleted", VBool true)], w')
    /\ result (get_resource system rtype rid user) w' = Raise (HTTP 404 "Not found")
    /\ result (delete_resource system rtype rid user) w' = Raise (HTTP 404 "Not found")
    /\ forall o s t, o <> oid ->
         first_match (resource_key o s t) (db w' "resource")
         = first_match (resource_key o s t) (db w "resource").
Proof.
  intros Hdistinct Hallowed Hoid Hstored.
  set (q := resource_key oid system rtype) in *.
  set (w' := set_collection "resource" (remove_first q (db w "resource"))
               (log_access "resource" OpDeleteOne w)).
  assert (Hgone : first_match q (db w' "resource") = None).
  { subst w'. rewrite set_collection_same.
    apply first_match_after_remove with (oid := oid);
      [apply resource_key_pins | apply Hdistinct]. }
  exists w'. split; [|split; [|split]].
  - unfold delete_resource, bind.
    rewrite (check_access_allowed system user w Hallowed).
    full_id Hoid. unfold ret, delete_one.
    fold q. rewrite Hstored. reflexivity.
  - unfold result, get_resource, bind.
    rewrite (check_access_allowed system user w' Hallowed).
    full_id Hoid. unfold ret, find_one.
    fold q. rewrite Hgone. reflexivity.
  - unfold result, delete_resource, bind.
    rewrite (check_access_allowed system user w' Hallowed).
    full_id Hoid. unfold ret, delete_one.
    fold q. rewrite Hgone. reflexivity.
  - intros o s t Hne. subst w'. rewrite set_collection_same.
    apply first_match_other_after_remove. intros x Hx.
    apply resource_key_pins in Hx. rewrite resource_key_matches, Hx.
    assert (E : N.eqb oid o = false) by (apply N.eqb_neq; congruence).
    now rewrite E.
Qed.

Lemma eq_match_other_str (s s0 : string) :
  s <> s0 -> eq_match (VStr s) (Some (VStr s0)) = false.
Proof.
  intros Hne. simpl. rewrite orb_false_r. apply String.eqb_neq. congruence.
Qed.

(** X5. An id does not reach across scopes.  In a store whose ids are
    distinct, a resource stored under one system and type is not found
    under its id with another system or another type: reading, updating
    and deleting it there end in 404 (the update in the error of the
    driver when its data cannot be encoded), and the update and the
    deletion leave the resources as they were. *)
Theorem resource_id_is_scoped
    (system rtype rid : string) (user : Document) (oid : ObjectId) (d : Document)
    (stored_system stored_type : string) (w : World) :
  distinct_ids w ->
  allowed system user ->
  ObjectId_of_str rid = Some oid ->
  In d (db w "resource") ->
  _id d = oid ->
  doc_get "system" d = Some (VStr stored_system) ->
  doc_get "type" d = Some (VStr stored_type) ->
  system <> stored_system \/ rtype <> stored_type ->
  result (get_resource system rtype rid user) w = Raise (HTTP 404 "Not found")
  /\ (forall payload,
        result (update_resource system rtype rid payload user) w
        = match encode_error (VDict (ru_data payload)) with
          | Some e => Raise e
          | None => Raise (HTTP 404 "Not found")
          end
        /\ db (run (update_resource system rtype rid payload user) w) = db w)
  /\ result (delete_resource system rtype rid user) w = Raise (HTTP 404 "Not found")
  /\ db (run (delete_resource system rtype rid user) w) = db w.
Proof.
  intros Hdistinct Hallowed Hoid Hin Hid Hsys Htype Hother.
  assert (Hnone : first_match (resource_key oid system rtype) (db w "resource") = None).
  { apply first_match_none. intros x Hx.
    destruct (doc_matches (resource_key oid system rtype) x) eqn:Hq; [|reflexivity].
    assert (Hxd : x = d).
    { apply (same_id_same_doc (db w "resource")); try assumption.
      - apply Hdistinct.
      - rewrite Hid. now apply resource_key_pins in Hq. }
    subst x. rewrite resource_key_matches in Hq.
    unfold doc_get in Hsys, Htype. cbn [String.eqb Ascii.eqb Bool.eqb] in Hsys, Htype.
    rewrite Hsys, Htype in Hq.
    destruct Hother as [Hne | Hne].
    - rewrite (eq_match_other_str _ _ Hne) in Hq. now rewrite andb_false_r in Hq.
    - rewrite (eq_match_other_str _ _ Hne) in Hq. now rewrite !andb_false_r in Hq. }
  split; [|split; [|split]].
  - unfold result, get_resource, bind.
    rewrite (check_access_allowed system user w Hallowed).
    full_id Hoid. unfold ret, find_one. rewrite Hnone. reflexivity.
  - intros payload. unfold result, run, update_resource, bind.
    rewrite (check_access_allowed system user w Hallowed).
    full_id Hoid. unfold ret, utcnow, update_one.
    rewrite update_error_resource_set.
    destruct (encode_error (VDict (ru_data payload))); [split; reflexivity|].
    cbn [db log_access]. rewrite Hnone. split; reflexivity.
  - unfold result, delete_resource, bind.
    rewrite (check_access_allowed system user w Hallowed).
    full_id Hoid. unfold ret, delete_one. rewrite Hnone. reflexivity.
  - unfold run, delete_resource, bind.
    rewrite (check_access_allowed system user w Hallowed).
    full_id Hoid. unfold ret, delete_one. rewrite Hnone. reflexivity.
Qed.

(* ================================================================== *)
(** * Registration and login *)
(* ================================================================== *)

(** What a registration stores and answers. *)
Lemma register_run {L : Libraries} (payload : UserCreate) (w : World) :
  first_match [("email", CEq (VStr (uc_email payload)))] (db w "user") = None ->
  exists token w',
    register payload w = (Ok token, w')
    /\ db w' "user"
       = (db w "user" ++
          [mkDocument (next_oid w)
             [("email", VStr (uc_email payload));
              ("name", VStr (uc_name payload));
              ("password", VStr (get_password_hash (uc_password payload)));
              ("role", VStr (uc_role payload));
              ("systems", str_list (uc_systems payload));
              ("created_at", VTime (trunc_ms (clock w (ticks w))));
              ("updated_at", VTime (trunc_ms (clock w (S (ticks w)))))]])%list
    /\ (forall name, name <> "user" -> db w' name = db w name)
    /\ next_oid w' = N.succ (next_oid w).
Proof.
  intros Hnew. unfold register, bind, find_one. rewrite Hnew.
  unfold utcnow. cbn [fst snd db next_oid clock ticks trace log_access].
  rewrite insert_one_stores by apply encode_error_user_doc.
  unfold create_access_token, bind, utcnow, ret.
  cbn [fst snd db next_oid clock ticks trace log_access set_collection new_fields].
  eexists. eexists. split; [reflexivity|].
  cbn [db next_oid]. rewrite String.eqb_refl.
  cbn [store_dict map fst snd bson_store str_list]. rewrite bson_store_strs.
  split; [reflexivity|]. split; [|reflexivity].
  intros name Hne. apply String.eqb_neq in Hne. now rewrite Hne.
Qed.

(** What an admin creation stores and answers. *)
Lemma create_user_run {L : Libraries} (payload : UserCreate) (w : World) :
  first_match [("email", CEq (VStr (uc_email payload)))] (db w "user") = None ->
  exists w',
    create_user payload w = (Ok [("id", VStr (oid_str (next_oid w)))], w')
    /\ db w' "user"
       = (db w "user" ++
          [mkDocument (next_oid w)
             [("email", VStr (uc_email payload));
              ("name", VStr (uc_name payload));
              ("role", VStr (uc_role payload));
              ("systems", str_list (uc_systems payload));
              ("password", VStr (get_password_hash (uc_password payload)));
              ("created_at", VTime (trunc_ms (clock w (ticks w))));
              ("updated_at", VTime (trunc_ms (clock w (S (ticks w)))))]])%list.
Proof.
  intros Hfree. unfold create_user, bind, find_one. rewrite Hfree.
  unfold utcnow. cbn [fst snd db next_oid clock ticks trace log_access].
  rewrite insert_one_stores.
  2:{ apply encode_error_dict. cbn -[encode_error key_ok].
      repeat constructor; try reflexivity. apply encode_error_strs. }
  unfold ret. cbn [fst snd db next_oid clock ticks trace log_access set_collection new_fields].
  eexists. split; [reflexivity|].
  cbn [db log_access]. rewrite set_collection_same.
  cbn -[trunc_ms oid_str get_password_hash]. rewrite bson_store_strs. reflexivity.
Qed.

Lemma email_filter_matches (email : string) (d : Document) :
  doc_get "email" d = Some (VStr email) ->
  doc_matches [("email", CEq (VStr email))] d = true.
Proof.
  intros H. unfold doc_matches. cbn [forallb fst snd cond_holds]. rewrite H.
  rewrite eq_match_str. reflexivity.
Qed.



(* ================================================================== *)
(** * Admin: listing and updating users *)
(* ================================================================== *)

Lemma dict_get_pop_other {V : Type} (k k' : string) (d : dict V) :
  k <> k' -> dict_get k (dict_pop k' d) = dict_get k d.
Proof.
  intros Hne. apply String.eqb_neq in Hne.
  induction d as [|[k0 v0] rest IH]; simpl; [reflexivity|].
  destruct (String.eqb k' k0) eqn:E; simpl.
  - apply String.eqb_eq in E. subst k0. now rewrite Hne.
  - now rewrite IH.
Qed.

Lemma dict_get_absent {V : Type} (k : string) (d : dict V) :
  ~ In k (map fst d) -> dict_get k d = None.
Proof.
  induction d as [|[k0 v0] rest IH]; simpl; intros Hnot; [reflexivity|].
  destruct (String.eqb k k0) eqn:E.
  - apply String.eqb_eq in E. subst k0. exfalso. apply Hnot. now left.
  - apply IH. intros H. apply Hnot. now right.
Qed.

Lemma dict_get_pop_same {V : Type} (k : string) (d : dict V) :
  NoDup (map fst d) -> dict_get k (dict_pop k d) = None.
Proof.
  induction d as [|[k0 v0] rest IH]; simpl; intros Hnd; [reflexivity|].
  inversion Hnd as [|? ? Hk0 Hrest]; subst.
  destruct (String.eqb k k0) eqn:E.
  - apply String.eqb_eq in E. subst k0. now apply dict_get_absent.
  - simpl. rewrite E. now apply IH.
Qed.

Lemma dict_set_keys {V : Type} (k : string) (v : V) (d : dict V) :
  map fst (dict_set k v d) = map fst d
  \/ (~ In k (map fst d) /\ map fst (dict_set k v d) = (map fst d ++ [k])%list).
Proof.
  induction d as [|[k0 v0] rest IH]; simpl.
  - right. split; [tauto | reflexivity].
  - destruct (String.eqb k k0) eqn:E; simpl.
    + apply String.eqb_eq in E. subst k0. now left.
    + destruct IH as [IH | [Hnot IH]].
      * left. now rewrite IH.
      * right. split; [|now rewrite IH].
        intros [H | H]; [|tauto]. subst k0. now rewrite String.eqb_refl in E.
Qed.

Lemma dict_set_keys_once (k : string) (v : Value) (d : Dict) :
  dict_keys_once d -> dict_keys_once (dict_set k v d).
Proof.
  unfold dict_keys_once. intros Hnd.
  destruct (dict_set_keys k v d) as [-> | [Hnot ->]]; [exact Hnd|].
  apply NoDup_app; [exact Hnd | constructor; [intros [] | constructor] |].
  intros x Hx [<- | []]. contradiction.
Qed.

Lemma filter_all {A : Type} (f : A -> bool) (l : list A) :
  (forall x, f x = true) -> filter f l = l.
Proof.
  intros Hall. induction l as [|x rest IH]; simpl; [reflexivity|].
  now rewrite Hall, IH.
Qed.

(** X8. The list of users hands out no password.  For stored users
    whose keys are those of a dict (each once), the answer has one entry
    per stored user, in the order of the store; each entry carries the
    user's id as the string [id], has no [password] key, and agrees with
    the stored record on every other key.  The store is read once and
    not written. *)
Theorem list_users_strips_passwords (w : World) :
  (forall d, In d (db w "user") -> dict_keys_once (body d)) ->
  exists users,
    list_users w = (Ok users, log_access "user" OpFind w)
    /\ map _id users = map _id (db w "user")
    /\ Forall2
         (fun u d =>
            doc_get "password" u = None
            /\ doc_get "id" u = Some (VStr (oid_str (_id d)))
            /\ forall k, k <> "password" -> k <> "id" -> doc_get k u = doc_get k d)
         users (db w "user").
Proof.
  intros Hkeys.
  exists (map (fun u => doc_pop "password" (with_id u)) (db w "user")).
  split; [|split].
  - unfold list_users, bind, cursor_list, find_cursor, ret. simpl.
    rewrite filter_all by reflexivity. reflexivity.
  - rewrite map_map. reflexivity.
  - induction (db w "user") as [|d rest IH]; simpl; constructor.
    + split; [|split].
      * unfold doc_get, doc_pop, with_id, doc_set. simpl.
        apply dict_get_pop_same. apply dict_set_keys_once. apply Hkeys. now left.
      * unfold doc_get, doc_pop, with_id, doc_set. simpl.
        rewrite dict_get_pop_other by discriminate. apply dict_get_set_same.
      * intros k Hpw Hid. unfold doc_get, doc_pop, with_id, doc_set. simpl.
        destruct (String.eqb k "_id"); [reflexivity|].
        rewrite dict_get_pop_other by assumption.
        now apply dict_get_set_other.
    + apply IH. intros x Hx. apply Hkeys. now right.
Qed.

(** X9. An admin update is partial.  For a stored user, the update
    answers [{"updated": true}]; afterwards the record stored under the
    id has the name, role and systems the payload gives, keeps the old
    value of each of the three the payload leaves unset or null, carries
    the clock reading of the update, in milliseconds, as [updated_at],
    and agrees with the old record on every other key (email, password,
    [created_at]). *)
Theorem update_user_is_partial
    (user_id : string) (payload : UserUpdate) (w : World) (oid : ObjectId) (d : Document) :
  ObjectId_of_str user_id = Some oid ->
  stored_user oid w = Some d ->
  exists w' d',
    update_user user_id payload w = (Ok [("updated", VBool true)], w')
    /\ stored_user oid w' = Some d'
    /\ _id d' = _id d
    /\ doc_get "name" d'
       = match uu_name payload with
         | Some n => Some (VStr n)
         | None => doc_get "name" d
         end
    /\ doc_get "role" d'
       = match uu_role payload with
         | Some r => Some (VStr r)
         | None => doc_get "role" d
         end
    /\ doc_get "systems" d'
       = match uu_systems payload with
         | Some l => Some (str_list l)
         | None => doc_get "systems" d
         end
    /\ doc_get "updated_at" d' = Some (VTime (trunc_ms (clock w (ticks w))))
    /\ forall k,
         k <> "name" -> k <> "role" -> k <> "systems" -> k <> "updated_at" ->
         doc_get k d' = doc_get k d.
Proof.
  intros Hoid Hd.
  set (updates := dict_set "updated_at" (VTime (trunc_ms (clock w (ticks w))))
                    (UserUpdate_updates payload)).
  set (d' := mkDocument (_id d) (dict_update (body d) updates)).
  exists (set_collection "user"
            (replace_first [("_id", CEq (VOid oid))] (fun _ => d') (db w "user"))
            (log_access "user" OpUpdateOne (tick w))), d'.
  split; [|split; [|split]].
  - rewrite update_user_unfold, (ObjectId_parse_full _ _ Hoid).
    change (target_user (FullId oid) w) with (stored_user oid w). rewrite Hd.
    reflexivity.
  - unfold stored_user in *. rewrite set_collection_same.
    apply first_match_replace_first with (d := d); [exact Hd|].
    rewrite doc_matches_id. cbn [_id].
    apply first_match_some in Hd. now rewrite doc_matches_id in Hd.
  - reflexivity.
  - subst d' updates. unfold doc_get. cbn [body].
    destruct payload as [[n|] [r|] [l|]]; cbn [uu_name uu_role uu_systems];
      unfold dict_update; simpl fold_left;
      repeat split;
      try (intros k Hn Hr Hs Hu; destruct (String.eqb k "_id"); [reflexivity|]);
      cbn [String.eqb Ascii.eqb Bool.eqb];
      repeat first
        [ reflexivity
        | apply dict_get_set_same
        | rewrite dict_get_set_other by (assumption || discriminate) ].
Qed.

(** X10. Updating or deleting a user under an id of 24 hexadecimal
    digits that names no stored user ends in 404 "User not found" and
    leaves every collection as it was (the update has read the clock by
    then); under an id that [ObjectId] refuses both end in
    [InvalidId]. *)
Theorem update_and_delete_of_unknown_user
    (user_id : string) (payload : UserUpdate) (w : World) :
  (forall oid,
      ObjectId_of_str user_id = Some oid ->
      stored_user oid w = None ->
      update_user user_id payload w
      = (Raise (HTTP 404 "User not found"), log_access "user" OpUpdateOne (tick w))
      /\ delete_user user_id w
         = (Raise (HTTP 404 "User not found"), log_access "user" OpDeleteOne w))
  /\ (ObjectId_parse user_id = None ->
      update_user user_id payload w = (Raise InvalidId, tick w)
      /\ delete_user user_id w = (Raise InvalidId, w)).
Proof.
  rewrite update_user_unfold, delete_user_unfold. split.
  - intros oid Hoid Hnone. rewrite (ObjectId_parse_full _ _ Hoid).
    change (target_user (FullId oid) w) with (stored_user oid w).
    rewrite Hnone. split; reflexivity.
  - intros Hbad. rewrite Hbad. split; reflexivity.
Qed.

(* ================================================================== *)
(** * From login to the next request *)
(* ================================================================== *)

Lemma split_on_no_sep (sep : ascii) (t : string) :
  ~ In sep (list_ascii_of_string t) -> split_on sep t = [t].
Proof.
  induction t as [|c rest IH]; simpl; intros Hnot; [reflexivity|].
  destruct (Ascii.eqb c sep) eqn:E.
  - apply Ascii.eqb_eq in E. exfalso. apply Hnot. now left.
  - rewrite IH; [reflexivity|]. intros H. apply Hnot. now right.
Qed.

(** The token of a header ["Bearer " ++ token] is [token], for a token
    without a space. *)
Lemma bearer_token_of (token : string) :
  ~ In " "%char (list_ascii_of_string token) ->
  bearer_token ("Bearer " ++ token) = token.
Proof.
  intros Hnot. unfold bearer_token. simpl. now rewrite split_on_no_sep.
Qed.

(** X11. The token a login issues names the user who logged in.  Let
    the store hold distinct ids of twelve bytes, and let a login find a
    stored user whose password verifies.  Then the login answers, as a
    bearer token, the encoding of three claims: the id string of that
    user as [sub], the stored role as [role], and as [exp] the clock
    reading of the login plus twelve hours.  If that token has no space
    and the token library, at the clock reading of the next request,
    reads back the [sub] and [role] it was given, the request that
    carries ["Bearer " ++ token] resolves to that stored user: same id,
    same systems, [id] the id string, and as role the role that was
    stored at the login. *)
Theorem login_token_resolves_to_the_user {L : Libraries}
    (payload : LoginRequest) (w : World) (stored : Document)
    (hashed : string) (role : Value) :
  distinct_ids w ->
  (_id stored < oid_limit)%N ->
  first_match [("email", CEq (VStr (lr_email payload)))] (db w "user") = Some stored ->
  doc_get "password" stored = Some (VStr hashed) ->
  verify_password (lr_password payload) hashed = Some true ->
  doc_get "role" stored = Some role ->
  exists w1,
    login payload w
    = (Ok (mkToken
             (jwt_encode
                [("sub", VStr (oid_str (_id stored)));
                 ("role", role);
                 ("exp", VTime (clock w (ticks w)
                                + timedelta_minutes ACCESS_TOKEN_EXPIRE_MINUTES))]
                SECRET_KEY ALGORITHM)
             "bearer"),
       w1)
    /\ forall decoded,
         ~ In " "%char
             (list_ascii_of_string
                (jwt_encode
                   [("sub", VStr (oid_str (_id stored)));
                    ("role", role);
                    ("exp", VTime (clock w (ticks w)
                                   + timedelta_minutes ACCESS_TOKEN_EXPIRE_MINUTES))]
                   SECRET_KEY ALGORITHM)) ->
         jwt_decode
           (jwt_encode
              [("sub", VStr (oid_str (_id stored)));
               ("role", role);
               ("exp", VTime (clock w (ticks w)
                              + timedelta_minutes ACCESS_TOKEN_EXPIRE_MINUTES))]
              SECRET_KEY ALGORITHM)
           SECRET_KEY ALGORITHM (clock w1 (ticks w1)) = Some decoded ->
         dict_get "sub" decoded = Some (VStr (oid_str (_id stored))) ->
         dict_get "role" decoded = Some role ->
         exists user w2,
           get_current_user
             (Some ("Bearer " ++
                    jwt_encode
                      [("sub", VStr (oid_str (_id stored)));
                       ("role", role);
                       ("exp", VTime (clock w (ticks w)
                                      + timedelta_minutes ACCESS_TOKEN_EXPIRE_MINUTES))]
                      SECRET_KEY ALGORITHM)) w1
           = (Ok user, w2)
           /\ _id user = _id stored
           /\ doc_get "id" user = Some (VStr (oid_str (_id stored)))
           /\ doc_get "role" user = Some role
           /\ doc_get "systems" user = doc_get "systems" stored.
Proof.
  intros Hdistinct Hlimit Hfound Hpw Hverify Hrole.
  eexists. split.
  - unfold login, bind, find_one. rewrite Hfound, Hpw, Hverify, Hrole.
    unfold create_access_token, bind, utcnow, ret. cbn [fst snd]. reflexivity.
  - intros decoded Hspace Hdec Hsub Hdrole. cbn [db clock ticks log_access] in *.
    assert (Hstored : stored_user (_id stored) w = Some stored).
    { unfold stored_user.
      destruct (first_match [("_id", CEq (VOid (_id stored)))] (db w "user"))
        as [x|] eqn:Hx.
      - f_equal. apply (same_id_same_doc (db w "user")).
        + apply Hdistinct.
        + now apply first_match_in with (q := [("_id", CEq (VOid (_id stored)))]).
        + now apply first_match_in with (q := [("email", CEq (VStr (lr_email payload)))]).
        + now apply id_filter_pins, first_match_some with (docs := db w "user").
      - exfalso. unfold first_match in Hx.
        apply first_match_in in Hfound.
        pose proof (find_none _ _ Hx stored Hfound) as Hno.
        rewrite doc_matches_id, N.eqb_refl in Hno. discriminate. }
    eexists. eexists. split.
    + apply get_current_user_resolves
        with (payload := decoded) (s := oid_str (_id stored)) (oid := _id stored)
             (stored := stored).
      * simpl. match goal with |- String.prefix "" ?t = true => destruct t end;
          reflexivity.
      * rewrite bearer_token_of by exact Hspace. exact Hdec.
      * exact Hsub.
      * now apply ObjectId_of_oid_str.
      * exact Hstored.
    + rewrite Hdrole. cbn [or_none].
      split; [reflexivity|]. split; [|split].
      * rewrite doc_get_set_other by discriminate.
        unfold with_id. apply doc_get_set_same. discriminate.
      * apply doc_get_set_same. discriminate.
      * rewrite doc_get_set_other by discriminate. apply with_id_get. discriminate.
Qed.

(* ================================================================== *)
(** * The systems a caller sees; the activity log *)
(* ================================================================== *)

Lemma in_catalog (v : Value) (catalog : list string) :
  existsb (fun d => is_str (Some v) d) catalog = true
  <-> exists s, v = VStr s /\ In s catalog.
Proof.
  rewrite existsb_exists. split.
  - intros (d & Hd & E). destruct v; try discriminate.
    simpl in E. apply String.eqb_eq in E. subst. eauto.
  - intros (s & -> & Hs). exists s. split; [exact Hs|]. simpl. apply String.eqb_refl.
Qed.

(** X12. The systems a caller is shown.  The store is not touched.  An
    admin is shown the whole catalog.  A caller who is not an admin and
    whose systems are a list is shown the entries of that list that are
    names of the catalog: nothing outside the caller's own systems,
    nothing outside the catalog, and every entry that is in both. *)
Theorem list_systems_is_the_intersection (user : Document) (w : World) :
  (is_str (doc_get "role" user) "admin" = true ->
   list_systems user w = (Ok (map VStr DEFAULT_SYSTEMS), w))
  /\ (is_str (doc_get "role" user) "admin" = false ->
      forall l, user_systems user = VList l ->
      exists shown,
        list_systems user w = (Ok shown, w)
        /\ (forall v, In v shown <-> In v l /\ exists s, v = VStr s /\ In s DEFAULT_SYSTEMS)
        /\ (forall v, In v (map VStr DEFAULT_SYSTEMS) -> In v l -> In v shown)).
Proof.
  split.
  - intros Hadmin. unfold list_systems. now rewrite Hadmin.
  - intros Huser l Hl.
    exists (filter (fun s => existsb (fun d => is_str (Some s) d) DEFAULT_SYSTEMS) l).
    split; [|split].
    + unfold list_systems. rewrite Huser, Hl. reflexivity.
    + intros v. rewrite filter_In, in_catalog. reflexivity.
    + intros v Hv Hin. apply filter_In. split; [exact Hin|].
      apply in_catalog. apply in_map_iff in Hv. destruct Hv as (s & <- & Hs). eauto.
Qed.

(** X13. An activity is logged under the caller's id.  Whatever
    [user_id] and [created_at] the payload carries, when its metadata is
    storable the entry appended to the activity log has the id of the
    resolved caller as [user_id] and the clock reading of the request,
    in milliseconds, as [created_at]; action and metadata are the
    payload's.  The entries logged before stay, in order, in front of
    it. *)
Theorem log_activity_records_the_caller
    (payload : ActivityLog) (user : Document) (w : World) :
  storable (VDict (al_metadata payload)) = true ->
  exists w' entry,
    log_activity payload user w = (Ok [("logged", VBool true)], w')
    /\ db w' "activity" = (db w "activity" ++ [entry])%list
    /\ _id entry = next_oid w
    /\ doc_get "user_id" entry = Some (VStr (oid_str (_id user)))
    /\ doc_get "created_at" entry = Some (VTime (trunc_ms (clock w (ticks w))))
    /\ doc_get "action" entry = Some (VStr (al_action payload))
    /\ doc_get "metadata" entry = Some (VDict (al_metadata payload)).
Proof.
  intros Hmeta.
  exists (log_access "activity" OpInsertOne
            (set_collection "activity"
               (db w "activity" ++
                [mkDocument (next_oid w)
                   [("user_id", VStr (oid_str (_id user)));
                    ("action", VStr (al_action payload));
                    ("metadata", VDict (al_metadata payload));
                    ("created_at", VTime (trunc_ms (clock w (ticks w))))]])
               (mkWorld (db w) (N.succ (next_oid w)) (clock w) (S (ticks w)) (trace w)))).
  eexists. split.
  - unfold log_activity, bind, utcnow.
    cbn [fst snd db next_oid clock ticks trace].
    rewrite insert_one_stores.
    2:{ apply encode_error_dict. cbn -[encode_error key_ok].
        repeat constructor; try reflexivity. now apply storable_encoded. }
    unfold ret. cbn [new_fields db next_oid clock ticks trace].
    cbn -[bson_store trunc_ms oid_str set_collection log_access].
    rewrite (storable_kept (VDict (al_metadata payload)) Hmeta). reflexivity.
  - cbn [db log_access set_collection]. rewrite String.eqb_refl.
    repeat split; reflexivity.
Qed.

(* ================================================================== *)
(** * Resources: queries and updates *)
(* ================================================================== *)

Lemma filter_app_one {A : Type} (f : A -> bool) (l : list A) (x : A) :
  f x = true -> filter f (l ++ [x]) = (filter f l ++ [x])%list.
Proof.
  intros Hx. induction l as [|y rest IH]; simpl.
  - now rewrite Hx.
  - destruct (f y); simpl; now rewrite IH.
Qed.

(** X14. What is created is found by the query of its scope.  After a
    caller allowed on [system] has created a resource with storable
    data, the query on the same system and type with an empty filter, no
    skip and no limit answers the resources that matched before,
    followed by the new one: its [id] is the id the creation answered
    and its [data] the mapping that was sent. *)
Theorem create_then_query_finds_it
    (system rtype : string) (payload : Resource) (user : Document) (w : World) :
  allowed system user ->
  storable (VDict (r_data payload)) = true ->
  exists rid w1 before doc w2,
    create_resource system rtype payload user w = (Ok [("id", VStr rid)], w1)
    /\ query_resources system rtype (mkQueryParams [] 0 0 None) user w
       = (Ok before, log_access "resource" OpFind w)
    /\ query_resources system rtype (mkQueryParams [] 0 0 None) user w1
       = (Ok (before ++ [doc])%list, w2)
    /\ doc_get "id" doc = Some (VStr rid)
    /\ doc_get "data" doc = Some (VDict (r_data payload))
    /\ doc_get "system" doc = Some (VStr system)
    /\ doc_get "type" doc = Some (VStr rtype).
Proof.
  intros Hallowed Hdata.
  set (q := [("system", CEq (VStr system)); ("type", CEq (VStr rtype))] : Filter).
  destruct (create_resource_stores system rtype payload user w Hallowed Hdata)
    as (w1 & Hcreate & Hdb & _ & _).
  set (new :=
         mkDocument (next_oid w)
           [("system", VStr system); ("type", VStr rtype);
            ("data", VDict (r_data payload)); ("owner_id", user_id_str user);
            ("created_at", VTime (trunc_ms (clock w (ticks w))));
            ("updated_at", VTime (trunc_ms (clock w (S (ticks w)))))]) in *.
  assert (Hnew : doc_matches q new = true).
  { unfold doc_matches, q, new. cbn [forallb fst snd cond_holds doc_get body dict_get
      String.eqb Ascii.eqb Bool.eqb]. now rewrite !eq_match_str. }
  assert (Hquery : forall w0,
             query_resources system rtype (mkQueryParams [] 0 0 None) user w0
             = (Ok (map with_id (filter (doc_matches q) (db w0 "resource"))),
                log_access "resource" OpFind w0)).
  { intros w0. unfold query_resources, bind.
    rewrite (check_access_allowed system user w0 Hallowed).
    unfold cursor_skip, ret, cursor_list. reflexivity. }
  exists (oid_str (next_oid w)), w1,
    (map with_id (filter (doc_matches q) (db w "resource"))), (with_id new),
    (log_access "resource" OpFind w1).
  split; [exact Hcreate|]. split; [apply Hquery|]. split.
  - rewrite Hquery, Hdb, (filter_app_one _ _ _ Hnew), map_app. reflexivity.
  - repeat split; reflexivity.
Qed.


(** X16. An update touches [data] and [updated_at] and nothing else.
    For a stored resource and storable data, after the update the
    document under the same id, system and type carries the clock
    reading of the update, in milliseconds, as [updated_at] and agrees
    with the old document on every key other than [data] and
    [updated_at]: owner, [created_at], system and type stay. *)
Theorem update_resource_keeps_the_rest
    (system rtype rid : string) (payload : ResourceUpdate) (user : Document) (w : World)
    (oid : ObjectId) (old : Document) :
  allowed system user ->
  ObjectId_of_str rid = Some oid ->
  first_match (resource_key oid system rtype) (db w "resource") = Some old ->
  storable (VDict (ru_data payload)) = true ->
  exists w1 new,
    update_resource system rtype rid payload user w = (Ok [("updated", VBool true)], w1)
    /\ first_match (resource_key oid system rtype) (db w1 "resource") = Some new
    /\ _id new = _id old
    /\ doc_get "updated_at" new = Some (VTime (trunc_ms (clock w (ticks w))))
    /\ forall k, k <> "data" -> k <> "updated_at" -> doc_get k new = doc_get k old.
Proof.
  intros Hallowed Hoid Hold Hdata.
  destruct (update_resource_stores system rtype rid payload user w oid old
              Hallowed Hoid Hold Hdata) as (w1 & Hupdate & Hdb & _).
  set (new :=
         mkDocument (_id old)
           (dict_update (body old)
              [("data", VDict (ru_data payload));
               ("updated_at", VTime (trunc_ms (clock w (ticks w))))])) in *.
  exists w1, new.
  split; [exact Hupdate|]. split; [|split; [|split]].
  - rewrite Hdb.
    apply first_match_replace_first with (d := old); [exact Hold|].
    apply resource_key_after_set. now apply first_match_some with (docs := db w "resource").
  - reflexivity.
  - unfold doc_get, new, dict_update. cbn [String.eqb Ascii.eqb Bool.eqb body fold_left fst snd].
    apply dict_get_set_same.
  - intros k Hk Hupdated. unfold doc_get, new, dict_update. cbn [_id body fold_left fst snd].
    destruct (String.eqb k "_id"); [reflexivity|].
    now rewrite !dict_get_set_other by assumption.
Qed.

(* ================================================================== *)
(** * How identity resolution refuses *)
(* ================================================================== *)

(** X17. The refusals of identity resolution.  A request without an
    [Authorization] header, with an empty one, or with one that does not
    start with ["Bearer "] ends in 401 "Not authenticated" with the
    world untouched: neither clock nor store is read.  However a request
    is refused, the collections are as they were, and the error is an
    HTTP error of status 401, or [InvalidId] or [TypeError] from a [sub]
    claim that is no id; it is never a 403. *)
Theorem get_current_user_refusals {L : Libraries}
    (authorization : option string) (w : World) :
  (match authorization with
   | None => True
   | Some a => a = "" \/ String.prefix "Bearer " a = false
   end ->
   get_current_user authorization w = (Raise (HTTP 401 "Not authenticated"), w))
  /\ forall e w',
       get_current_user authorization w = (Raise e, w') ->
       db w' = db w
       /\ (e = InvalidId \/ e = TypeError \/ exists detail, e = HTTP 401 detail).
Proof.
  split.
  - destruct authorization as [a|]; [|reflexivity].
    intros [-> | Hprefix]; [reflexivity|].
    unfold get_current_user. rewrite Hprefix. now rewrite orb_true_r.
  - intros e w'. unfold get_current_user.
    destruct authorization as [a|].
    2:{ intros H. inversion H. split; [reflexivity|]. right. right. eauto. }
    destruct (String.eqb a "" || negb (String.prefix "Bearer " a)).
    { intros H. inversion H. split; [reflexivity|]. right. right. eauto. }
    unfold bind, utcnow. cbn [fst snd].
    destruct (jwt_decode (bearer_token a) SECRET_KEY ALGORITHM (clock w (ticks w)))
      as [payload|].
    2:{ intros H. inversion H. split; [reflexivity|]. right. right. eauto. }
    destruct (or_none (dict_get "sub" payload)) eqn:Hsub;
      try (intros H; inversion H; split; [reflexivity|]; auto; right; right; eauto).
    unfold to_ObjectId. destruct (ObjectId_parse s) as [oid|].
    2:{ intros H. inversion H. split; [reflexivity|]. auto. }
    unfold ret, find_one. cbn [db].
    destruct (first_match [("_id", id_is oid)] (db w "user")); [discriminate|].
    intros H. inversion H. split; [reflexivity|]. right. right. eauto.
Qed.

(* ================================================================== *)
(** * Admin creation of a user *)
(* ================================================================== *)


Lemma filter_none {A : Type} (f : A -> bool) (l : list A) :
  (forall x, In x l -> f x = false) -> filter f l = [].
Proof.
  intros Hall. induction l as [|x rest IH]; simpl; [reflexivity|].
  rewrite (Hall x (or_introl eq_refl)). apply IH. intros y Hy. apply Hall. now right.
Qed.

(* ================================================================== *)
(** * Emails stay distinct *)
(* ================================================================== *)

Lemma map_replace_first_same {X : Type} (g : Document -> X)
    (q : Filter) (d d' : Document) (docs : list Document) :
  first_match q docs = Some d ->
  g d' = g d ->
  map g (replace_first q (fun _ => d') docs) = map g docs.
Proof.
  intros Hfirst Hg. unfold first_match in Hfirst.
  induction docs as [|x rest IH]; cbn [find replace_first map] in *; [reflexivity|].
  destruct (doc_matches q x).
  - inversion Hfirst; subst x. cbn [map]. now rewrite Hg.
  - cbn [map]. now rewrite IH.
Qed.

Lemma NoDup_map_remove_first {X : Type} (g : Document -> X)
    (q : Filter) (docs : list Document) :
  NoDup (map g docs) -> NoDup (map g (remove_first q docs)).
Proof.
  induction docs as [|x rest IH]; cbn [remove_first map]; intros Hnd; [exact Hnd|].
  inversion Hnd as [|? ? Hx Hrest]; subst.
  destruct (doc_matches q x); [exact Hrest|].
  cbn [map]. constructor; [|now apply IH].
  intros Hin. apply Hx.
  apply in_map_iff in Hin. destruct Hin as (d & Hid & Hd).
  apply in_map_iff. exists d. split; [exact Hid|]. now apply in_remove_first with q.
Qed.

Lemma free_email_is_new (email : string) (w : World) :
  first_match [("email", CEq (VStr email))] (db w "user") = None ->
  ~ In (Some (VStr email)) (stored_emails w).
Proof.
  intros Hfree Hin. unfold stored_emails in Hin.
  apply in_map_iff in Hin. destruct Hin as (d & Hd & Hin).
  unfold first_match in Hfree.
  pose proof (find_none _ _ Hfree d Hin) as Hno.
  now rewrite (email_filter_matches email d Hd) in Hno.
Qed.

Lemma NoDup_snoc {X : Type} (l : list X) (x : X) :
  NoDup l -> ~ In x l -> NoDup (l ++ [x]).
Proof.
  intros Hnd Hnot. apply NoDup_app; [exact Hnd | constructor; [intros [] | constructor] |].
  intros y Hy [<- | []]. contradiction.
Qed.

(** X20. No two stored users share an email, and it stays so.  If the
    emails of the stored users are distinct, they are distinct after a
    registration, an admin creation, an admin update, a deletion and an
    assignment of systems, whatever these are given and whether they
    succeed or fail; and so after any computation that leaves the user
    collection as it was. *)
Theorem emails_stay_distinct {L : Libraries} (w : World) :
  NoDup (stored_emails w) ->
  (forall payload, NoDup (stored_emails (run (register payload) w)))
  /\ (forall payload, NoDup (stored_emails (run (create_user payload) w)))
  /\ (forall user_id payload, NoDup (stored_emails (run (update_user user_id payload) w)))
  /\ (forall user_id, NoDup (stored_emails (run (delete_user user_id) w)))
  /\ (forall user_id systems,
        NoDup (stored_emails (run (assign_systems user_id systems) w)))
  /\ (forall (A : Type) (m : M A), leaves "user" m -> NoDup (stored_emails (run m w))).
Proof.
  intros Hnd. repeat apply conj.
  - intros payload.
    destruct (first_match [("email", CEq (VStr (uc_email payload)))] (db w "user"))
      eqn:Hfree.
    + unfold run, register, bind, find_one. rewrite Hfree. exact Hnd.
    + destruct (register_run payload w Hfree) as (token & w' & Hrun & Hdb & _).
      unfold run. rewrite Hrun. cbn [snd]. unfold stored_emails.
      rewrite Hdb, map_app. cbn [map].
      apply NoDup_snoc; [exact Hnd | now apply free_email_is_new].
  - intros payload.
    destruct (first_match [("email", CEq (VStr (uc_email payload)))] (db w "user"))
      eqn:Hfree.
    + unfold run, create_user, bind, find_one. rewrite Hfree. exact Hnd.
    + destruct (create_user_run payload w Hfree) as (w' & Hrun & Hdb).
      unfold run. rewrite Hrun. cbn [snd]. unfold stored_emails.
      rewrite Hdb, map_app. cbn [map].
      apply NoDup_snoc; [exact Hnd | now apply free_email_is_new].
  - intros user_id payload. unfold run. rewrite update_user_unfold.
    destruct (ObjectId_parse user_id) as [oid|]; [|exact Hnd].
    unfold target_user.
    destruct (first_match [("_id", id_is oid)] (db w "user")) as [d|] eqn:Hd;
      [|exact Hnd].
    cbn [fst snd]. unfold stored_emails. rewrite set_collection_same.
    rewrite map_replace_first_same with (d := d); [exact Hnd | exact Hd |].
    unfold doc_get. cbn [String.eqb Ascii.eqb Bool.eqb body].
    destruct payload as [[n|] [r|] [l|]]; unfold dict_update; simpl fold_left;
      now rewrite !dict_get_set_other by discriminate.
  - intros user_id. unfold run. rewrite delete_user_unfold.
    destruct (ObjectId_parse user_id) as [oid|]; [|exact Hnd].
    unfold target_user.
    destruct (first_match [("_id", id_is oid)] (db w "user")) as [d|] eqn:Hd;
      [|exact Hnd].
    cbn [fst snd]. unfold stored_emails. rewrite set_collection_same.
    now apply NoDup_map_remove_first.
  - intros user_id systems. unfold run. rewrite assign_systems_unfold.
    destruct (ObjectId_parse user_id) as [oid|]; [|exact Hnd].
    rewrite update_one_add_strs.
    destruct (first_match [("_id", id_is oid)] (db w "user")) as [d|] eqn:Hd;
      [|exact Hnd].
    destruct (apply_update (UAddToSet "systems" (map VStr systems)) d) as [d'|] eqn:Hup;
      [|exact Hnd].
    cbn [fst snd]. unfold stored_emails. rewrite set_collection_same.
    rewrite map_replace_first_same with (d := d); [exact Hnd | exact Hd |].
    simpl in Hup.
    destruct (dict_get "systems" (body d)) as [[]|]; inversion Hup;
      apply doc_get_set_other; discriminate.
  - intros A m Hm. unfold stored_emails. now rewrite Hm.
Qed.

(* ================================================================== *)
(** * The activity log, newest first *)
(* ================================================================== *)

Section SortFacts.
Context {A : Type} (key : A -> Value) (direction : Z).

Lemma insert_sorted_perm (x : A) (l : list A) :
  Permutation (insert_sorted key direction x l) (x :: l).
Proof.
  induction l as [|y rest IH]; simpl; [reflexivity|].
  destruct (in_order direction (key y) (key x)).
  - rewrite IH. apply perm_swap.
  - reflexivity.
Qed.

Lemma sort_fold_perm (l acc : list A) :
  Permutation (fold_left (fun acc x => insert_sorted key direction x acc) l acc)
              (l ++ acc).
Proof.
  revert acc. induction l as [|x rest IH]; intros acc; simpl; [reflexivity|].
  rewrite IH, insert_sorted_perm. symmetry. apply Permutation_middle.
Qed.

Lemma sort_by_perm (l : list A) : Permutation (sort_by key direction l) l.
Proof. unfold sort_by. rewrite sort_fold_perm. now rewrite app_nil_r. Qed.
End SortFacts.





(* ================================================================== *)
(** * Analytics *)
(* ================================================================== *)

Lemma row_matches_row_of_doc (q : Filter) (d : Document) :
  row_matches q (row_of_doc d) = doc_matches q d.
Proof. reflexivity. Qed.

Lemma filter_row_of_doc (q : Filter) (docs : list Document) :
  filter (row_matches q) (map row_of_doc docs)
  = map row_of_doc (filter (doc_matches q) docs).
Proof.
  induction docs as [|d rest IH]; simpl; [reflexivity|].
  rewrite row_matches_row_of_doc. destruct (doc_matches q d); simpl; now rewrite IH.
Qed.

Lemma count_into_total (key : Value) (groups : list (Value * Z)) :
  group_total (count_into key groups) = group_total groups + 1.
Proof.
  unfold group_total. induction groups as [|[k n] rest IH]; simpl; [reflexivity|].
  destruct (value_eqb k key); simpl; lia.
Qed.

Lemma group_count_total (rows : list Dict) (groups : list (Value * Z)) :
  (forall row, In row rows -> exists t, dict_get "created_at" row = Some (VTime t)) ->
  exists groups',
    group_count "created_at" "type" rows groups = Some groups'
    /\ group_total groups' = group_total groups + Z.of_nat (List.length rows).
Proof.
  revert groups. induction rows as [|row rest IH]; intros groups Htimed.
  - exists groups. split; [reflexivity|]. simpl. lia.
  - destruct (Htimed row (or_introl eq_refl)) as (t & Ht).
    cbn [group_count]. rewrite Ht. cbn [month_expr].
    edestruct IH as (groups' & Hrun & Htotal).
    { intros r Hr. apply Htimed. now right. }
    exists groups'. split; [exact Hrun|].
    rewrite Htotal, count_into_total. cbn [List.length]. lia.
Qed.

Lemma total_count_groups (groups : list (Value * Z)) :
  total_count (map (fun g => [("_id", fst g); ("count", VInt (snd g))]) groups)
  = group_total groups.
Proof.
  unfold total_count, group_total.
  induction groups as [|[k n] rest IH]; simpl; [reflexivity|].
  unfold total_count in IH. now rewrite IH.
Qed.

Lemma total_count_perm (l l' : list Dict) :
  Permutation l l' -> total_count l = total_count l'.
Proof.
  unfold total_count. induction 1; simpl; lia.
Qed.

(** X22. What the analytics count.  For a caller allowed on [system],
    in a store whose resources all carry a date as [created_at] (as the
    resources written by [create_resource] do): the answer is a series
    and a total; the total is the number of stored resources of the
    system, whenever created, and the counts of the series add up to the
    number of stored resources of the system created on or after the
    first of January of the year the clock of the request reads. *)
Theorem system_analytics_counts (system : string) (user : Document) (w : World) :
  allowed system user ->
  (forall d, In d (db w "resource") -> exists t, doc_get "created_at" d = Some (VTime t)) ->
  exists series w',
    system_analytics system user w
    = (Ok [("series", VList (map VDict series));
           ("total",
            VInt (Z.of_nat (List.length
                              (filter (doc_matches [("system", CEq (VStr system))])
                                 (db w "resource")))))],
       w')
    /\ total_count series
       = Z.of_nat
           (List.length
              (filter
                 (doc_matches
                    [("system", CEq (VStr system));
                     ("created_at",
                      CGteTime (datetime_ymd (dt_year (clock w (ticks w))) 1 1))])
                 (db w "resource"))).
Proof.
  intros Hallowed Htimed.
  set (q := [("system", CEq (VStr system));
             ("created_at", CGteTime (datetime_ymd (dt_year (clock w (ticks w))) 1 1))]
            : Filter).
  destruct (group_count_total
              (map row_of_doc (filter (doc_matches q) (db w "resource"))) [])
    as (groups & Hgroups & Htotal).
  { intros row Hrow. apply in_map_iff in Hrow. destruct Hrow as (d & <- & Hd).
    apply filter_In in Hd. destruct Hd as [Hd _].
    destruct (Htimed d Hd) as (t & Ht). exists t. exact Ht. }
  set (rows := map (fun g => [("_id", fst g); ("count", VInt (snd g))]) groups).
  exists (sort_by (fun row => path_get ["_id"; "month"] (VDict row)) 1 rows).
  eexists. split.
  - unfold system_analytics, bind.
    rewrite (check_access_allowed system user w Hallowed).
    unfold utcnow, aggregate, count_documents, ret.
    cbn [fst snd db log_access run_pipeline run_stage]. fold q.
    rewrite filter_row_of_doc, Hgroups. fold rows. reflexivity.
  - rewrite (total_count_perm _ _ (sort_by_perm _ _ rows)).
    subst rows. rewrite total_count_groups, Htotal.
    rewrite length_map. unfold group_total. simpl. lia.
Qed.

(* ================================================================== *)
(** * What a query answers *)
(* ================================================================== *)

Lemma dict_get_none_keys {V : Type} (k : string) (d : dict V) :
  dict_get k d = None -> ~ In k (map fst d).
Proof.
  induction d as [|[k0 v0] rest IH]; simpl; [tauto|].
  destruct (String.eqb k k0) eqn:E; [discriminate|].
  intros H [Hk | Hin]; [|now apply IH].
  subst k0. now rewrite String.eqb_refl in E.
Qed.

Lemma dict_set_new {V : Type} (k : string) (v : V) (d : dict V) :
  ~ In k (map fst d) -> dict_set k v d = (d ++ [(k, v)])%list.
Proof.
  induction d as [|[k0 v0] rest IH]; simpl; intros Hnot; [reflexivity|].
  destruct (String.eqb k k0) eqn:E.
  - apply String.eqb_eq in E. subst k0. exfalso. apply Hnot. now left.
  - rewrite IH; [reflexivity|]. intros H. apply Hnot. now right.
Qed.

(** Updating a dict by one that shares no key with it appends. *)
Lemma dict_update_disjoint {V : Type} (d other : dict V) :
  NoDup (map fst other) ->
  (forall k, In k (map fst other) -> ~ In k (map fst d)) ->
  dict_update d other = (d ++ other)%list.
Proof.
  unfold dict_update. revert d.
  induction other as [|[k v] rest IH]; intros d Hnd Hdisj; simpl.
  - now rewrite app_nil_r.
  - inversion Hnd as [|? ? Hk Hrest]; subst.
    rewrite dict_set_new by (apply Hdisj; now left).
    rewrite IH; [now rewrite <- app_assoc | exact Hrest |].
    intros k' Hk' Hin. rewrite map_app, in_app_iff in Hin. simpl in Hin.
    destruct Hin as [Hin | [<- | []]].
    + apply (Hdisj k'); [now right | exact Hin].
    + contradiction.
Qed.

Lemma filter_of_keys (conditions : FieldFilter) :
  map fst (filter_of conditions) = map (fun kc => field_name (fst kc)) conditions.
Proof. unfold filter_of. rewrite map_map. reflexivity. Qed.

(** X23. What a query answers.  For a caller allowed on [system] and a
    filter on top-level fields, with each field once, without the fields
    [system] and [type], and with plain JSON values as operands, the
    query without skip and limit answers exactly the stored resources
    that are of the system and type of the path and satisfy the filter,
    in the order of the store, each with its [id]; the [sort] field of
    the request has no effect. *)
Theorem query_answers_the_scope
    (system rtype : string) (conditions : FieldFilter) (sort : option (list string))
    (user : Document) (w : World) :
  allowed system user ->
  NoDup (map (fun kc => field_name (fst kc)) conditions) ->
  (forall kc, In kc conditions ->
     field_name (fst kc) <> "system" /\ field_name (fst kc) <> "type") ->
  (forall kc v, In kc conditions -> In v (cond_operands (snd kc)) -> literal v = true) ->
  query_resources system rtype (mkQueryParams conditions 0 0 sort) user w
  = (Ok (map with_id
           (filter (fun d => doc_matches (scope system rtype) d
                             && doc_matches (filter_of conditions) d)
              (db w "resource"))),
     log_access "resource" OpFind w).
Proof.
  intros Hallowed Hnd Hkeys _.
  unfold query_resources, bind.
  rewrite (check_access_allowed system user w Hallowed).
  unfold cursor_skip, ret, cursor_list.
  cbn [Z.ltb Z.compare cursor_limit find_cursor cur_limit cur_sort cur_skip cur_filter
       cur_collection qp_skip qp_limit qp_filter Z.eqb Z.to_nat skipn].
  rewrite dict_update_disjoint.
  - do 3 f_equal. apply filter_ext. intros d.
    unfold doc_matches, scope. now rewrite forallb_app.
  - now rewrite filter_of_keys.
  - intros k Hk Hin. rewrite filter_of_keys in Hk.
    apply in_map_iff in Hk. destruct Hk as (kc & <- & Hkc).
    destruct (Hkeys kc Hkc) as [Hsys Htype].
    simpl in Hin. destruct Hin as [E | [E | []]]; congruence.
Qed.

(* ================================================================== *)
(** * More statements at work on the example population *)
(* ================================================================== *)

Lemma keeps_ok_register {L : Libraries} (payload : UserCreate) : keeps_ok (register payload).
Proof. unfold register, create_access_token. keeps_ok. Qed.

Lemma keeps_ok_create_resource (system rtype : string) (payload : Resource)
    (user : Document) :
  keeps_ok (create_resource system rtype payload user).
Proof. unfold create_resource. keeps_ok. Qed.

Lemma keeps_ok_log_activity (payload : ActivityLog) (user : Document) :
  keeps_ok (log_activity payload user).
Proof. unfold log_activity. keeps_ok. Qed.

Lemma store_ok_world_users : store_ok world_users.
Proof.
  unfold world_users.
  repeat apply (keeps_ok_register (L := plain_libraries)).
  apply store_ok_empty_world.
Qed.

Lemma store_ok_world_resources : store_ok world_resources.
Proof.
  unfold world_resources. repeat apply keeps_ok_create_resource.
  apply store_ok_world_users.
Qed.

Lemma bob_in_world_resources :
  allowed "school" (caller bob_header world_users)
  /\ allowed "hospital" (caller alice_header world_users).
Proof. split; [right | left]; vm_compute; reflexivity. Qed.

Ltac by_eval := vm_compute; reflexivity.

Lemma delete_user_removes_the_user_witness :
  distinct_ids world_users
  /\ ObjectId_of_str carol_id = Some 3%N
  /\ exists w',
       delete_user carol_id world_users = (Ok [("deleted", VBool true)], w')
       /\ stored_user 3%N w' = None
       /\ stored_user 2%N w' = Some bob_stored.
Proof.
  assert (H1 : ObjectId_of_str carol_id = Some 3%N) by by_eval.
  assert (H2 : stored_user 2%N world_users = Some bob_stored) by by_eval.
  split; [apply store_ok_world_users|]. split; [exact H1|].
  destruct (stored_user 3%N world_users) as [d|] eqn:Hd; [|vm_compute in Hd; discriminate].
  destruct (delete_user_removes_the_user (L := plain_libraries) carol_id 3%N d world_users
              (proj2 store_ok_world_users) H1 Hd)
    as (w' & Hrun & Hgone & Hothers & _).
  exists w'. split; [exact Hrun|]. split; [exact Hgone|].
  rewrite Hothers by discriminate. exact H2.
Defined.

Lemma delete_resource_then_get_is_not_found_witness :
  distinct_ids world_resources
  /\ allowed "school" bob_caller
  /\ first_match (resource_key 5%N "school" "student") (db world_resources "resource")
     = Some student_stored
  /\ exists w',
       delete_resource "school" "student" (oid_str 5%N) bob_caller world_resources
       = (Ok [("deleted", VBool true)], w')
       /\ result (get_resource "school" "student" (oid_str 5%N) bob_caller) w'
          = Raise (HTTP 404 "Not found").
Proof.
  assert (H1 : ObjectId_of_str (oid_str 5%N) = Some 5%N) by by_eval.
  assert (H2 : first_match (resource_key 5%N "school" "student")
                 (db world_resources "resource")
               = Some student_stored) by by_eval.
  split; [apply store_ok_world_resources|]. split; [exact bob_allowed_on_school|].
  split; [exact H2|].
  destruct (delete_resource_then_get_is_not_found "school" "student" (oid_str 5%N)
              bob_caller 5%N student_stored world_resources
              (proj2 store_ok_world_resources) bob_allowed_on_school H1 H2)
    as (w' & Hrun & Hget & _).
  exists w'. split; [exact Hrun | exact Hget].
Defined.

Lemma resource_id_is_scoped_witness :
  distinct_ids world_resources
  /\ allowed "school" bob_caller
  /\ In patient_stored (db world_resources "resource")
  /\ result (get_resource "school" "patient" (oid_str 4%N) bob_caller) world_resources
     = Raise (HTTP 404 "Not found")
  /\ result (delete_resource "school" "patient" (oid_str 4%N) bob_caller) world_resources
     = Raise (HTTP 404 "Not found").
Proof.
  assert (H1 : ObjectId_of_str (oid_str 4%N) = Some 4%N) by by_eval.
  assert (H2 : In patient_stored (db world_resources "resource")).
  { apply first_match_in with (q := resource_key 4%N "hospital" "patient"). by_eval. }
  assert (H3 : _id patient_stored = 4%N) by reflexivity.
  assert (H4 : doc_get "system" patient_stored = Some (VStr "hospital")) by reflexivity.
  assert (H5 : doc_get "type" patient_stored = Some (VStr "patient")) by reflexivity.
  assert (H6 : "school" <> "hospital" \/ "patient" <> "patient") by (left; discriminate).
  split; [apply store_ok_world_resources|]. split; [exact bob_allowed_on_school|].
  split; [exact H2|].
  destruct (resource_id_is_scoped "school" "patient" (oid_str 4%N) bob_caller 4%N
              patient_stored "hospital" "patient" world_resources
              (proj2 store_ok_world_resources) bob_allowed_on_school H1 H2 H3 H4 H5 H6)
    as (Hget & _ & Hdelete & _).
  split; [exact Hget | exact Hdelete].
Defined.



Lemma keys_onceb_NoDup (keys : list string) : keys_onceb keys = true -> NoDup keys.
Proof.
  induction keys as [|k rest IH]; simpl; intros H; [constructor|].
  apply andb_true_iff in H. destruct H as [Hk Hrest].
  constructor; [|now apply IH].
  intros Hin. apply negb_true_iff in Hk.
  assert (E : existsb (String.eqb k) rest = true).
  { apply existsb_exists. exists k. split; [exact Hin | apply String.eqb_refl]. }
  congruence.
Qed.

Lemma keys_once_world_users :
  forall d, In d (db world_users "user") -> dict_keys_once (body d).
Proof.
  assert (Hall : forallb (fun d => keys_onceb (map fst (body d))) (db world_users "user")
                 = true) by by_eval.
  intros d Hd. rewrite forallb_forall in Hall.
  apply keys_onceb_NoDup. now apply Hall.
Qed.

Lemma list_users_strips_passwords_witness :
  (forall d, In d (db world_users "user") -> dict_keys_once (body d))
  /\ exists users,
       list_users world_users = (Ok users, log_access "user" OpFind world_users)
       /\ map _id users = [1%N; 2%N; 3%N]
       /\ Forall (fun u => doc_get "password" u = None) users.
Proof.
  split; [exact keys_once_world_users|].
  destruct (list_users_strips_passwords world_users keys_once_world_users)
    as (users & Hrun & Hids & Hall).
  exists users. split; [exact Hrun|]. split.
  - rewrite Hids. by_eval.
  - clear Hrun Hids. induction Hall as [|u d us ds Hu Hrest IH]; constructor.
    + apply Hu.
    + exact IH.
Defined.

Lemma update_user_is_partial_witness :
  ObjectId_of_str bob_id = Some 2%N
  /\ stored_user 2%N world_users = Some bob_stored
  /\ exists w' d',
       update_user bob_id (mkUserUpdate (Some "Robert") None None) world_users
       = (Ok [("updated", VBool true)], w')
       /\ stored_user 2%N w' = Some d'
       /\ doc_get "name" d' = Some (VStr "Robert")
       /\ doc_get "role" d' = Some (VStr "user")
       /\ doc_get "email" d' = Some (VStr "bob@example.org").
Proof.
  assert (H1 : ObjectId_of_str bob_id = Some 2%N) by by_eval.
  assert (H2 : stored_user 2%N world_users = Some bob_stored) by by_eval.
  split; [exact H1|]. split; [exact H2|].
  destruct (update_user_is_partial bob_id (mkUserUpdate (Some "Robert") None None)
              world_users 2%N bob_stored H1 H2)
    as (w' & d' & Hrun & Hstored & _ & Hname & Hrole & _ & _ & Hother).
  exists w', d'. split; [exact Hrun|]. split; [exact Hstored|].
  split; [exact Hname|]. split; [exact Hrole|].
  rewrite Hother by discriminate. reflexivity.
Defined.

Lemma update_and_delete_of_unknown_user_witness :
  ObjectId_of_str (oid_str 99%N) = Some 99%N
  /\ stored_user 99%N world_users = None
  /\ result (update_user (oid_str 99%N) (mkUserUpdate (Some "Nobody") None None))
       world_users
     = Raise (HTTP 404 "User not found")
  /\ result (delete_user "not-an-object-id") world_users = Raise InvalidId.
Proof.
  assert (H1 : ObjectId_of_str (oid_str 99%N) = Some 99%N) by by_eval.
  assert (H2 : stored_user 99%N world_users = None) by by_eval.
  assert (H3 : ObjectId_parse "not-an-object-id" = None) by by_eval.
  split; [exact H1|]. split; [exact H2|]. split.
  - unfold result.
    rewrite (proj1 (proj1 (update_and_delete_of_unknown_user (oid_str 99%N)
                             (mkUserUpdate (Some "Nobody") None None) world_users)
                      99%N H1 H2)).
    reflexivity.
  - unfold result.
    rewrite (proj2 (proj2 (update_and_delete_of_unknown_user "not-an-object-id"
                             (mkUserUpdate None None None) world_users)
                      H3)).
    reflexivity.
Defined.

(* ================================================================== *)
(** * The expiry of a token *)
(* ================================================================== *)

(** X24. The claims a token is made of.  [create_access_token] reads
    the clock once and encodes the data it is given with one claim
    changed: [exp] is the clock reading plus the delta passed, or plus
    twelve hours when no delta is passed, and also when the delta passed
    is zero, which Python takes for false.  An [exp] in the data is
    written over; every other claim is encoded as given. *)
Theorem create_access_token_claims {L : Libraries}
    (data : Dict) (expires_delta : option Z) (w : World) :
  exists claims,
    create_access_token data expires_delta w
    = (Ok (jwt_encode claims SECRET_KEY ALGORITHM), tick w)
    /\ dict_get "exp" claims
       = Some (VTime (clock w (ticks w)
                      + match expires_delta with
                        | Some 0 | None => 12 * 60 * 60 * 1000000
                        | Some delta => delta
                        end))
    /\ forall k, k <> "exp" -> dict_get k claims = dict_get k data.
Proof.
  exists (dict_set "exp"
            (VTime (clock w (ticks w)
                    + match expires_delta with
                      | Some d =>
                          if d =? 0 then timedelta_minutes ACCESS_TOKEN_EXPIRE_MINUTES else d
                      | None => timedelta_minutes ACCESS_TOKEN_EXPIRE_MINUTES
                      end))
            data).
  split; [reflexivity|]. split.
  - rewrite dict_get_set_same. do 3 f_equal.
    destruct expires_delta as [[| |]|]; reflexivity.
  - intros k Hk. now apply dict_get_set_other.
Qed.

(* ================================================================== *)
(** * Further statements at work on the example population *)
(* ================================================================== *)

Lemma no_space_by_test (token : string) :
  existsb (Ascii.eqb " ") (list_ascii_of_string token) = false ->
  ~ In " "%char (list_ascii_of_string token).
Proof.
  intros Htest Hin.
  assert (E : existsb (Ascii.eqb " ") (list_ascii_of_string token) = true).
  { apply existsb_exists. exists " "%char. split; [exact Hin | reflexivity]. }
  congruence.
Qed.

Lemma login_token_resolves_to_the_user_witness :
  distinct_ids world_users
  /\ first_match [("email", CEq (VStr "bob@example.org"))] (db world_users "user")
     = Some bob_stored
  /\ verify_password (L := plain_libraries) "pw-bob" "hashed:pw-bob" = Some true
  /\ exists w1 user w2,
       login (L := plain_libraries) (mkLoginRequest "bob@example.org" "pw-bob") world_users
       = (Ok (mkToken "user.000000000000000000000002.supersecretkey" "bearer"), w1)
       /\ get_current_user (L := plain_libraries)
            (Some "Bearer user.000000000000000000000002.supersecretkey") w1
          = (Ok user, w2)
       /\ _id user = 2%N
       /\ doc_get "role" user = Some (VStr "user").
Proof.
  assert (H1 : (_id bob_stored < oid_limit)%N) by by_eval.
  assert (H2 : first_match [("email", CEq (VStr "bob@example.org"))]
                 (db world_users "user") = Some bob_stored) by by_eval.
  assert (H3 : verify_password (L := plain_libraries) "pw-bob" "hashed:pw-bob" = Some true)
    by by_eval.
  assert (H4 : jwt_encode (Libraries := plain_libraries)
                 [("sub", VStr (oid_str (_id bob_stored)));
                  ("role", VStr "user");
                  ("exp", VTime (clock world_users (ticks world_users)
                                 + timedelta_minutes ACCESS_TOKEN_EXPIRE_MINUTES))]
                 SECRET_KEY ALGORITHM
               = "user.000000000000000000000002.supersecretkey") by by_eval.
  split; [apply store_ok_world_users|]. split; [exact H2|]. split; [exact H3|].
  destruct (login_token_resolves_to_the_user (L := plain_libraries)
              (mkLoginRequest "bob@example.org" "pw-bob") world_users bob_stored
              "hashed:pw-bob" (VStr "user")
              (proj2 store_ok_world_users) H1 H2 eq_refl H3 eq_refl)
    as (w1 & Hlogin & Hnext).
  rewrite H4 in Hlogin, Hnext.
  destruct (Hnext bob_claims) as (user & w2 & Hresolve & Hid & _ & Hrole & _).
  - apply no_space_by_test. by_eval.
  - by_eval.
  - by_eval.
  - reflexivity.
  - exists w1, user, w2.
    split; [exact Hlogin|]. split; [exact Hresolve|]. split; [exact Hid | exact Hrole].
Defined.

Lemma log_activity_records_the_caller_witness :
  storable (VDict [("page", VStr "home")]) = true
  /\ exists w' entry,
       log_activity (mkActivityLog "someone-else" "view" [("page", VStr "home")] (Some 0))
         bob_caller world_users
       = (Ok [("logged", VBool true)], w')
       /\ db w' "activity" = (db world_users "activity" ++ [entry])%list
       /\ doc_get "user_id" entry = Some (VStr (oid_str (_id bob_caller)))
       /\ doc_get "metadata" entry = Some (VDict [("page", VStr "home")]).
Proof.
  split; [reflexivity|].
  destruct (log_activity_records_the_caller
              (mkActivityLog "someone-else" "view" [("page", VStr "home")] (Some 0))
              bob_caller world_users eq_refl)
    as (w' & entry & Hrun & Hdb & _ & Huser & _ & _ & Hmeta).
  exists w', entry.
  split; [exact Hrun|]. split; [exact Hdb|]. split; [exact Huser | exact Hmeta].
Defined.

Lemma list_systems_is_the_intersection_witness :
  is_str (doc_get "role" bob_caller) "admin" = false
  /\ user_systems bob_caller = VList [VStr "school"]
  /\ exists shown,
       list_systems bob_caller world_users = (Ok shown, world_users)
       /\ In (VStr "school") shown
       /\ ~ In (VStr "hospital") shown.
Proof.
  assert (H1 : is_str (doc_get "role" bob_caller) "admin" = false) by by_eval.
  assert (H2 : user_systems bob_caller = VList [VStr "school"]) by by_eval.
  split; [exact H1|]. split; [exact H2|].
  destruct (proj2 (list_systems_is_the_intersection bob_caller world_users) H1 _ H2)
    as (shown & Hrun & Hiff & _).
  exists shown. split; [exact Hrun|]. split.
  - apply Hiff. split; [now left|]. exists "school". split; [reflexivity|]. now left.
  - intros Hin. apply Hiff in Hin. destruct Hin as [[Hin | []] _]. discriminate.
Defined.

Lemma create_then_query_finds_it_witness :
  allowed "school" bob_caller
  /\ exists rid w1 before doc w2,
       create_resource "school" "student" student_payload bob_caller world_users
       = (Ok [("id", VStr rid)], w1)
       /\ query_resources "school" "student" (mkQueryParams [] 0 0 None) bob_caller w1
          = (Ok (before ++ [doc])%list, w2)
       /\ doc_get "data" doc = Some (VDict [("name", VStr "Ann")]).
Proof.
  split; [exact bob_allowed_on_school|].
  destruct (create_then_query_finds_it "school" "student" student_payload bob_caller
              world_users bob_allowed_on_school eq_refl)
    as (rid & w1 & before & doc & w2 & Hcreate & _ & Hquery & _ & Hdata & _).
  exists rid, w1, before, doc, w2.
  split; [exact Hcreate|]. split; [exact Hquery | exact Hdata].
Defined.


Lemma update_resource_keeps_the_rest_witness :
  allowed "school" bob_caller
  /\ first_match (resource_key 5%N "school" "student") (db world_resources "resource")
     = Some student_stored
  /\ exists w1 new,
       update_resource "school" "student" (oid_str 5%N)
         (mkResourceUpdate [("grade", VInt 3)]) bob_caller world_resources
       = (Ok [("updated", VBool true)], w1)
       /\ first_match (resource_key 5%N "school" "student") (db w1 "resource") = Some new
       /\ doc_get "owner_id" new = Some (VStr "000000000000000000000002")
       /\ doc_get "created_at" new = Some (VTime 1800000011000000).
Proof.
  assert (H1 : ObjectId_of_str (oid_str 5%N) = Some 5%N) by by_eval.
  assert (H2 : first_match (resource_key 5%N "school" "student")
                 (db world_resources "resource")
               = Some student_stored) by by_eval.
  split; [exact bob_allowed_on_school|]. split; [exact H2|].
  destruct (update_resource_keeps_the_rest "school" "student" (oid_str 5%N)
              (mkResourceUpdate [("grade", VInt 3)]) bob_caller world_resources 5%N
              student_stored bob_allowed_on_school H1 H2 eq_refl)
    as (w1 & new & Hrun & Hfound & _ & _ & Hrest).
  exists w1, new. split; [exact Hrun|]. split; [exact Hfound|].
  split; rewrite Hrest by discriminate; reflexivity.
Defined.


Lemma emails_stay_distinct_witness :
  NoDup (stored_emails world_users)
  /\ NoDup (stored_emails (run (register (L := plain_libraries) dave) world_users))
  /\ NoDup (stored_emails (run (register (L := plain_libraries) bob) world_users)).
Proof.
  assert (H1 : NoDup (stored_emails world_users)).
  { assert (E : stored_emails world_users
                = [Some (VStr "alice@example.org"); Some (VStr "bob@example.org");
                   Some (VStr "carol@example.org")]) by by_eval.
    rewrite E. repeat (constructor; [simpl; intuition discriminate|]). constructor. }
  split; [exact H1|].
  destruct (emails_stay_distinct (L := plain_libraries) world_users H1) as (Hreg & _).
  split; apply Hreg.
Defined.


Lemma system_analytics_counts_witness :
  allowed "school" bob_caller
  /\ (forall d, In d (db world_resources "resource") ->
                exists t, doc_get "created_at" d = Some (VTime t))
  /\ exists series w',
       system_analytics "school" bob_caller world_resources
       = (Ok [("series", VList (map VDict series)); ("total", VInt 1)], w')
       /\ total_count series = 1.
Proof.
  assert (H1 : forall d, In d (db world_resources "resource") ->
                         exists t, doc_get "created_at" d = Some (VTime t)).
  { assert (Hall : forallb
                     (fun d => match doc_get "created_at" d with
                               | Some (VTime _) => true
                               | _ => false
                               end)
                     (db world_resources "resource") = true) by by_eval.
    intros d Hd. rewrite forallb_forall in Hall. specialize (Hall d Hd).
    destruct (doc_get "created_at" d) as [[]|]; try discriminate. eauto. }
  assert (H2 : Z.of_nat (List.length
                           (filter (doc_matches [("system", CEq (VStr "school"))])
                              (db world_resources "resource"))) = 1) by by_eval.
  assert (H3 : Z.of_nat
                 (List.length
                    (filter
                       (doc_matches
                          [("system", CEq (VStr "school"));
                           ("created_at",
                            CGteTime
                              (datetime_ymd
                                 (dt_year (clock world_resources (ticks world_resources)))
                                 1 1))])
                       (db world_resources "resource"))) = 1) by by_eval.
  split; [exact bob_allowed_on_school|]. split; [exact H1|].
  destruct (system_analytics_counts "school" bob_caller world_resources
              bob_allowed_on_school H1)
    as (series & w' & Hrun & Htotal).
  exists series, w'. rewrite H2 in Hrun. rewrite H3 in Htotal.
  split; [exact Hrun | exact Htotal].
Defined.

Lemma query_answers_the_scope_witness :
  allowed "school" bob_caller
  /\ result (query_resources "school" "student"
               (mkQueryParams [(mkFieldName "owner_id" eq_refl, CEq (VStr bob_id))]
                  0 0 (Some ["name"]))
               bob_caller)
       world_resources
     = Ok [with_id student_stored].
Proof.
  set (conditions := [(mkFieldName "owner_id" eq_refl, CEq (VStr bob_id))] : FieldFilter).
  assert (H1 : NoDup (map (fun kc : FieldName * Cond => field_name (fst kc)) conditions)).
  { constructor; [intros [] | constructor]. }
  assert (H2 : forall kc, In kc conditions ->
                 field_name (fst kc) <> "system" /\ field_name (fst kc) <> "type").
  { intros kc [<- | []]. split; discriminate. }
  assert (H3 : forall kc v, In kc conditions -> In v (cond_operands (snd kc)) ->
                 literal v = true).
  { intros kc v [<- | []] [<- | []]. reflexivity. }
  assert (H4 : map with_id
                 (filter
                    (fun d => doc_matches (scope "school" "student") d
                              && doc_matches (filter_of conditions) d)
                    (db world_resources "resource"))
               = [with_id student_stored]) by by_eval.
  split; [exact bob_allowed_on_school|].
  unfold result.
  rewrite (query_answers_the_scope "school" "student" conditions
             (Some ["name"]) bob_caller world_resources bob_allowed_on_school H1 H2 H3).
  cbn [fst]. now rewrite H4.
Defined.
